(** * ghost-agent: the task runner, its action tools and its memory index

    A shallow embedding of the Python sources

    - [ghost_agent/tools/fs_tools.py]   (module [FsTools])
    - [ghost_agent/tools/cmd_tools.py]  (module [CmdTools])
    - [ghost_agent/tools/git_tools.py]  (module [GitTools])
    - [ghost_agent/schema.py]           (module [Schema])
    - [ghost_agent/memory/store.py]     (module [MemoryStore])
    - [ghost_agent/orchestrator.py]     (module [Orchestrator])
    - [ghost_agent/utils/watch.py]      (module [Watch])

    of the properties their specification states about them, and of
    further properties the sources show.

    Conventions of the embedding:

    - Python [str] is [string] (8-bit characters, ASCII case rules),
      Python [int] is [Z]; a [dict] whose order can be observed is the
      list of its items, any other one a [gmap].
    - A function that may raise returns a [result]; a function with
      effects takes the [World] and returns the new one.  The world holds
      the file tree, the decoded content of the memory index file, and the
      [trace] of the calls that reach outside the process.
    - The file tree maps canonical paths to texts.  Directories are
      implicit (a directory exists when a file lies below it), so that
      creating one changes nothing, and a write succeeds.
    - What the interpreter's libraries and the operating system decide
      (path canonicalisation, shell tokenisation, JSON coding, the child
      process, the completion service, the date) is gathered in the
      record [Platform].  Every general statement below holds for every
      platform; [posix] is a concrete one on which the definitions
      evaluate.
    - The loop [while True] of [_run_loop] takes fuel; that enough fuel
      always yields an outcome is proved.
    - The file watcher sees the tree below its root as [os.walk] lists it,
      with the modification times of the files.
    - Printing to standard output ([_print_verbose]) is left out. *)

From Stdlib Require Import ZArith String Ascii Bool List Sorted Lia.
From stdpp Require Import base option list gmap strings fin_maps.

Local Open Scope string_scope.
Local Open Scope list_scope.

(** string concatenation, Python's [+] on [str] *)
Infix "+:+" := String.append (at level 60, right associativity).

(** ** Exceptions and results *)

(** The exception classes the sources raise or let through.  [FsError] and
    [CmdError] both derive from [ValueError] in the sources. *)
Inductive exn : Type :=
| FsError (msg : string)
| CmdError (msg : string)
| ValueError (msg : string)
| OSError (msg : string)
| KeyError (msg : string)
| TypeError (msg : string)
| HTTPError (msg : string).

(** [str(exc)] *)
Definition str_exc (e : exn) : string :=
  match e with
  | FsError m | CmdError m | ValueError m | OSError m | KeyError m
  | TypeError m | HTTPError m => m
  end.



Inductive result (A : Type) : Type :=
| Ok (a : A)
| Raise (e : exn).
Arguments Ok {A} a.
Arguments Raise {A} e.

#[global] Instance result_ret : MRet result := fun A a => Ok a.
#[global] Instance result_bind : MBind result := fun A B k r =>
  match r with
  | Ok a => k a
  | Raise e => Raise e
  end.

#[global] Instance result_fmap : FMap result := fun A B f r =>
  match r with
  | Ok a => Ok (f a)
  | Raise e => Raise e
  end.

(** the newline character and the double quote as strings *)
Definition LF : string := String "010" EmptyString.
Definition DQ : string := String "034" EmptyString.

(** a double-quoted piece of text *)
Definition quoted (s : string) : string := DQ +:+ s +:+ DQ.

(** ** Python string operations *)

Module PyStr.

Definition is_upper (c : ascii) : bool :=
  let n := nat_of_ascii c in (65 <=? n)%nat && (n <=? 90)%nat.

Definition lower_char (c : ascii) : ascii :=
  if is_upper c then ascii_of_nat (nat_of_ascii c + 32) else c.

(** [s.lower()] *)
Fixpoint lower (s : string) : string :=
  match s with
  | EmptyString => EmptyString
  | String c s' => String (lower_char c) (lower s')
  end.

(** the characters [str.strip()] removes: tab, LF, VT, FF, CR, FS, GS,
    RS, US and space *)
Definition is_space (c : ascii) : bool :=
  let n := nat_of_ascii c in
  ((9 <=? n)%nat && (n <=? 13)%nat) || ((28 <=? n)%nat && (n <=? 32)%nat).

(** [s.lstrip()] *)
Fixpoint lstrip (s : string) : string :=
  match s with
  | EmptyString => EmptyString
  | String c s' => if is_space c then lstrip s' else s
  end.

(** [s.rstrip()] *)
Fixpoint rstrip (s : string) : string :=
  match s with
  | EmptyString => EmptyString
  | String c s' =>
      match rstrip s' with
      | EmptyString => if is_space c then EmptyString else String c EmptyString
      | r => String c r
      end
  end.

(** [s.strip()] *)
Definition strip (s : string) : string := rstrip (lstrip s).

(** [s.startswith(p)] *)
Definition startswith (p s : string) : bool := String.prefix p s.

(** [needle in s] *)
Fixpoint contains (needle s : string) : bool :=
  String.prefix needle s ||
  match s with
  | EmptyString => false
  | String _ s' => contains needle s'
  end.

(** [s.endswith(p)] *)
Definition endswith (p s : string) : bool :=
  let ls := String.length s in
  let lp := String.length p in
  (lp <=? ls)%nat && String.eqb (String.substring (ls - lp) lp s) p.

(** [s.replace(a, b)] for one-character [a] and [b] *)
Fixpoint replace_char (a b : ascii) (s : string) : string :=
  match s with
  | EmptyString => EmptyString
  | String c s' =>
      String (if Ascii.eqb c a then b else c) (replace_char a b s')
  end.

(** [s.split(sep)] for a one-character separator *)
Fixpoint split_on (sep : ascii) (s : string) : list string :=
  match s with
  | EmptyString => [EmptyString]
  | String c s' =>
      if Ascii.eqb c sep then EmptyString :: split_on sep s'
      else match split_on sep s' with
           | h :: t => String c h :: t
           | [] => [String c EmptyString]
           end
  end.

(** [sep.join(l)] *)
Fixpoint join (sep : string) (l : list string) : string :=
  match l with
  | [] => EmptyString
  | [x] => x
  | x :: l' => x +:+ sep +:+ join sep l'
  end.

(** [s[:n]] for [0 <= n] *)
Definition take (n : nat) (s : string) : string := String.substring 0 n s.

(** membership of a string in a list, [x in l] *)
Definition mem (x : string) (l : list string) : bool :=
  existsb (String.eqb x) l.

(** the line boundaries of [str.splitlines]: LF, VT, FF, CR, FS, GS, RS *)
Definition is_linebreak (c : ascii) : bool :=
  let n := nat_of_ascii c in
  ((10 <=? n)%nat && (n <=? 13)%nat) || ((28 <=? n)%nat && (n <=? 30)%nat).

(** [s.splitlines()]; [cur] is the line being read, reversed, and
    [after_cr] tells that the previous character was a carriage return *)
Fixpoint splitlines_go (s : string) (cur : string) (started after_cr : bool)
  : list string :=
  match s with
  | EmptyString => if started then [cur] else []
  | String c s' =>
      if after_cr && Ascii.eqb c "010" then splitlines_go s' cur started false
      else if is_linebreak c
      then cur :: splitlines_go s' EmptyString false (Ascii.eqb c "013")
      else splitlines_go s' (cur +:+ String c EmptyString) true false
  end.

Definition splitlines (s : string) : list string :=
  splitlines_go s EmptyString false false.

(** [sorted(l)] on strings: insertion into a sorted list, stable *)
Fixpoint insert_sorted (x : string) (l : list string) : list string :=
  match l with
  | [] => [x]
  | y :: l' => if String.ltb x y then x :: l else y :: insert_sorted x l'
  end.

Definition sorted (l : list string) : list string :=
  foldr (fun x acc => insert_sorted x acc) [] l.

(** [str(n)] for a natural number *)
Definition digit (n : nat) : ascii := ascii_of_nat (48 + n).

Fixpoint of_nat_go (fuel n : nat) (acc : string) : string :=
  match fuel with
  | O => acc
  | S fuel' =>
      let acc' := String (digit (n mod 10)) acc in
      if (n <? 10)%nat then acc' else of_nat_go fuel' (n / 10) acc'
  end.

Definition of_nat (n : nat) : string := of_nat_go (S n) n EmptyString.

End PyStr.

(** ** pathlib: pure POSIX paths *)

Module PyPath.

(** A parsed path: the root is [""], ["/"] or ["//"]; [parts] are the
    components after the root. *)
Record Path : Type := mkPath { root : string; parts : list string }.

Fixpoint count_leading (c : ascii) (s : string) : nat :=
  match s with
  | String a s' => if Ascii.eqb a c then S (count_leading c s') else 0
  | EmptyString => 0
  end.

(** [_PosixFlavour.splitroot] *)
Definition splitroot (s : string) : string :=
  match count_leading "/" s with
  | 0 => ""
  | 2 => "//"
  | _ => "/"
  end.

Definition keep_part (x : string) : bool :=
  negb (String.eqb x "") && negb (String.eqb x ".").

(** [Path(s)] *)
Definition parse (s : string) : Path :=
  {| root := splitroot s;
     parts := filter (fun x => keep_part x = true) (PyStr.split_on "/" s) |}.

(** the tuple [Path.parts]: the root, when there is one, comes first *)
Definition abs_parts (p : Path) : list string :=
  if String.eqb (root p) "" then parts p else root p :: parts p.

(** [p.is_absolute()] *)
Definition is_absolute (p : Path) : bool := negb (String.eqb (root p) "").

(** [a / b] *)
Definition joinpath (a b : Path) : Path :=
  if is_absolute b then b
  else {| root := root a; parts := parts a ++ parts b |}.

(** [p / name] for a single plain component *)
Definition child (p : Path) (name : string) : Path :=
  {| root := root p; parts := parts p ++ [name] |}.

(** [p.is_relative_to(other)]: [relative_to] succeeds *)
Definition is_relative_to (p other : Path) : bool :=
  match abs_parts other with
  | [] => String.eqb (root p) ""
  | to_parts =>
      bool_decide (firstn (length to_parts) (abs_parts p) = to_parts)
  end.

(** [p.relative_to(other)]; [None] is the [ValueError] *)
Definition relative_to (p other : Path) : option Path :=
  if is_relative_to p other
  then Some {| root := "";
               parts := drop (length (abs_parts other)) (abs_parts p) |}
  else None.

(** [p.name] *)
Definition name (p : Path) : string := List.last (parts p) "".

(** [str(p)] *)
Definition to_string (p : Path) : string :=
  match root p, parts p with
  | "", [] => "."
  | r, ps => r +:+ PyStr.join "/" ps
  end.

(** Canonicalisation on a file system without symbolic links: make the
    path absolute against [cwd], then fold the [..] components. *)
Fixpoint fold_dotdot (acc : list string) (ps : list string) : list string :=
  match ps with
  | [] => rev acc
  | p :: ps' =>
      if String.eqb p ".." then fold_dotdot (tl acc) ps'
      else fold_dotdot (p :: acc) ps'
  end.

Definition lexical_resolve (cwd : Path) (p : Path) : Path :=
  let q := joinpath cwd p in
  {| root := root q; parts := fold_dotdot [] (parts q) |}.

End PyPath.
Export PyPath(Path, mkPath).

(** ** JSON values *)

(** What [json.loads] returns and [json.dumps] accepts.  An object is the
    item list of a [dict]: its keys are pairwise distinct. *)
#[warnings="-register-all"]
Inductive json : Type :=
| JNull
| JBool (b : bool)
| JInt (n : Z)
| JFloat (lexeme : string)
| JStr (s : string)
| JArr (items : list json)
| JObj (fields : list (string * json)).

(** [d.get(k)] on the items of a dict *)
Fixpoint assoc {A} (k : string) (l : list (string * A)) : option A :=
  match l with
  | [] => None
  | (k', v) :: l' => if String.eqb k k' then Some v else assoc k l'
  end.

(** ** The file tree, the world and the platform *)

(** Files by canonical path (the tuple [Path.parts]); directories are
    implicit: a directory exists when a file lies below it. *)
Abbreviation FS := (gmap (list string) string).

(** The calls with an effect outside the process, most recent first. *)
Inductive event : Type :=
| EvWriteFile (path_str : string)          (* fs_tools.write_file entered *)
| EvSpawn (cmd : string) (cwd : Path)      (* subprocess.run called *)
| EvChat (n : nat)                         (* ollama_chat called *)
| EvWriteLesson (task_id note : string)    (* MemoryStore.write_lesson called *)
| EvWriteState (text : string)             (* Orchestrator._write_state called *)
| EvPhase (name : string).                 (* the loop entered this phase's branch *)

(** What a run reads and changes: the file tree, the decoded content of the
    memory index file [index.json], the calls made so far and the number of
    completion requests sent. *)
Record World : Type := mkWorld {
  files : FS;
  index : gmap string (list string);
  trace : list event;
  turns : nat
}.

Definition set_files (w : World) (fs : FS) : World :=
  {| files := fs; index := index w; trace := trace w; turns := turns w |}.

Definition set_index (w : World) (ix : gmap string (list string)) : World :=
  {| files := files w; index := ix; trace := trace w; turns := turns w |}.

Definition emit (ev : event) (w : World) : World :=
  {| files := files w; index := index w; trace := ev :: trace w;
     turns := turns w |}.

Definition next_turn (w : World) : World :=
  {| files := files w; index := index w; trace := trace w;
     turns := S (turns w) |}.

(** [subprocess.CompletedProcess] with captured text output *)
Record CompletedProcess : Type := mkCompleted {
  cp_returncode : Z;
  cp_stdout : string;
  cp_stderr : string
}.

(** A chat message [{"role": r, "content": c}] *)
Record Message : Type := mkMessage { role : string; content : string }.

(** Everything the sources obtain from the interpreter's libraries and
    from the operating system. *)
Record Platform : Type := mkPlatform {
  (** [Path.resolve()]: canonical absolute form, symbolic links followed *)
  resolve : Path -> Path;
  (** [shlex.split(cmd, posix=os.name != "nt")]; [inl msg] is the
      [ValueError(msg)] of an unbalanced quote or a dangling escape *)
  shlex_split : string -> string + list string;
  (** [json.loads]; [None] is [json.JSONDecodeError] *)
  json_loads : string -> option json;
  (** [json.dumps(v)] and [json.dumps(v, indent=2)] *)
  json_dumps : json -> string;
  json_dumps_indent : json -> string;
  (** [subprocess.run(cmd, cwd=cwd, capture_output=True, text=True,
      timeout=t)]: the child may change the file tree; the call raises
      when the program cannot be started or the timeout expires *)
  subprocess_run : string -> Path -> Z -> FS -> FS * result CompletedProcess;
  (** [ollama_chat]: the reply to the [n]-th request; it raises on
      transport failures *)
  ollama_chat : nat -> list Message -> result string;
  (** [date.today().isoformat()] *)
  today : string
}.

(** ** fs_tools.py *)

Module FsTools.
Import PyPath.

Section WithPlatform.
Variable P : Platform.

(** the key under which the operating system finds the file named [p] *)
Definition os_key (p : Path) : list string := abs_parts (resolve P p).

Fixpoint strict_prefixb (l1 l2 : list string) : bool :=
  match l1, l2 with
  | [], _ :: _ => true
  | x :: l1', y :: l2' => String.eqb x y && strict_prefixb l1' l2'
  | _, _ => false
  end.

(** [p.is_file()] *)
Definition is_file (fs : FS) (p : Path) : bool :=
  bool_decide (is_Some (fs !! os_key p)).

(** [p.is_dir()] *)
Definition is_dir (fs : FS) (p : Path) : bool :=
  existsb (fun kv => strict_prefixb (os_key p) (fst kv)) (map_to_list fs).

(** [p.exists()] *)
Definition path_exists (fs : FS) (p : Path) : bool :=
  is_file fs p || is_dir fs p.

(** [p.read_text()] *)
Definition read_text (fs : FS) (p : Path) : result string :=
  match fs !! os_key p with
  | Some c => Ok c
  | None => Raise (OSError ("No such file: " +:+ to_string p))
  end.

(** [p.write_text(content)] *)
Definition write_text (fs : FS) (p : Path) (c : string) : FS :=
  <[os_key p := c]> fs.

(** [with p.open("a") as h: h.write(line)] *)
Definition append_text (fs : FS) (p : Path) (line : string) : FS :=
  <[os_key p := default "" (fs !! os_key p) +:+ line]> fs.

Definition safe_path (root : Path) (path_str : string) : result Path :=
  let root := resolve P root in
  let raw := parse path_str in
  let candidate := if is_absolute raw then raw else joinpath root raw in
  let candidate := resolve P candidate in
  if negb (is_relative_to candidate root)
  then Raise (FsError ("Path escapes workspace: " +:+ path_str))
  else Ok candidate.

Definition read_file (w : World) (root : Path) (path_str : string)
  : result string :=
  path ← safe_path root path_str;
  read_text (files w) path.

Definition write_file (w : World) (root : Path) (path_str content : string)
  : World * result string :=
  let w := emit (EvWriteFile path_str) w in
  match safe_path root path_str with
  | Raise e => (w, Raise e)
  | Ok path =>
      (set_files w (write_text (files w) path content),
       Ok ("wrote " +:+ to_string path))
  end.

(** the names directly below the directory [key], one per entry *)
Definition child_names (fs : FS) (key : list string) : list string :=
  remove_dups
    (omap (fun kv : list string * string =>
             if strict_prefixb key (fst kv)
             then head (drop (length key) (fst kv)) else None)
          (map_to_list fs)).

Definition list_dir (w : World) (root : Path) (path_str : string)
  : result (list string) :=
  path ← safe_path root path_str;
  if negb (path_exists (files w) path)
  then Raise (FsError ("Path not found: " +:+ to_string path))
  else if is_file (files w) path
  then Raise (OSError ("Not a directory: " +:+ to_string path))
  else
    Ok (map (fun n => n +:+ (if is_dir (files w) (child path n)
                             then "/" else ""))
            (PyStr.sorted (child_names (files w) (os_key path)))).

(** one match record [{"path": .., "line": .., "text": ..}] *)
Record Match : Type := mkMatch {
  m_path : string; m_line : nat; m_text : string
}.

(** [str(file_path.relative_to(root))] for the file stored under [key] *)
Definition relative_str (root : Path) (key : list string)
  : result string :=
  let n := length (abs_parts root) in
  if bool_decide (firstn n key = abs_parts root)
  then Ok (to_string (mkPath "" (drop n key)))
  else Raise (ValueError "not in the subpath")
  .

Fixpoint scan_lines (rel query : string) (idx : nat) (ls : list string)
  : list Match :=
  match ls with
  | [] => []
  | l :: ls' =>
      (if PyStr.contains query l
       then [mkMatch rel idx (PyStr.strip l)] else [])
      ++ scan_lines rel query (S idx) ls'
  end.

Fixpoint scan_files (root : Path) (query : string)
    (fs : list (list string * string)) : result (list Match) :=
  match fs with
  | [] => Ok []
  | (key, text) :: fs' =>
      let ls := PyStr.splitlines text in
      if existsb (PyStr.contains query) ls then
        rel ← relative_str root key;
        rest ← scan_files root query fs';
        Ok (scan_lines rel query 1 ls ++ rest)
      else scan_files root query fs'
  end.

(** [base.rglob("*")] visits the files in an order the operating
    system chooses; the model takes the order of the keys. *)
Definition search_in_files (w : World) (root : Path)
    (path_str query : string) : result (list Match) :=
  base ← safe_path root path_str;
  if negb (path_exists (files w) base)
  then Raise (FsError ("Path not found: " +:+ to_string base))
  else
    scan_files root query
      (filter (fun kv => strict_prefixb (os_key base) (fst kv) = true)
              (map_to_list (files w))).

End WithPlatform.

End FsTools.

(** ** shlex: POSIX tokenisation *)

(** [shlex.split(s)] as the standard library computes it in POSIX mode:
    whitespace separates tokens, quotes group, a backslash escapes, and
    there are neither comments nor punctuation characters. *)
Module Shlex.

Inductive lex_state : Type :=
| InWhitespace                       (* between tokens *)
| InWord                             (* inside a word *)
| InQuote (q : ascii)                (* inside quotes opened by q *)
| InEscape (escapedstate : option ascii).
                  (* after a backslash; None: the backslash was in a word *)

Definition is_whitespace (c : ascii) : bool :=
  Ascii.eqb c " " || Ascii.eqb c "009" || Ascii.eqb c "013"
  || Ascii.eqb c "010".

Definition is_quote (c : ascii) : bool :=
  Ascii.eqb c "039" || Ascii.eqb c "034".

Definition is_escape (c : ascii) : bool := Ascii.eqb c "092".

Definition push (token : string) (c : ascii) : string :=
  token +:+ String c EmptyString.

Definition nonempty (s : string) : bool :=
  match s with EmptyString => false | _ => true end.

(** the loop of [read_token], run over the whole input; [acc] holds the
    tokens already emitted, most recent first *)
Fixpoint lex (s : string) (st : lex_state) (token : string)
    (quoted : bool) (acc : list string) : string + list string :=
  match s with
  | EmptyString =>
      match st with
      | InWhitespace => inr (rev acc)
      | InWord =>
          if nonempty token || quoted then inr (rev (token :: acc))
          else inr (rev acc)
      | InQuote _ => inl "No closing quotation"
      | InEscape _ => inl "No escaped character"
      end
  | String c s' =>
      match st with
      | InWhitespace =>
          if is_whitespace c then
            if nonempty token || quoted
            then lex s' InWhitespace EmptyString false (token :: acc)
            else lex s' InWhitespace token quoted acc
          else if is_escape c then lex s' (InEscape None) token quoted acc
          else if is_quote c then lex s' (InQuote c) token quoted acc
          else lex s' InWord (String c EmptyString) quoted acc
      | InQuote q =>
          if Ascii.eqb c q then lex s' InWord token true acc
          else if is_escape c && Ascii.eqb q "034"
          then lex s' (InEscape (Some q)) token true acc
          else lex s' (InQuote q) (push token c) true acc
      | InEscape escapedstate =>
          let token :=
            match escapedstate with
            | Some q =>
                if negb (is_escape c) && negb (Ascii.eqb c q)
                then push token "092" else token
            | None => token
            end in
          lex s' (match escapedstate with
                  | Some q => InQuote q
                  | None => InWord
                  end) (push token c) quoted acc
      | InWord =>
          if is_whitespace c then
            if nonempty token || quoted
            then lex s' InWhitespace EmptyString false (token :: acc)
            else lex s' InWhitespace token quoted acc
          else if is_quote c then lex s' (InQuote c) token quoted acc
          else if is_escape c then lex s' (InEscape None) token quoted acc
          else lex s' InWord (push token c) quoted acc
      end
  end.

Definition split (s : string) : string + list string :=
  lex s InWhitespace EmptyString false [].

End Shlex.

(** ** cmd_tools.py *)

Module CmdTools.
Import PyPath.

Definition DEFAULT_ALLOWLIST : list string :=
  ["python"; "python.exe"; "pytest"; "git"; "pip"; "ruff"].

Definition BLOCKLIST_TOKENS : list string :=
  ["sudo"; "rm -rf"; "curl"; "wget"].

(** the dict [{"returncode": .., "output": ..}] *)
Record CmdResult : Type := mkCmdResult {
  returncode : Z;
  output : string
}.

(** [allowlist or DEFAULT_ALLOWLIST]: [None] and the empty collection are
    both falsy *)
Definition effective_allowlist (allowlist : option (list string))
  : list string :=
  match allowlist with
  | None | Some [] => DEFAULT_ALLOWLIST
  | Some l => l
  end.

(** [any(token in cmd_lower for token in BLOCKLIST_TOKENS)] *)
Definition has_blocked_token (cmd_lower : string) : bool :=
  existsb (fun token => PyStr.contains token cmd_lower) BLOCKLIST_TOKENS.

(** [output[:max_output]] *)
Definition slice_to (max_output : Z) (s : string) : string :=
  if (0 <=? max_output)%Z then PyStr.take (Z.to_nat max_output) s
  else PyStr.take (String.length s - Z.to_nat (- max_output)) s.

Definition truncate_output (max_output : Z) (out : string) : string :=
  if (max_output <? Z.of_nat (String.length out))%Z
  then slice_to max_output out +:+ LF +:+ "...[truncated]"
  else out.

Section WithPlatform.
Variable P : Platform.

Definition _split_cmd (cmd : string) : result (list string) :=
  match shlex_split P cmd with
  | inr parts => Ok parts
  | inl msg => Raise (ValueError msg)
  end.

Definition _extract_exe (cmd : string) : result string :=
  parts ← _split_cmd cmd;
  match parts with
  | [] => Raise (CmdError "Empty command")
  | p0 :: _ => Ok (name (parse p0))
  end.

Definition _ensure_within_root (root : Path) (cwd : string)
  : result Path :=
  let root := resolve P root in
  let path := parse cwd in
  let path := if negb (is_absolute path) then joinpath root path
              else path in
  let path := resolve P path in
  if negb (is_relative_to path root)
  then Raise (CmdError ("CWD escapes workspace: " +:+ cwd))
  else Ok path.

Definition run_cmd (w : World) (cmd cwd : string) (root : Path)
    (allowlist : option (list string)) (timeout max_output : Z)
  : World * result CmdResult :=
  let allow := effective_allowlist allowlist in
  match _extract_exe cmd with
  | Raise e => (w, Raise e)
  | Ok exe =>
      let cmd_lower := PyStr.lower cmd in
      if has_blocked_token cmd_lower
      then (w, Raise (CmdError "Command contains blocked token"))
      else if negb (PyStr.mem exe allow)
      then (w, Raise (CmdError ("Command not allowed: " +:+ exe)))
      else
        match _ensure_within_root root cwd with
        | Raise e => (w, Raise e)
        | Ok safe_cwd =>
            let w := emit (EvSpawn cmd safe_cwd) w in
            let '(fs', r) :=
              subprocess_run P cmd safe_cwd timeout (files w) in
            let w := set_files w fs' in
            match r with
            | Raise e => (w, Raise e)
            | Ok completed =>
                let out := cp_stdout completed +:+ cp_stderr completed in
                (w, Ok {| returncode := cp_returncode completed;
                          output := truncate_output max_output out |})
            end
        end
  end.

(** the defaults [timeout=30], [max_output=4000], [allowlist=None] *)
Definition run_cmd_default (w : World) (cmd cwd : string) (root : Path)
  : World * result CmdResult :=
  run_cmd w cmd cwd root None 30 4000.

End WithPlatform.

End CmdTools.

(** ** git_tools.py *)

Module GitTools.

Section WithPlatform.
Variable P : Platform.

Definition git_status (w : World) (root : Path)
  : World * result CmdTools.CmdResult :=
  CmdTools.run_cmd_default P w "git status -sb" (PyPath.to_string root) root.

Definition git_diff (w : World) (root : Path)
  : World * result CmdTools.CmdResult :=
  CmdTools.run_cmd_default P w "git diff" (PyPath.to_string root) root.

End WithPlatform.

End GitTools.

(** ** schema.py *)

Module Schema.

(** The five action models; every field is a required [str]. *)
Inductive Action : Type :=
| WriteFileAction (path content : string)
| ReadFileAction (path : string)
| ListDirAction (path : string)
| SearchInFilesAction (path query : string)
| RunCmdAction (cmd cwd : string).

Record ActionResponse : Type := mkActionResponse {
  thought : string;
  actions : list Action
}.

(** [action.tool] *)
Definition tool (a : Action) : string :=
  match a with
  | WriteFileAction _ _ => "write_file"
  | ReadFileAction _ => "read_file"
  | ListDirAction _ => "list_dir"
  | SearchInFilesAction _ _ => "search_in_files"
  | RunCmdAction _ _ => "run_cmd"
  end.

(** [extra="forbid"]: every key of the dict is a declared field *)
Definition keys_within (allowed : list string) (fields : list (string * json))
  : bool :=
  forallb (fun kv => PyStr.mem (fst kv) allowed) fields.

(** a required field of type [str] *)
Definition get_str (k : string) (fields : list (string * json))
  : option string :=
  match assoc k fields with
  | Some (JStr s) => Some s
  | _ => None
  end.

(** the field [tool: Literal[lit]] *)
Definition has_tool (lit : string) (fields : list (string * json)) : bool :=
  match assoc "tool" fields with
  | Some (JStr s) => String.eqb s lit
  | _ => false
  end.

Definition validate_write_file (fields : list (string * json))
  : option Action :=
  if keys_within ["tool"; "path"; "content"] fields
     && has_tool "write_file" fields
  then path ← get_str "path" fields;
       content ← get_str "content" fields;
       Some (WriteFileAction path content)
  else None.

Definition validate_read_file (fields : list (string * json))
  : option Action :=
  if keys_within ["tool"; "path"] fields && has_tool "read_file" fields
  then path ← get_str "path" fields; Some (ReadFileAction path)
  else None.

Definition validate_list_dir (fields : list (string * json))
  : option Action :=
  if keys_within ["tool"; "path"] fields && has_tool "list_dir" fields
  then path ← get_str "path" fields; Some (ListDirAction path)
  else None.

Definition validate_search_in_files (fields : list (string * json))
  : option Action :=
  if keys_within ["tool"; "path"; "query"] fields
     && has_tool "search_in_files" fields
  then path ← get_str "path" fields;
       query ← get_str "query" fields;
       Some (SearchInFilesAction path query)
  else None.

Definition validate_run_cmd (fields : list (string * json))
  : option Action :=
  if keys_within ["tool"; "cmd"; "cwd"] fields && has_tool "run_cmd" fields
  then cmd ← get_str "cmd" fields;
       cwd ← get_str "cwd" fields;
       Some (RunCmdAction cmd cwd)
  else None.

(** the union [Action]: the first member that validates *)
Definition validate_action (j : json) : option Action :=
  match j with
  | JObj fields =>
      match validate_write_file fields with
      | Some a => Some a
      | None =>
      match validate_read_file fields with
      | Some a => Some a
      | None =>
      match validate_list_dir fields with
      | Some a => Some a
      | None =>
      match validate_search_in_files fields with
      | Some a => Some a
      | None => validate_run_cmd fields
      end end end end
  | _ => None
  end.

(** [ActionResponse.model_validate(data)]; [None] is [ValidationError] *)
Definition model_validate (data : json) : option ActionResponse :=
  match data with
  | JObj fields =>
      if keys_within ["thought"; "actions"] fields then
        thought ← get_str "thought" fields;
        actions ← match assoc "actions" fields with
                  | None => Some []
                  | Some (JArr items) => mapM validate_action items
                  | Some _ => None
                  end;
        Some {| thought := thought; actions := actions |}
      else None
  | _ => None
  end.

Section WithPlatform.
Variable P : Platform.

Definition parse_action_response (text : string) : result ActionResponse :=
  let payload := PyStr.strip text in
  match json_loads P payload with
  | None => Raise (ValueError "Invalid JSON from model")
  | Some data =>
      match model_validate data with
      | Some r => Ok r
      | None => Raise (ValueError "Invalid action schema")
      end
  end.

End WithPlatform.

End Schema.

(** ** memory/store.py *)

Module MemoryStore.
Import PyPath.

Definition is_token_char (c : ascii) : bool :=
  let n := nat_of_ascii c in
  ((97 <=? n)%nat && (n <=? 122)%nat) || ((48 <=? n)%nat && (n <=? 57)%nat).

(** [re.findall(r"[a-z0-9]+", s)]: the maximal runs, left to right *)
Fixpoint findall_runs (s : string) (cur : string) : list string :=
  match s with
  | EmptyString =>
      match cur with EmptyString => [] | _ => [cur] end
  | String c s' =>
      if is_token_char c
      then findall_runs s' (cur +:+ String c EmptyString)
      else match cur with
           | EmptyString => findall_runs s' EmptyString
           | _ => cur :: findall_runs s' EmptyString
           end
  end.

Definition _tokenize (text : string) : list string :=
  findall_runs (PyStr.lower text) EmptyString.

(** [scores[path] = scores.get(path, 0) + 1] on the items of the dict: a
    known key keeps its place, a new key goes last *)
Fixpoint bump (path : string) (scores : list (string * Z))
  : list (string * Z) :=
  match scores with
  | [] => [(path, 1%Z)]
  | (p, n) :: rest =>
      if String.eqb p path then (p, (n + 1)%Z) :: rest
      else (p, n) :: bump path rest
  end.

(** [sorted(items, key=lambda item: item[1], reverse=True)]: stable, so
    an item is placed before the first item of a score that is not
    greater *)
Fixpoint rank_insert (x : string * Z) (l : list (string * Z))
  : list (string * Z) :=
  match l with
  | [] => [x]
  | y :: l' =>
      if (snd x <? snd y)%Z then y :: rank_insert x l' else x :: l
  end.

Definition rank (items : list (string * Z)) : list (string * Z) :=
  foldr rank_insert [] items.

(** [l[:limit]] *)
Definition slice_to {A} (limit : Z) (l : list A) : list A :=
  if (0 <=? limit)%Z then take (Z.to_nat limit) l
  else take (length l - Z.to_nat (- limit)) l.

(** the loop [for token in tokens: for path in index.get(token, [])] *)
Definition score_tokens (ix : gmap string (list string))
    (tokens : list string) : list (string * Z) :=
  foldl (fun scores token =>
           foldl (fun scores path => bump path scores) scores
                 (default [] (ix !! token)))
        [] tokens.

(** [items = index.setdefault(token, []); if rel_path not in items:
    items.append(rel_path)] *)
Definition add_token (rel_path : string) (ix : gmap string (list string))
    (token : string) : gmap string (list string) :=
  let items := default [] (ix !! token) in
  if PyStr.mem rel_path items then <[token := items]> ix
  else <[token := items ++ [rel_path]]> ix.

Section WithPlatform.
Variable P : Platform.

Definition _format_note (metadata : list (string * json))
    (content : string) : string :=
  let header :=
    foldl (fun header kv =>
             header +:+ fst kv +:+ ": " +:+ json_dumps P (snd kv) +:+ LF)
          ("---" +:+ LF) metadata in
  let header := header +:+ "---" +:+ LF +:+ LF in
  header +:+ PyStr.strip content +:+ LF.

(** the body of the loop over [ranked[:limit]] *)
Fixpoint read_notes (fs : FS) (base_dir : Path)
    (ranked : list (string * Z)) : result (list string) :=
  match ranked with
  | [] => Ok []
  | (path, _) :: rest =>
      let note_path := joinpath base_dir (parse path) in
      if FsTools.path_exists P fs note_path then
        text ← FsTools.read_text P fs note_path;
        more ← read_notes fs base_dir rest;
        Ok (text :: more)
      else read_notes fs base_dir rest
  end.

(** [json.loads(self.index_path.read_text())], an unreadable file read
    as the empty dict: the world holds the decoded document *)
Definition _load_index (w : World) : gmap string (list string) := index w.

Definition retrieve (w : World) (base_dir : Path) (query : string)
    (limit : Z) : World * result (list string) :=
  let ix := _load_index w in
  let tokens := _tokenize query in
  let scores := score_tokens ix tokens in
  let ranked := rank scores in
  (w, read_notes (files w) base_dir (slice_to limit ranked)).

Definition _update_index (w : World) (base_dir path : Path)
    (content : string) : World * result unit :=
  let ix := _load_index w in
  let tokens := _tokenize content in
  match relative_to path base_dir with
  | None => (w, Raise (ValueError "not in the subpath"))
  | Some rel =>
      let rel_path := to_string rel in
      (set_index w (foldl (add_token rel_path) ix tokens), Ok tt)
  end.

Definition write_lesson (w : World) (base_dir : Path)
    (task_id content : string) (metadata : list (string * json))
  : World * result Path :=
  let filename := task_id +:+ ".md" in
  let path := joinpath (joinpath base_dir (parse "lessons"))
                       (parse filename) in
  let note := _format_note metadata content in
  let w := emit (EvWriteLesson task_id note) w in
  let w := set_files w (FsTools.write_text P (files w) path note) in
  match _update_index w base_dir path note with
  | (w, Raise e) => (w, Raise e)
  | (w, Ok _) => (w, Ok path)
  end.

End WithPlatform.

End MemoryStore.

(** ** orchestrator.py *)

Module Orchestrator.
Import PyPath.
Import Schema.

(** the lines of a text, each ended by a newline *)
Definition unlines (ls : list string) : string :=
  foldr (fun l rest => l +:+ LF +:+ rest) "" ls.

(** one line of the schema shown to the model: an object with the given
    keys, every value the placeholder [...] *)
Definition schema_line (tool : string) (keys : list string) (last : bool)
  : string :=
  "    { " +:+ quoted "tool" +:+ ": " +:+ quoted tool
  +:+ foldr (fun k rest =>
               ", " +:+ quoted k +:+ ": " +:+ quoted "..." +:+ rest)
            "" keys
  +:+ " }" +:+ (if last then "" else ",").

Definition SYSTEM_PROMPT : string :=
  unlines
    ["You are Ghost, a coding agent.";
     "You MUST respond with ONLY valid JSON matching this schema:";
     "{";
     "  " +:+ quoted "thought" +:+ ": " +:+ quoted "string" +:+ ",";
     "  " +:+ quoted "actions" +:+ ": [";
     schema_line "write_file" ["path"; "content"] false;
     schema_line "read_file" ["path"] false;
     schema_line "list_dir" ["path"] false;
     schema_line "search_in_files" ["path"; "query"] false;
     schema_line "run_cmd" ["cmd"; "cwd"] true;
     "  ]";
     "}";
     "No prose, no markdown, no extra keys. Do not use code fences.";
     "If no actions are needed, return {" +:+ quoted "thought" +:+ ": "
       +:+ quoted "..." +:+ ", " +:+ quoted "actions" +:+ ": []}.";
     "Do not use placeholder values like " +:+ quoted "..."
       +:+ ". Provide real paths, commands, and queries.";
     "Use pytest-style tests unless the task explicitly asks for another framework.";
     "Do not create or modify pytest.ini unless the task explicitly requests it.";
     "Respect tool rules: stay inside the workspace root and use only allowed commands."].

(** [constraints] and [context] are the dicts of the task file; the keys
    the engine reads carry values of their declared types *)
Record Task : Type := mkTask {
  task_id : string;
  title : string;
  goal : string;
  constraints : list (string * json);
  context : list (string * json)
}.

(** the dict [state]; [phase] is whatever string the state file holds *)
Record RunState : Type := mkRunState {
  phase : string;
  iteration : Z;
  last_result : option string;
  open_items : list string;
  files_touched : list string
}.

(** the state every fresh run starts from *)
Definition initial_state : RunState :=
  {| phase := "INGEST"; iteration := 0; last_result := None;
     open_items := []; files_touched := [] |}.

(** what an executed action yields: the tool's payload, or the dict
    [{"error": msg}] *)
Inductive ToolResult : Type :=
| RText (s : string)
| RList (entries : list string)
| RMatches (ms : list FsTools.Match)
| RCmd (r : CmdTools.CmdResult)
| RError (msg : string).

(** [constraints.get(k)] where the value is an integer; Python's [or]
    skips an absent key, [null] and [0] alike *)
Definition truthy_int (k : string) (d : list (string * json)) : option Z :=
  match assoc k d with
  | Some (JInt n) => if (n =? 0)%Z then None else Some n
  | _ => None
  end.

(** [constraints.get("iteration_limit") or
     constraints.get("time_budget_iters") or 8] *)
Definition iteration_limit_of (task : Task) : Z :=
  match truthy_int "iteration_limit" (constraints task) with
  | Some n => n
  | None =>
      match truthy_int "time_budget_iters" (constraints task) with
      | Some n => n
      | None => 8%Z
      end
  end.

(** [constraints.get("test_cmd")] when it is truthy *)
Definition test_cmd_of (task : Task) : option string :=
  match assoc "test_cmd" (constraints task) with
  | Some (JStr s) => if Shlex.nonempty s then Some s else None
  | _ => None
  end.

(** [task.context.get('notes', '')] inside an f-string *)
Definition context_notes (task : Task) : string :=
  match assoc "notes" (context task) with
  | Some (JStr s) => s
  | _ => ""
  end.

(** ["print" in goal_lower or "prints" in goal_lower] *)
Definition goal_mentions_print (task : Task) : bool :=
  let goal_lower := PyStr.lower (goal task) in
  PyStr.contains "print" goal_lower || PyStr.contains "prints" goal_lower.

(** [if s:] on a string or [None] *)
Definition truthy (o : option string) : bool :=
  match o with
  | Some s => Shlex.nonempty s
  | None => false
  end.

Definition state_to_json (s : RunState) : json :=
  JObj [("phase", JStr (phase s));
        ("iteration", JInt (iteration s));
        ("last_result",
          match last_result s with Some r => JStr r | None => JNull end);
        ("open_items", JArr (map JStr (open_items s)));
        ("files_touched", JArr (map JStr (files_touched s)))].

Definition match_to_json (m : FsTools.Match) : json :=
  JObj [("path", JStr (FsTools.m_path m));
        ("line", JInt (Z.of_nat (FsTools.m_line m)));
        ("text", JStr (FsTools.m_text m))].

Definition result_to_json (r : ToolResult) : json :=
  match r with
  | RText s => JStr s
  | RList l => JArr (map JStr l)
  | RMatches ms => JArr (map match_to_json ms)
  | RCmd c => JObj [("returncode", JInt (CmdTools.returncode c));
                    ("output", JStr (CmdTools.output c))]
  | RError msg => JObj [("error", JStr msg)]
  end.

(** [action.model_dump()] *)
Definition action_to_json (a : Action) : json :=
  match a with
  | WriteFileAction p c =>
      JObj [("tool", JStr "write_file"); ("path", JStr p);
            ("content", JStr c)]
  | ReadFileAction p => JObj [("tool", JStr "read_file"); ("path", JStr p)]
  | ListDirAction p => JObj [("tool", JStr "list_dir"); ("path", JStr p)]
  | SearchInFilesAction p q =>
      JObj [("tool", JStr "search_in_files"); ("path", JStr p);
            ("query", JStr q)]
  | RunCmdAction c d =>
      JObj [("tool", JStr "run_cmd"); ("cmd", JStr c); ("cwd", JStr d)]
  end.

Definition message_to_json (m : Message) : json :=
  JObj [("role", JStr (role m)); ("content", JStr (content m))].

Definition user (text : string) : Message :=
  {| role := "user"; content := text |}.

(** [isinstance(result, dict) and "error" in result] *)
Definition is_error (r : ToolResult) : bool :=
  match r with RError _ => true | _ => false end.

Definition _has_errors (results : list ToolResult) : bool :=
  existsb is_error results.

Definition _merge_touched (existing new : list string) : list string :=
  foldl (fun merged path =>
           if PyStr.mem path merged then merged else merged ++ [path])
        existing new.

(** the helper [is_placeholder] of [_validate_action_inputs] *)
Definition is_placeholder (value : string) : bool :=
  let stripped := PyStr.strip value in
  String.eqb stripped "" || String.eqb stripped "...".

(** [action.path.replace("\\", "/").lower()] *)
Definition lower_path_of (path : string) : string :=
  PyStr.lower (PyStr.replace_char "092" "/" path).

(** ["/test_" in lower_path or lower_path.startswith("test_")] *)
Definition looks_like_test (lower_path : string) : bool :=
  PyStr.contains "/test_" lower_path || PyStr.startswith "test_" lower_path.

Definition _validate_action_inputs (goal_prints : bool) (action : Action)
  : option string :=
  match action with
  | WriteFileAction path content =>
      if is_placeholder path
      then Some "write_file path is missing or placeholder"
      else
        let lower_path := lower_path_of path in
        if PyStr.endswith "pytest.ini" lower_path
           && negb (PyStr.startswith "[pytest]"
                      (PyStr.lower (PyStr.lstrip content)))
        then Some "pytest.ini must start with [pytest]"
        else if looks_like_test lower_path then
          if negb (PyStr.contains "def test_" content)
          then Some "test file must include pytest-style test functions"
          else if PyStr.contains "unittest" content
          then Some "test file must use pytest, not unittest"
          else if goal_prints
                  && negb (PyStr.contains "capsys" content)
                  && negb (PyStr.contains "capfd" content)
                  && negb (PyStr.contains "subprocess" content)
          then Some "tests must capture stdout (capsys/capfd or subprocess)"
          else None
        else None
  | ReadFileAction path =>
      if is_placeholder path
      then Some "read_file path is missing or placeholder" else None
  | ListDirAction path =>
      if is_placeholder path
      then Some "list_dir path is missing or placeholder" else None
  | SearchInFilesAction path query =>
      if is_placeholder path || is_placeholder query
      then Some "search_in_files path/query is missing or placeholder"
      else None
  | RunCmdAction cmd cwd =>
      if is_placeholder cmd || is_placeholder cwd
      then Some "run_cmd cmd/cwd is missing or placeholder" else None
  end.

Section WithPlatform.
Variable P : Platform.

(** [JsonlLogger(path).log(payload)] *)
Definition log (w : World) (path : Path) (payload : json) : World :=
  set_files w
    (FsTools.append_text P (files w) path (json_dumps P payload +:+ LF)).

Definition _format_results (results : list ToolResult) : string :=
  json_dumps_indent P (JArr (map result_to_json results)).

Definition _write_state (w : World) (path : Path) (state : RunState)
  : World :=
  let text := json_dumps_indent P (state_to_json state) in
  let w := emit (EvWriteState text) w in
  set_files w (FsTools.write_text P (files w) path text).

(** [self.memory = MemoryStore(self.repo_root / "memories")] *)
Definition memory_dir (repo_root : Path) : Path :=
  child (resolve P repo_root) "memories".

Definition _write_memory (w : World) (repo_root : Path) (task : Task)
    (workspace : Path) (state : RunState) : World * result Path :=
  let lesson :=
    "Task " +:+ task_id task +:+ " completed with result "
    +:+ default "None" (last_result state) +:+ "." +:+ LF
    +:+ "Files touched: " +:+ PyStr.join ", " (files_touched state) +:+ LF
    +:+ "Workspace: " +:+ to_string workspace +:+ LF in
  let metadata :=
    [("type", JStr "lesson");
     ("tags", JArr [JStr "ghost"; JStr "task"]);
     ("confidence", JFloat "0.5");
     ("created", JStr (today P))] in
  MemoryStore.write_lesson P w (memory_dir repo_root) (task_id task)
    lesson metadata.

Definition _build_context (task : Task) (workspace : Path) : string :=
  let testing_hint :=
    if goal_mentions_print task
    then "Testing hint: if the goal mentions printing, "
         +:+ "tests should capture stdout instead of expecting return values. "
         +:+ "In pytest you can use the capsys fixture." +:+ LF
    else "" in
  "Workspace root: " +:+ to_string workspace +:+ LF
  +:+ "Task id: " +:+ task_id task +:+ LF
  +:+ "Title: " +:+ title task +:+ LF
  +:+ "Goal: " +:+ goal task +:+ LF
  +:+ "Constraints: " +:+ json_dumps P (JObj (constraints task)) +:+ LF
  +:+ "Context: " +:+ json_dumps P (JObj (context task)) +:+ LF
  +:+ "Tool rules: paths and cwd must stay inside the workspace." +:+ LF
  +:+ testing_hint.

(** the list [turn_messages] of [_model_turn] *)
Definition build_turn_messages (messages : list Message)
    (prompt last_feedback : string) : list Message :=
  messages
  ++ (if Shlex.nonempty last_feedback
      then [user ("Last feedback:" +:+ LF +:+ last_feedback)] else [])
  ++ [user prompt].

Definition _model_turn (w : World) (messages : list Message)
    (prompt : string) (llm_log : Path) (last_feedback : string)
  : World * result (ActionResponse * option string) :=
  let turn_messages := build_turn_messages messages prompt last_feedback in
  let w := log w llm_log
             (JObj [("request", JArr (map message_to_json turn_messages))]) in
  let w := emit (EvChat (turns w)) w in
  let reply := ollama_chat P (turns w) turn_messages in
  let w := next_turn w in
  match reply with
  | Raise e => (w, Raise e)
  | Ok response_text =>
      let w := log w llm_log (JObj [("response", JStr response_text)]) in
      match parse_action_response P response_text with
      | Ok r => (w, Ok (r, None))
      | Raise exc =>
          let w := log w llm_log
                     (JObj [("parse_error", JStr (str_exc exc))]) in
          (w, Ok ({| thought := "invalid_json"; actions := [] |},
                  Some (str_exc exc)))
      end
  end.

(** the [try] block of [_execute_actions]: the new world, the result or
    the exception, and whether [touched.append] was reached *)
Definition dispatch (w : World) (goal_prints : bool) (action : Action)
    (workspace : Path) : World * result ToolResult * bool :=
  let placeholder_error := _validate_action_inputs goal_prints action in
  if truthy placeholder_error
  then (w, Raise (ValueError (default "" placeholder_error)), false)
  else
    match action with
    | WriteFileAction path content =>
        match FsTools.write_file P w workspace path content with
        | (w, Ok s) => (w, Ok (RText s), true)
        | (w, Raise e) => (w, Raise e, false)
        end
    | ReadFileAction path =>
        (w, RText <$> FsTools.read_file P w workspace path, false)
    | ListDirAction path =>
        (w, RList <$> FsTools.list_dir P w workspace path, false)
    | SearchInFilesAction path query =>
        (w, RMatches <$> FsTools.search_in_files P w workspace path query,
         false)
    | RunCmdAction cmd cwd =>
        match CmdTools.run_cmd_default P w cmd cwd workspace with
        | (w, r) => (w, RCmd <$> r, false)
        end
    end.

(** one round of the loop of [_execute_actions] *)
Definition execute_action (w : World) (goal_prints : bool)
    (workspace actions_log : Path) (action : Action)
  : World * ToolResult * list string :=
  let '(w, r, wrote) := dispatch w goal_prints action workspace in
  let result :=
    match r with
    | Ok v => v
    | Raise exc => RError (str_exc exc)
    end in
  let touched :=
    match action with
    | WriteFileAction path _ => if wrote then [path] else []
    | _ => []
    end in
  let payload :=
    JObj [("tool", JStr (tool action));
          ("input", action_to_json action);
          ("result", result_to_json result)] in
  (log w actions_log payload, result, touched).

Fixpoint execute_list (w : World) (goal_prints : bool)
    (workspace actions_log : Path) (todo : list Action)
  : World * (list ToolResult * list string) :=
  match todo with
  | [] => (w, ([], []))
  | action :: rest =>
      let '(w, result, t) :=
        execute_action w goal_prints workspace actions_log action in
      let '(w, (results, touched)) :=
        execute_list w goal_prints workspace actions_log rest in
      (w, (result :: results, t ++ touched))
  end.

Definition _execute_actions (w : World) (goal_prints : bool)
    (action_response : ActionResponse) (workspace actions_log : Path)
  : World * (list ToolResult * list string) :=
  execute_list w goal_prints workspace actions_log
    (actions action_response).

(** *** The run loop *)

(** What is fixed once [_run_loop] has read its arguments. *)
Record Run : Type := mkRun {
  run_task_ : Task;
  run_repo_root : Path;
  run_workspace : Path;
  run_artifacts_root : Path;
  run_messages : list Message
}.

Definition iteration_limit (r : Run) : Z := iteration_limit_of (run_task_ r).
Definition goal_prints (r : Run) : bool := goal_mentions_print (run_task_ r).
Definition actions_log (r : Run) : Path :=
  child (run_artifacts_root r) "actions.log".
Definition llm_log (r : Run) : Path :=
  child (run_artifacts_root r) "llm.log".
Definition plan_path (r : Run) : Path :=
  child (run_artifacts_root r) "plan.md".
Definition state_path (r : Run) : Path :=
  child (run_artifacts_root r) "state.json".

(** one round of [while True]: [continue], [break], or an exception
    that leaves [_run_loop] *)
Inductive step : Type :=
| Continue (w : World) (state : RunState) (last_feedback : string)
| Break (w : World) (state : RunState)
| Abort (w : World) (state : RunState) (e : exn).

(** [state["phase"] = ph; state["last_result"] = tag] *)
Definition set_outcome (state : RunState) (ph tag : string) : RunState :=
  {| phase := ph; iteration := iteration state;
     last_result := Some tag; open_items := open_items state;
     files_touched := files_touched state |}.

Definition set_phase (state : RunState) (ph : string) : RunState :=
  {| phase := ph; iteration := iteration state;
     last_result := last_result state; open_items := open_items state;
     files_touched := files_touched state |}.

Definition set_touched (state : RunState) (t : list string) : RunState :=
  {| phase := phase state; iteration := iteration state;
     last_result := last_result state; open_items := open_items state;
     files_touched := t |}.

(** [state["iteration"] += 1] *)
Definition next_iteration (state : RunState) : RunState :=
  {| phase := phase state; iteration := (iteration state + 1)%Z;
     last_result := last_result state; open_items := open_items state;
     files_touched := files_touched state |}.

(** the part the PLAN, IMPLEMENT and REPAIR branches share: the model
    turn, the actions, the parse error appended to the results and the
    merged list of touched files *)
Definition turn_and_execute (r : Run) (w : World) (state : RunState)
    (prompt last_feedback : string)
  : World * result (list ToolResult * RunState) :=
  match _model_turn w (run_messages r) prompt (llm_log r) last_feedback with
  | (w, Raise e) => (w, Raise e)
  | (w, Ok (action_response, parse_error)) =>
      let '(w, (results, touched)) :=
        _execute_actions w (goal_prints r) action_response
          (run_workspace r) (actions_log r) in
      let results :=
        if truthy parse_error
        then results ++ [RError (default "" parse_error)] else results in
      let state :=
        set_touched state (_merge_touched (files_touched state) touched) in
      (w, Ok (results, state))
  end.

Definition PLAN_PROMPT : string :=
  "Create a short plan with steps and a verification strategy, "
  +:+ "then write it to plan.md using write_file.".
Definition IMPLEMENT_PROMPT : string :=
  "Implement the task. Use tools to read/write files as needed.".
Definition REPAIR_PROMPT : string :=
  "Fix the issues from the last step. Use tools to update files.".

Definition plan_body (r : Run) (w : World) (state : RunState)
    (last_feedback : string) : step :=
  match turn_and_execute r w state PLAN_PROMPT last_feedback with
  | (w, Raise e) => Abort w state e
  | (w, Ok (results, state)) =>
      let '(state, last_feedback) :=
        if _has_errors results
        then (set_outcome state "REPAIR" "plan_failed",
              _format_results results)
        else if negb (FsTools.path_exists P (files w) (plan_path r))
        then (set_outcome state "REPAIR" "plan_missing",
              "plan.md was not created.")
        else (set_outcome state "IMPLEMENT" "plan_ok", last_feedback) in
      let state := next_iteration state in
      Continue (_write_state w (state_path r) state) state last_feedback
  end.

Definition implement_body (r : Run) (w : World) (state : RunState)
    (last_feedback : string) : step :=
  match turn_and_execute r w state IMPLEMENT_PROMPT last_feedback with
  | (w, Raise e) => Abort w state e
  | (w, Ok (results, state)) =>
      let '(state, last_feedback) :=
        if _has_errors results
        then (set_outcome state "REPAIR" "implement_failed",
              _format_results results)
        else (set_outcome state "VERIFY" "implement_ok", last_feedback) in
      let state := next_iteration state in
      Continue (_write_state w (state_path r) state) state last_feedback
  end.

Definition verify_hints (out : string) : string :=
  (if PyStr.contains "Captured stdout" out && PyStr.contains "None !=" out
   then LF +:+ "Hint: The code is printing output. "
        +:+ "Update tests to capture stdout (pytest capsys or subprocess) "
        +:+ "instead of expecting return values."
   else "")
  +:+
  (if PyStr.contains "no tests ran" (PyStr.lower out)
   then LF +:+ "Hint: Create a pytest test file named test_*.py "
        +:+ "with at least one def test_* function."
   else "").

Definition verify_body (r : Run) (w : World) (state : RunState)
    (last_feedback : string) : step :=
  let '(w, state, last_feedback) :=
    match test_cmd_of (run_task_ r) with
    | Some test_cmd =>
        let '(w, res) :=
          CmdTools.run_cmd_default P w test_cmd "." (run_workspace r) in
        let result :=
          match res with
          | Ok c => c
          | Raise exc =>
              {| CmdTools.returncode := 1;
                 CmdTools.output := str_exc exc |}
          end in
        let w :=
          log w (actions_log r)
            (JObj [("tool", JStr "run_cmd"); ("cmd", JStr test_cmd);
                   ("result", result_to_json (RCmd result))]) in
        if (CmdTools.returncode result =? 0)%Z
        then (w, set_outcome state "DONE" "tests_passed",
              _format_results [RCmd result])
        else (w, set_outcome state "REPAIR" "tests_failed",
              _format_results [RCmd result]
              +:+ verify_hints (CmdTools.output result))
    | None => (w, set_outcome state "DONE" "no_test_cmd", last_feedback)
    end in
  let state := next_iteration state in
  Continue (_write_state w (state_path r) state) state last_feedback.

Definition repair_body (r : Run) (w : World) (state : RunState)
    (last_feedback : string) : step :=
  match turn_and_execute r w state REPAIR_PROMPT last_feedback with
  | (w, Raise e) => Abort w state e
  | (w, Ok (results, state)) =>
      let '(state, last_feedback) :=
        if _has_errors results
        then (set_outcome state "REPAIR" "repair_failed",
              _format_results results)
        else (set_outcome state "VERIFY" "repair_ok",
              _format_results results) in
      let state := next_iteration state in
      Continue (_write_state w (state_path r) state) state last_feedback
  end.

(** the body of [while True] *)
Definition loop_body (r : Run) (w : World) (state : RunState)
    (last_feedback : string) : step :=
  if (iteration_limit r <=? iteration state)%Z then
    let state := set_outcome state "DONE" "iteration_limit" in
    let w := _write_state w (state_path r) state in
    match _write_memory w (run_repo_root r) (run_task_ r)
            (run_workspace r) state with
    | (w, Raise e) => Abort w state e
    | (w, Ok _) => Break w state
    end
  else
    let ph := phase state in
    if String.eqb ph "INGEST" then
      let w := emit (EvPhase "INGEST") w in
      let state := set_phase state "PLAN" in
      Continue (_write_state w (state_path r) state) state last_feedback
    else if String.eqb ph "PLAN" then
      plan_body r (emit (EvPhase "PLAN") w) state last_feedback
    else if String.eqb ph "IMPLEMENT" then
      implement_body r (emit (EvPhase "IMPLEMENT") w) state last_feedback
    else if String.eqb ph "VERIFY" then
      verify_body r (emit (EvPhase "VERIFY") w) state last_feedback
    else if String.eqb ph "REPAIR" then
      repair_body r (emit (EvPhase "REPAIR") w) state last_feedback
    else if String.eqb ph "DONE" then
      let w := emit (EvPhase "DONE") w in
      match _write_memory w (run_repo_root r) (run_task_ r)
              (run_workspace r) state with
      | (w, Raise e) => Abort w state e
      | (w, Ok _) => Break (_write_state w (state_path r) state) state
      end
    else
      let state := set_outcome state "DONE" "unknown_phase" in
      Break (_write_state w (state_path r) state) state.

(** how [_run_loop] ends *)
Inductive outcome : Type :=
| Finished (w : World) (state : RunState)
| Aborted (w : World) (state : RunState) (e : exn).

(** [while True: ...], at most [fuel] rounds; [None]: still running *)
Fixpoint loop (fuel : nat) (r : Run) (w : World) (state : RunState)
    (last_feedback : string) : option outcome :=
  match fuel with
  | O => None
  | S fuel' =>
      match loop_body r w state last_feedback with
      | Continue w state last_feedback =>
          loop fuel' r w state last_feedback
      | Break w state => Some (Finished w state)
      | Abort w state e => Some (Aborted w state e)
      end
  end.

(** the statements of [_run_loop] before [while True] *)
Definition prepare (w : World) (repo_root : Path) (task : Task)
    (workspace : Path) (artifacts_root : option Path)
  : World * result Run :=
  let artifacts_root := default workspace artifacts_root in
  let messages :=
    [ {| role := "system"; content := SYSTEM_PROMPT |};
      user (_build_context task workspace) ] in
  let query :=
    title task +:+ " " +:+ goal task +:+ " " +:+ context_notes task in
  match MemoryStore.retrieve P w (memory_dir repo_root) query 3 with
  | (w, Raise e) => (w, Raise e)
  | (w, Ok memory_notes) =>
      let messages :=
        match memory_notes with
        | [] => messages
        | _ => messages
               ++ [user ("Relevant memories:" +:+ LF
                         +:+ PyStr.join (LF +:+ LF) memory_notes)]
        end in
      (w, Ok {| run_task_ := task; run_repo_root := repo_root;
                run_workspace := workspace;
                run_artifacts_root := artifacts_root;
                run_messages := messages |})
  end.

Definition _run_loop (fuel : nat) (w : World) (repo_root : Path)
    (task : Task) (workspace : Path) (state : RunState)
    (artifacts_root : option Path) : option outcome :=
  match prepare w repo_root task workspace artifacts_root with
  | (w, Raise e) => Some (Aborted w state e)
  | (w, Ok r) => loop fuel r w state ""
  end.

(** *** The entry points *)

(** how an entry point ends: with the outcome of its run, or with an
    exception raised before the run started *)
Inductive ended : Type :=
| Ran (o : outcome)
| Failed (w : World) (e : exn).

Definition get_string (k dflt : string) (d : list (string * json)) : string :=
  match assoc k d with
  | Some (JStr s) => s
  | _ => dflt
  end.

Definition get_dict (k : string) (d : list (string * json))
  : list (string * json) :=
  match assoc k d with
  | Some (JObj fields) => fields
  | _ => []
  end.

(** the task file holds an object whose [id] is a string *)
Definition _load_task (w : World) (task_path : Path) : result Task :=
  text ← FsTools.read_text P (files w) task_path;
  match json_loads P text with
  | None => Raise (ValueError "Expecting value")
  | Some (JObj data) =>
      match assoc "id" data with
      | Some (JStr id) =>
          Ok {| task_id := id;
                title := get_string "title" "" data;
                goal := get_string "goal" "" data;
                constraints := get_dict "constraints" data;
                context := get_dict "context" data |}
      | _ => Raise (KeyError "id")
      end
  | Some _ => Raise (TypeError "the task document is not an object")
  end.

(** [shutil.rmtree(p)]: every file below the directory [p] goes; a path
    that is not a directory is refused *)
Definition rmtree (fs : FS) (p : Path) : result FS :=
  if FsTools.is_dir P fs p
  then Ok (filter (fun kv : list string * string =>
                     FsTools.strict_prefixb (FsTools.os_key P p) (fst kv)
                     = false)
                  fs)
  else Raise (OSError ("Not a directory: " +:+ to_string p)).

(** [if p.exists(): shutil.rmtree(p)] *)
Definition remove_existing (fs : FS) (p : Path) : result FS :=
  if FsTools.path_exists P fs p then rmtree fs p else Ok fs.

(** [self.workspaces_root] *)
Definition workspaces_root (repo_root : Path) : Path :=
  child (resolve P repo_root) "workspaces".

Definition _init_workspace (w : World) (repo_root : Path) (task : Task)
    (task_path : Path) : World * result Path :=
  let workspace :=
    joinpath (workspaces_root repo_root) (parse (task_id task)) in
  match remove_existing (files w) workspace with
  | Raise e => (w, Raise e)
  | Ok fs =>
      match FsTools.read_text P fs task_path with
      | Raise e => (set_files w fs, Raise e)
      | Ok text =>
          let fs :=
            FsTools.write_text P fs (child workspace "task.json") text in
          let fs := FsTools.write_text P fs (child workspace "notes.md") "" in
          (set_files w fs, Ok workspace)
      end
  end.

Definition _init_artifacts_root (w : World) (task : Task)
    (artifacts_root : Path) : World * result Path :=
  match remove_existing (files w) artifacts_root with
  | Raise e => (w, Raise e)
  | Ok fs =>
      let payload :=
        JObj [("id", JStr (task_id task)); ("title", JStr (title task));
              ("goal", JStr (goal task));
              ("constraints", JObj (constraints task));
              ("context", JObj (context task))] in
      let fs := FsTools.write_text P fs (child artifacts_root "task.json")
                  (json_dumps_indent P payload) in
      let fs := FsTools.write_text P fs (child artifacts_root "notes.md") "" in
      (set_files w fs, Ok artifacts_root)
  end.

(** a list of strings held under a key of the state file *)
Definition strings_of (v : option json) : list string :=
  match v with
  | Some (JArr items) =>
      omap (fun x => match x with JStr s => Some s | _ => None end) items
  | _ => []
  end.

(** the dict a state file holds, as [_write_state] wrote it; the phase is
    whatever string the file has *)
Definition state_of_json (j : json) : result RunState :=
  match j with
  | JObj d =>
      match assoc "iteration" d, assoc "phase" d with
      | Some (JInt n), Some (JStr ph) =>
          Ok {| phase := ph; iteration := n;
                last_result :=
                  match assoc "last_result" d with
                  | Some (JStr r) => Some r
                  | _ => None
                  end;
                open_items := strings_of (assoc "open_items" d);
                files_touched := strings_of (assoc "files_touched" d) |}
      | None, _ => Raise (KeyError "iteration")
      | _, _ => Raise (KeyError "phase")
      end
  | _ => Raise (TypeError "the state document is not an object")
  end.

Definition run_task (fuel : nat) (w : World) (repo_root task_path : Path)
  : option ended :=
  match _load_task w task_path with
  | Raise e => Some (Failed w e)
  | Ok task =>
      match _init_workspace w repo_root task task_path with
      | (w, Raise e) => Some (Failed w e)
      | (w, Ok workspace) =>
          Ran <$> _run_loop fuel w repo_root task workspace initial_state None
      end
  end.

Definition run_task_with_roots (fuel : nat) (w : World) (repo_root : Path)
    (task : Task) (workspace_root artifacts_root : Path) : option ended :=
  match _init_artifacts_root w task artifacts_root with
  | (w, Raise e) => Some (Failed w e)
  | (w, Ok artifacts) =>
      Ran <$> _run_loop fuel w repo_root task workspace_root initial_state
                (Some artifacts)
  end.

Definition resume_task (fuel : nat) (w : World) (repo_root : Path)
    (task_id : string) : option ended :=
  let workspace := joinpath (workspaces_root repo_root) (parse task_id) in
  let task_path := child workspace "task.json" in
  let state_file := child workspace "state.json" in
  if negb (FsTools.path_exists P (files w) task_path)
  then Some (Failed w (OSError ("task.json not found for " +:+ task_id)))
  else
    match _load_task w task_path with
    | Raise e => Some (Failed w e)
    | Ok task =>
        let loaded :=
          if FsTools.path_exists P (files w) state_file then
            text ← FsTools.read_text P (files w) state_file;
            match json_loads P text with
            | None => Raise (ValueError "Expecting value")
            | Some j => state_of_json j
            end
          else Ok initial_state in
        match loaded with
        | Raise e => Some (Failed w e)
        | Ok state =>
            Ran <$> _run_loop fuel w repo_root task workspace state None
        end
    end.

End WithPlatform.

End Orchestrator.

(** ** utils/watch.py *)

Module Watch.

(** What [os.walk] finds below the watched root: the entries of every
    directory in the order the operating system lists them.  A file
    carries its modification time ([None] when [stat] raises [OSError]);
    times are points of a linear scale. *)
#[warnings="-register-all"]
Inductive node : Type :=
| File (mtime : option Z)
| Dir (entries : list (string * node)).

(** the dict [{rel: mtime}], as its items *)
Definition Snapshot : Type := list (string * Z).

(** [snapshot[rel] = mtime]: a known key keeps its place, a new key goes
    last *)
Fixpoint set_item (rel : string) (mtime : Z) (snapshot : Snapshot)
  : Snapshot :=
  match snapshot with
  | [] => [(rel, mtime)]
  | (k, v) :: rest =>
      if String.eqb k rel then (k, mtime) :: rest
      else (k, v) :: set_item rel mtime rest
  end.

(** [d not in self.ignore_dirs and not d.startswith(".")] *)
Definition keep_dir (ignore_dirs : list string) (d : string) : bool :=
  negb (PyStr.mem d ignore_dirs) && negb (PyStr.startswith "." d).

(** [str(path.relative_to(self.root))] for the entry [name] of the
    directory whose components below the root are [rel] *)
Definition rel_str (rel : list string) (name : string) : string :=
  PyStr.join "/" (rel ++ [name]).

(** the rounds of [for root, dirs, files in os.walk(..)] at and below one
    directory: its files first, then the directories that were kept, in
    turn *)
Fixpoint walk (ignore_dirs : list string) (rel : list string) (n : node)
    (snapshot : Snapshot) : Snapshot :=
  match n with
  | File _ => snapshot
  | Dir entries =>
      let snapshot :=
        foldl (fun acc entry =>
                 match entry with
                 | (name, File (Some mtime)) =>
                     set_item (rel_str rel name) mtime acc
                 | _ => acc
                 end) snapshot entries in
      foldl (fun acc entry =>
               match entry with
               | (name, child) =>
                   match child with
                   | Dir _ =>
                       if keep_dir ignore_dirs name
                       then walk ignore_dirs (rel ++ [name]) child acc
                       else acc
                   | File _ => acc
                   end
               end) snapshot entries
  end.

Definition _scan (ignore_dirs : list string) (tree : list (string * node))
  : Snapshot :=
  walk ignore_dirs [] (Dir tree) [].

Record FileWatcher : Type := mkFileWatcher {
  ignore_dirs : list string;
  _snapshot : Snapshot
}.

(** [FileWatcher(root, ignore_dirs)], [tree] being what lies below the
    root *)
Definition init (ignore : list string) (tree : list (string * node))
  : FileWatcher :=
  {| ignore_dirs := ignore; _snapshot := _scan ignore tree |}.

(** the first loop of [poll]: a path of [current] *)
Definition added_or_modified (snapshot : Snapshot) (item : string * Z)
  : option string :=
  match assoc (fst item) snapshot with
  | None => Some ("added: " +:+ fst item)
  | Some old =>
      if (old <? snd item)%Z then Some ("modified: " +:+ fst item) else None
  end.

(** the second loop of [poll]: a path of the old snapshot *)
Definition deleted (current : Snapshot) (item : string * Z)
  : option string :=
  match assoc (fst item) current with
  | None => Some ("deleted: " +:+ fst item)
  | Some _ => None
  end.

Definition poll (fw : FileWatcher) (tree : list (string * node))
    (max_changes : Z) : FileWatcher * list string :=
  let current := _scan (ignore_dirs fw) tree in
  let changes :=
    omap (added_or_modified (_snapshot fw)) current
    ++ omap (deleted current) (_snapshot fw) in
  ({| ignore_dirs := ignore_dirs fw; _snapshot := current |},
   MemoryStore.slice_to max_changes changes).

(** the default [max_changes=25] *)
Definition poll_default (fw : FileWatcher) (tree : list (string * node))
  : FileWatcher * list string :=
  poll fw tree 25.

End Watch.

(** ** A concrete platform *)

(** A JSON codec with the behaviour of the standard [json] module on
    8-bit text: [dumps] with the default separators, [loads] with the
    strict grammar and the whole input consumed. *)
Module Json.

Definition hex_digit (n : nat) : ascii :=
  if (n <? 10)%nat then ascii_of_nat (48 + n) else ascii_of_nat (87 + n).

Definition escape_char (c : ascii) : string :=
  let n := nat_of_ascii c in
  if Ascii.eqb c "034" then String "092" DQ
  else if Ascii.eqb c "092" then String "092" (String "092" EmptyString)
  else if Ascii.eqb c "010" then String "092" "n"
  else if Ascii.eqb c "013" then String "092" "r"
  else if Ascii.eqb c "009" then String "092" "t"
  else if Ascii.eqb c "008" then String "092" "b"
  else if Ascii.eqb c "012" then String "092" "f"
  else if (n <? 32)%nat || (127 <? n)%nat
  then String "092" ("u00" +:+ String (hex_digit (n / 16))
                                 (String (hex_digit (n mod 16)) EmptyString))
  else String c EmptyString.

Fixpoint escape (s : string) : string :=
  match s with
  | EmptyString => EmptyString
  | String c s' => escape_char c +:+ escape s'
  end.

Definition quote (s : string) : string := quoted (escape s).

Definition of_Z (n : Z) : string :=
  if (n <? 0)%Z then "-" +:+ PyStr.of_nat (Z.to_nat (- n))
  else PyStr.of_nat (Z.to_nat n).

(** [json.dumps(v)] *)
Fixpoint dumps (j : json) : string :=
  match j with
  | JNull => "null"
  | JBool true => "true"
  | JBool false => "false"
  | JInt n => of_Z n
  | JFloat lexeme => lexeme
  | JStr s => quote s
  | JArr items => "[" +:+ PyStr.join ", " (map dumps items) +:+ "]"
  | JObj fields =>
      "{" +:+ PyStr.join ", "
                (map (fun kv => let '(k, v) := kv in
                                quote k +:+ ": " +:+ dumps v) fields)
      +:+ "}"
  end.

Fixpoint spaces (n : nat) : string :=
  match n with O => EmptyString | S n' => String " " (spaces n') end.

(** [json.dumps(v, indent=2)] at nesting depth [level] *)
Fixpoint dumps_indent (level : nat) (j : json) : string :=
  let pad := LF +:+ spaces (2 * S level) in
  match j with
  | JArr [] => "[]"
  | JObj [] => "{}"
  | JArr items =>
      "[" +:+ pad
      +:+ PyStr.join ("," +:+ pad) (map (dumps_indent (S level)) items)
      +:+ LF +:+ spaces (2 * level) +:+ "]"
  | JObj fields =>
      "{" +:+ pad
      +:+ PyStr.join ("," +:+ pad)
            (map (fun kv => let '(k, v) := kv in
                            quote k +:+ ": " +:+ dumps_indent (S level) v)
                 fields)
      +:+ LF +:+ spaces (2 * level) +:+ "}"
  | _ => dumps j
  end.

Definition is_ws (c : ascii) : bool :=
  Ascii.eqb c " " || Ascii.eqb c "009" || Ascii.eqb c "010"
  || Ascii.eqb c "013".

Fixpoint skip_ws (s : string) : string :=
  match s with
  | String c s' => if is_ws c then skip_ws s' else s
  | EmptyString => EmptyString
  end.

Definition is_digit (c : ascii) : bool :=
  let n := nat_of_ascii c in (48 <=? n)%nat && (n <=? 57)%nat.

Definition hex_value (c : ascii) : option nat :=
  let n := nat_of_ascii c in
  if (48 <=? n)%nat && (n <=? 57)%nat then Some (n - 48)
  else if (97 <=? n)%nat && (n <=? 102)%nat then Some (n - 87)
  else if (65 <=? n)%nat && (n <=? 70)%nat then Some (n - 55)
  else None.

(** the text of a string literal after its opening quote; code points
    above 255 do not fit the 8-bit model and are refused *)
Fixpoint read_string (s : string) (acc : string) : option (string * string) :=
  match s with
  | EmptyString => None
  | String c s' =>
      if Ascii.eqb c "034" then Some (acc, s')
      else if Ascii.eqb c "092" then
        match s' with
        | String e s'' =>
            let put x := read_string s'' (acc +:+ String x EmptyString) in
            if Ascii.eqb e "034" then put "034"%char
            else if Ascii.eqb e "092" then put "092"%char
            else if Ascii.eqb e "/" then put "/"%char
            else if Ascii.eqb e "b" then put "008"%char
            else if Ascii.eqb e "f" then put "012"%char
            else if Ascii.eqb e "n" then put "010"%char
            else if Ascii.eqb e "r" then put "013"%char
            else if Ascii.eqb e "t" then put "009"%char
            else if Ascii.eqb e "u" then
              match s'' with
              | String h1 (String h2 (String h3 (String h4 s3))) =>
                  match hex_value h1, hex_value h2, hex_value h3,
                        hex_value h4 with
                  | Some 0, Some 0, Some a, Some b =>
                      read_string s3
                        (acc +:+ String (ascii_of_nat (16 * a + b))
                                   EmptyString)
                  | _, _, _, _ => None
                  end
              | _ => None
              end
            else None
        | EmptyString => None
        end
      else if (nat_of_ascii c <? 32)%nat then None
      else read_string s' (acc +:+ String c EmptyString)
  end.

Fixpoint read_digits (s : string) (acc : string) : string * string :=
  match s with
  | String c s' =>
      if is_digit c then read_digits s' (acc +:+ String c EmptyString)
      else (acc, s)
  | EmptyString => (acc, s)
  end.

Fixpoint digits_value (s : string) (acc : Z) : Z :=
  match s with
  | String c s' =>
      digits_value s' (10 * acc + Z.of_nat (nat_of_ascii c - 48))%Z
  | EmptyString => acc
  end.

(** a number: [-? int frac? exp?] *)
Definition read_number (s : string) : option (json * string) :=
  let '(sign, s1) :=
    match s with
    | String "-" s' => ("-", s')
    | _ => ("", s)
    end in
  let '(int_part, s2) := read_digits s1 EmptyString in
  match int_part with
  | EmptyString => None
  | String d rest =>
      if Ascii.eqb d "0" && Shlex.nonempty rest then None else
      let '(frac, s3) :=
        match s2 with
        | String "." s' =>
            let '(ds, s'') := read_digits s' EmptyString in
            match ds with
            | EmptyString => ("", s2)
            | _ => ("." +:+ ds, s'')
            end
        | _ => ("", s2)
        end in
      let '(exp, s4) :=
        match s3 with
        | String e s' =>
            if Ascii.eqb e "e" || Ascii.eqb e "E" then
              let '(esign, s'') :=
                match s' with
                | String "+" t => ("+", t)
                | String "-" t => ("-", t)
                | _ => ("", s')
                end in
              let '(ds, s''') := read_digits s'' EmptyString in
              match ds with
              | EmptyString => ("", s3)
              | _ => (String e esign +:+ ds, s''')
              end
            else ("", s3)
        | EmptyString => ("", s3)
        end in
      match frac, exp with
      | EmptyString, EmptyString =>
          let v := digits_value int_part 0 in
          Some (JInt (if String.eqb sign "-" then (- v)%Z else v), s4)
      | _, _ => Some (JFloat (sign +:+ int_part +:+ frac +:+ exp), s4)
      end
  end.

(** [d[k] = v] on the items of a dict *)
Fixpoint dict_set (k : string) (v : json) (l : list (string * json))
  : list (string * json) :=
  match l with
  | [] => [(k, v)]
  | (k', v') :: l' =>
      if String.eqb k k' then (k, v) :: l' else (k', v') :: dict_set k v l'
  end.

(** a literal keyword at the head of the input *)
Definition keyword (kw : string) (v : json) (s : string)
  : option (json * string) :=
  if String.prefix kw s
  then Some (v, String.substring (String.length kw)
                  (String.length s - String.length kw) s)
  else None.

Fixpoint read_value (fuel : nat) (s : string) : option (json * string) :=
  match fuel with
  | O => None
  | S fuel' =>
      match skip_ws s with
      | EmptyString => None
      | String c rest =>
          if Ascii.eqb c "{" then
            match skip_ws rest with
            | String "}" s' => Some (JObj [], s')
            | s' => read_members fuel' s' []
            end
          else if Ascii.eqb c "[" then
            match skip_ws rest with
            | String "]" s' => Some (JArr [], s')
            | s' => read_elements fuel' s' []
            end
          else if Ascii.eqb c "034" then
            match read_string rest EmptyString with
            | Some (str, s') => Some (JStr str, s')
            | None => None
            end
          else if Ascii.eqb c "t" then keyword "true" (JBool true) (String c rest)
          else if Ascii.eqb c "f" then keyword "false" (JBool false) (String c rest)
          else if Ascii.eqb c "n" then keyword "null" JNull (String c rest)
          else if Ascii.eqb c "N" then keyword "NaN" (JFloat "NaN") (String c rest)
          else if Ascii.eqb c "I"
          then keyword "Infinity" (JFloat "Infinity") (String c rest)
          else if String.prefix "-Infinity" (String c rest)
          then keyword "-Infinity" (JFloat "-Infinity") (String c rest)
          else read_number (String c rest)
      end
  end
with read_elements (fuel : nat) (s : string) (acc : list json)
  : option (json * string) :=
  match fuel with
  | O => None
  | S fuel' =>
      match read_value fuel' s with
      | None => None
      | Some (v, s1) =>
          match skip_ws s1 with
          | String "," s2 => read_elements fuel' s2 (v :: acc)
          | String "]" s2 => Some (JArr (rev (v :: acc)), s2)
          | _ => None
          end
      end
  end
with read_members (fuel : nat) (s : string) (acc : list (string * json))
  : option (json * string) :=
  match fuel with
  | O => None
  | S fuel' =>
      match skip_ws s with
      | String "034" s0 =>
          match read_string s0 EmptyString with
          | None => None
          | Some (k, s1) =>
              match skip_ws s1 with
              | String ":" s2 =>
                  match read_value fuel' s2 with
                  | None => None
                  | Some (v, s3) =>
                      match skip_ws s3 with
                      | String "," s4 =>
                          read_members fuel' s4 (dict_set k v acc)
                      | String "}" s4 => Some (JObj (dict_set k v acc), s4)
                      | _ => None
                      end
                  end
              | _ => None
              end
          end
      | _ => None
      end
  end.

(** [json.loads(s)]; [None] is [JSONDecodeError] *)
Definition loads (s : string) : option json :=
  match read_value (2 * String.length s + 2) s with
  | Some (v, rest) =>
      match skip_ws rest with
      | EmptyString => Some v
      | _ => None
      end
  | None => None
  end.

End Json.

(** The platform of a POSIX machine without symbolic links, whose working
    directory is the file system root.  [replies] are the texts the
    completion service returns, in order (it is unreachable once they are
    used up); [child] is what a spawned program does. *)
Definition posix (replies : list string)
    (child : string -> Path -> FS -> FS * result CompletedProcess)
  : Platform :=
  {| resolve := PyPath.lexical_resolve (mkPath "/" []);
     shlex_split := Shlex.split;
     json_loads := Json.loads;
     json_dumps := Json.dumps;
     json_dumps_indent := Json.dumps_indent 0;
     subprocess_run := fun cmd cwd _ fs => child cmd cwd fs;
     ollama_chat := fun n _ =>
       match replies !! n with
       | Some text => Ok text
       | None => Raise (HTTPError "connection refused")
       end;
     today := "2024-01-01" |}.

(** a child that exits with [code] and prints [out], changing no file *)
Definition exits_with (code : Z) (out : string)
  : string -> Path -> FS -> FS * result CompletedProcess :=
  fun _ _ fs =>
    (fs, Ok {| cp_returncode := code; cp_stdout := out; cp_stderr := "" |}).

Definition empty_world : World :=
  {| files := ∅; index := ∅; trace := []; turns := 0 |}.

(** ** Vocabulary of the properties *)

(** the phases whose branch performs work: a model turn or the
    verification command *)
Definition is_work_phase (name : string) : bool :=
  PyStr.mem name ["PLAN"; "IMPLEMENT"; "VERIFY"; "REPAIR"].

(** the calls by which the engine marks its own progress: entering the
    branch of a phase, and writing a lesson *)
Definition engine_event (ev : event) : bool :=
  match ev with
  | EvPhase _ | EvWriteLesson _ _ => true
  | _ => false
  end.

Definition engine_events (w : World) : list event :=
  List.filter engine_event (trace w).

Definition is_body (ev : event) : bool :=
  match ev with EvPhase name => is_work_phase name | _ => false end.

Definition is_lesson (ev : event) : bool :=
  match ev with EvWriteLesson _ _ => true | _ => false end.

(** the number of phase bodies executed so far *)
Definition bodies (w : World) : nat :=
  length (List.filter is_body (engine_events w)).

(** the number of lessons written so far *)
Definition lessons (w : World) : nat :=
  length (List.filter is_lesson (engine_events w)).

(** the phase names the loop has a branch for *)
Definition KNOWN_PHASES : list string :=
  ["INGEST"; "PLAN"; "IMPLEMENT"; "VERIFY"; "REPAIR"; "DONE"].

(** the world and the state a run ends with *)
Definition final_world (o : Orchestrator.outcome) : World :=
  match o with
  | Orchestrator.Finished w _ | Orchestrator.Aborted w _ _ => w
  end.

Definition final_state (o : Orchestrator.outcome) : Orchestrator.RunState :=
  match o with
  | Orchestrator.Finished _ s | Orchestrator.Aborted _ s _ => s
  end.

(** the prompt and the failure tag of a phase that runs a model turn *)
Definition prompt_of (ph : string) : string :=
  if String.eqb ph "PLAN" then Orchestrator.PLAN_PROMPT
  else if String.eqb ph "IMPLEMENT" then Orchestrator.IMPLEMENT_PROMPT
  else Orchestrator.REPAIR_PROMPT.


(** [c in s] *)
Fixpoint has_char (c : ascii) (s : string) : bool :=
  match s with
  | EmptyString => false
  | String a s' => Ascii.eqb a c || has_char c s'
  end.

(** a path component as [Path(s)] keeps them: not empty, not [.], and
    without a slash *)
Definition clean_part (x : string) : bool :=
  PyPath.keep_part x && negb (has_char "/" x).

(** [l.count(x)] *)
Definition occurrences (x : string) (l : list string) : nat :=
  length (List.filter (String.eqb x) l).

(** [index.get(token, [])] *)
Definition items_of (ix : gmap string (list string)) (token : string)
  : list string :=
  default [] (ix !! token).


(** the candidates of a query whose note exists *)
Definition existing_matches (P : Platform) (w : World) (base_dir : Path)
    (query : string) : list (string * Z) :=
  List.filter
    (fun ps => FsTools.path_exists P (files w)
                 (PyPath.joinpath base_dir (PyPath.parse (fst ps))))
    (MemoryStore.score_tokens (index w) (MemoryStore._tokenize query)).



(** a platform without completion service and whose children succeed *)
Definition quiet_posix : Platform := posix [] (exits_with 0 "").

Definition MEMORIES : Path := mkPath "/" ["repo"; "memories"].

(** the store after the lessons of [n] earlier runs *)
Fixpoint earlier_lessons (n : nat) : World :=
  match n with
  | O => empty_world
  | S n' =>
      fst (MemoryStore.write_lesson quiet_posix (earlier_lessons n') MEMORIES
             ("run" +:+ PyStr.of_nat n)
             ("Task run" +:+ PyStr.of_nat n
              +:+ " completed with result tests_passed.") [])
  end.

(** the same store once the note of the first run has been deleted by
    hand: its index entry is stale *)
Definition stale_store : World :=
  set_files (earlier_lessons 4)
    (delete (FsTools.os_key quiet_posix
               (mkPath "/" ["repo"; "memories"; "lessons"; "run1.md"]))
            (files (earlier_lessons 4))).

(** *** Sample runs *)

Definition WORKSPACE : Path := mkPath "/" ["repo"; "workspaces"; "demo"].
Definition REPO : Path := mkPath "/" ["repo"].

(** a reply of the completion service in the required shape *)
Definition reply (thought : string) (actions : list json) : string :=
  Json.dumps (JObj [("thought", JStr thought); ("actions", JArr actions)]).

Definition write_file_json (path content : string) : json :=
  JObj [("tool", JStr "write_file"); ("path", JStr path);
        ("content", JStr content)].

(** the scenario of the specification: prose around a valid document *)
Definition PROSE_REPLY : string := "Here is the plan: " +:+ reply "x" [].

(** a service that first writes the plan and then has nothing to do *)
Definition helpful_posix : Platform :=
  posix [reply "plan" [write_file_json "plan.md" "1. write the code"];
         reply "done" []]
        (exits_with 0 "").

(** a service whose replies are never valid *)
Definition babbling_posix : Platform :=
  posix [PROSE_REPLY; PROSE_REPLY; PROSE_REPLY; PROSE_REPLY]
        (exits_with 0 "").


Definition demo_task (constraints : list (string * json))
  : Orchestrator.Task :=
  {| Orchestrator.task_id := "demo"; Orchestrator.title := "Demo";
     Orchestrator.goal := "Add a function";
     Orchestrator.constraints := constraints;
     Orchestrator.context := [] |}.

Definition demo_run (constraints : list (string * json)) : Orchestrator.Run :=
  {| Orchestrator.run_task_ := demo_task constraints;
     Orchestrator.run_repo_root := REPO;
     Orchestrator.run_workspace := WORKSPACE;
     Orchestrator.run_artifacts_root := WORKSPACE;
     Orchestrator.run_messages := [] |}.

(** a state file left with a phase name the engine does not know *)
Definition paused_state : Orchestrator.RunState :=
  {| Orchestrator.phase := "PAUSED"; Orchestrator.iteration := 2;
     Orchestrator.last_result := Some "plan_ok";
     Orchestrator.open_items := []; Orchestrator.files_touched := [] |}.

(** the files of a run that was interrupted and whose state file then
    got the phase [PAUSED] *)
Definition paused_world : World :=
  set_files empty_world
    (<[ ["/"; "repo"; "workspaces"; "demo"; "task.json"] :=
          Json.dumps (JObj [("id", JStr "demo"); ("goal", JStr "Add a function")]) ]>
       (<[ ["/"; "repo"; "workspaces"; "demo"; "state.json"] :=
             Json.dumps_indent 0 (Orchestrator.state_to_json paused_state) ]>
          ∅)).

Definition plan_state : Orchestrator.RunState :=
  Orchestrator.set_phase Orchestrator.initial_state "PLAN".

(** what the examples look at in the outcome of a run: did it finish, how
    many phase bodies ran, how many lessons were written, and the final
    phase, counter and result tag *)
Definition summary (o : Orchestrator.outcome)
  : bool * nat * nat * string * Z * option string :=
  (match o with Orchestrator.Finished _ _ => true | _ => false end,
   bodies (final_world o), lessons (final_world o),
   Orchestrator.phase (final_state o),
   Orchestrator.iteration (final_state o),
   Orchestrator.last_result (final_state o)).

(** the outcome of the loop, or a placeholder while it is still running *)
Definition outcome_of (o : option Orchestrator.outcome)
  : Orchestrator.outcome :=
  default (Orchestrator.Aborted empty_world Orchestrator.initial_state
             (OSError "still running")) o.

(** C6 as the specification words it: the rejected action leaves every
    file of the workspace as it was *)
Definition rejected_write_changes_nothing (P : Platform) (w : World)
    (goal_prints : bool) (workspace actions_log : Path)
    (path content : string) : Prop :=
  Orchestrator.looks_like_test (Orchestrator.lower_path_of path) = true ->
  PyStr.contains "def test_" content = false ->
  files (fst (fst (Orchestrator.execute_action P w goal_prints workspace
                     actions_log (Schema.WriteFileAction path content))))
  = files w.



(** *** Vocabulary of the further properties *)

(** every character of [s] satisfies [f] *)
Fixpoint all_chars (f : ascii -> bool) (s : string) : bool :=
  match s with
  | EmptyString => true
  | String c s' => f c && all_chars f s'
  end.


(** the document of a response: [thought] and the dumped actions *)
Definition response_to_json (r : Schema.ActionResponse) : json :=
  JObj [("thought", JStr (Schema.thought r));
        ("actions",
         JArr (map Orchestrator.action_to_json (Schema.actions r)))].

(** the items of a JSON object *)
Definition fields_of (j : json) : list (string * json) :=
  match j with JObj fields => fields | _ => [] end.

(** how often the index lists [path] under the query tokens, a repeated
    token counted each time *)
Definition hits (ix : gmap string (list string)) (tokens : list string)
    (path : string) : nat :=
  list_sum (map (fun t => occurrences path (items_of ix t)) tokens).

(** the items of [scores] are those of a dict that holds the count [f] *)
Definition represents (scores : list (string * Z)) (f : string -> nat)
  : Prop :=
  NoDup (map fst scores)
  /\ forall p, assoc p scores
               = if (f p =? 0)%nat then None else Some (Z.of_nat (f p)).

(** descending order of the scores *)
Definition descending : list (string * Z) -> Prop :=
  Sorted (fun a b => (snd b <= snd a)%Z).

(** the items with the score [v] *)
Definition scored_as (v : Z) (item : string * Z) : bool := (snd item =? v)%Z.

(** the fields [_validate_action_inputs] looks at for placeholders *)
Definition checked_fields (a : Schema.Action) : list string :=
  match a with
  | Schema.WriteFileAction path _ => [path]
  | Schema.ReadFileAction path => [path]
  | Schema.ListDirAction path => [path]
  | Schema.SearchInFilesAction path query => [path; query]
  | Schema.RunCmdAction cmd cwd => [cmd; cwd]
  end.

(** the path of a [write_file] action *)
Definition written_path (a : Schema.Action) : option string :=
  match a with
  | Schema.WriteFileAction path _ => Some path
  | _ => None
  end.

(** the phases whose body asks the completion service *)
Definition asks_model (name : string) : bool :=
  PyStr.mem name ["PLAN"; "IMPLEMENT"; "REPAIR"].

(** the moves of the phase machine: from, to, and the result tag *)
Definition TRANSITIONS : list (string * string * string) :=
  [("PLAN", "REPAIR", "plan_failed");
   ("PLAN", "REPAIR", "plan_missing");
   ("PLAN", "IMPLEMENT", "plan_ok");
   ("IMPLEMENT", "REPAIR", "implement_failed");
   ("IMPLEMENT", "VERIFY", "implement_ok");
   ("VERIFY", "DONE", "tests_passed");
   ("VERIFY", "REPAIR", "tests_failed");
   ("VERIFY", "DONE", "no_test_cmd");
   ("REPAIR", "REPAIR", "repair_failed");
   ("REPAIR", "VERIFY", "repair_ok")].

(** the world and the state a round of the loop leaves *)
Definition world_of (st : Orchestrator.step) : World :=
  match st with
  | Orchestrator.Continue w _ _ | Orchestrator.Break w _
  | Orchestrator.Abort w _ _ => w
  end.

Definition state_of (st : Orchestrator.step) : Orchestrator.RunState :=
  match st with
  | Orchestrator.Continue _ s _ | Orchestrator.Break _ s
  | Orchestrator.Abort _ s _ => s
  end.

(** induction on what lies below a directory *)
Fixpoint node_induction (Q : Watch.node -> Prop)
    (HF : forall mtime, Q (Watch.File mtime))
    (HD : forall entries, Forall (fun e => Q (snd e)) entries ->
                          Q (Watch.Dir entries))
    (n : Watch.node) : Q n :=
  match n with
  | Watch.File mtime => HF mtime
  | Watch.Dir entries =>
      HD entries
        ((fix all (es : list (string * Watch.node))
            : Forall (fun e => Q (snd e)) es :=
            match es with
            | [] => @List.Forall_nil _ _
            | (name, child) :: es' =>
                @List.Forall_cons _ (fun e => Q (snd e)) (name, child) es'
                  (node_induction Q HF HD child) (all es')
            end) entries)
  end.

(** the assignments [snapshot[rel] = mtime], in turn *)
Definition assign (snapshot : Watch.Snapshot) (items : list (string * Z))
  : Watch.Snapshot :=
  foldl (fun acc kv => Watch.set_item (fst kv) (snd kv) acc) snapshot items.

(** a path below [rel] whose directories were all kept *)
Definition kept_path (ignore : list string) (rel : list string)
    (path : string) : Prop :=
  exists dirs name,
    path = Watch.rel_str (rel ++ dirs) name
    /\ forallb (Watch.keep_dir ignore) dirs = true.

(** what [poll] is to report: a path that is new, one whose time moved
    forward, or one that is gone *)
Definition difference (snapshot current : Watch.Snapshot) (c : string)
  : Prop :=
  (exists path mtime,
     c = "added: " +:+ path
     /\ assoc path current = Some mtime /\ assoc path snapshot = None)
  \/ (exists path mtime old,
        c = "modified: " +:+ path
        /\ assoc path current = Some mtime
        /\ assoc path snapshot = Some old /\ (old < mtime)%Z)
  \/ (exists path old,
        c = "deleted: " +:+ path
        /\ assoc path snapshot = Some old /\ assoc path current = None).

(** *** Samples of the further properties *)

(** a workspace with a note and two sources *)
Definition demo_files : World :=
  set_files empty_world
    (<[ ["/"; "repo"; "workspaces"; "demo"; "README.md"] := "demo" +:+ LF ]>
       (<[ ["/"; "repo"; "workspaces"; "demo"; "src"; "app.py"] :=
             "import util" +:+ LF +:+ "  print(util.answer())  " +:+ LF ]>
          (<[ ["/"; "repo"; "workspaces"; "demo"; "src"; "util.py"] :=
                "def answer():" +:+ LF +:+ "    return 42" +:+ LF ]> ∅))).

(** the same workspace, named relative to the working directory *)
Definition RELATIVE_WORKSPACE : Path := mkPath "" ["repo"; "workspaces"; "demo"].

(** a repository with a task file and what an earlier run of the task
    left in its workspace *)
Definition TASK_FILE : Path := mkPath "/" ["repo"; "tasks"; "demo.json"].

Definition queued_world : World :=
  set_files empty_world
    (<[ ["/"; "repo"; "tasks"; "demo.json"] :=
          Json.dumps (JObj [("id", JStr "demo"); ("goal", JStr "Add a function")]) ]>
       (<[ ["/"; "repo"; "workspaces"; "demo"; "old.py"] := "x = 1" ]> ∅)).

(** a response with one action, and a reply that carries it *)
Definition one_write : Schema.ActionResponse :=
  {| Schema.thought := "x";
     Schema.actions := [Schema.WriteFileAction "a.txt" "b"] |}.

Definition ONE_WRITE_REPLY : string :=
  "  " +:+ reply "x" [write_file_json "a.txt" "b"] +:+ LF.

(** what lies below a watched root, and the same root after an edit, a
    new file, a deleted file and a file whose time was set back *)
Definition demo_tree : list (string * Watch.node) :=
  [("app.py", Watch.File (Some 10%Z));
   (".git", Watch.Dir [("HEAD", Watch.File (Some 1%Z))]);
   ("src", Watch.Dir [("util.py", Watch.File (Some 20%Z));
                      (".env", Watch.File (Some 5%Z));
                      ("node_modules",
                       Watch.Dir [("x.js", Watch.File (Some 3%Z))])]);
   ("socket", Watch.File None)].

Definition edited_tree : list (string * Watch.node) :=
  [("app.py", Watch.File (Some 12%Z));
   ("src", Watch.Dir [(".env", Watch.File (Some 4%Z));
                      ("new.py", Watch.File (Some 30%Z))])].

(** the round went on to another one *)
Definition continues (st : Orchestrator.step) : bool :=
  match st with Orchestrator.Continue _ _ _ => true | _ => false end.

(** *** What the rounds of the loop do *)

Module EngineSpec.
Import PyPath Schema Orchestrator.

(** what a branch that runs a model turn does to the state and to the
    record of the engine's calls *)
Definition body_spec (w : World) (s : RunState) (targets : list string)
    (st : step) : Prop :=
  match st with
  | Continue w' s' _ =>
      iteration s' = (iteration s + 1)%Z
      /\ engine_events w' = engine_events w
      /\ In (phase s') targets
  | Abort w' s' _ => s' = s /\ engine_events w' = engine_events w
  | Break _ _ => False
  end.

(** One round of the loop, branch by branch. *)
Definition round_spec (r : Run) (w : World) (s : RunState) (st : step)
  : Prop :=
  let limit := iteration_limit r in
  let tid := task_id (run_task_ r) in
  match st with
  | Continue w' s' _ =>
      (iteration s < limit)%Z
      /\ ((phase s = "INGEST" /\ s' = set_phase s "PLAN"
           /\ engine_events w' = EvPhase "INGEST" :: engine_events w)
          \/ (is_work_phase (phase s) = true
              /\ iteration s' = (iteration s + 1)%Z
              /\ engine_events w' = EvPhase (phase s) :: engine_events w
              /\ In (phase s') ["REPAIR"; "IMPLEMENT"; "VERIFY"; "DONE"]))
  | Break w' s' =>
      ((limit <= iteration s)%Z
       /\ s' = set_outcome s "DONE" "iteration_limit"
       /\ exists note,
           engine_events w' = EvWriteLesson tid note :: engine_events w)
      \/ ((iteration s < limit)%Z /\ phase s = "DONE" /\ s' = s
          /\ exists note,
              engine_events w'
              = EvWriteLesson tid note :: EvPhase "DONE" :: engine_events w)
      \/ ((iteration s < limit)%Z
          /\ PyStr.mem (phase s) KNOWN_PHASES = false
          /\ s' = set_outcome s "DONE" "unknown_phase"
          /\ engine_events w' = engine_events w)
  | Abort w' s' _ =>
      iteration s' = iteration s
      /\ (((iteration s < limit)%Z /\ is_work_phase (phase s) = true
           /\ s' = s
           /\ engine_events w' = EvPhase (phase s) :: engine_events w)
          \/ ((limit <= iteration s)%Z
              /\ s' = set_outcome s "DONE" "iteration_limit"
              /\ exists note,
                  engine_events w'
                  = EvWriteLesson tid note :: engine_events w)
          \/ ((iteration s < limit)%Z /\ phase s = "DONE" /\ s' = s
              /\ exists note,
                  engine_events w'
                  = EvWriteLesson tid note :: EvPhase "DONE"
                      :: engine_events w))
  end.

(** what a whole run does to the counter *)
Definition run_spec (r : Run) (w : World) (s : RunState) (o : outcome)
  : Prop :=
  let done := (iteration (final_state o) - iteration s)%Z in
  let ran := (Z.of_nat (bodies (final_world o)) - Z.of_nat (bodies w))%Z in
  (0 <= done)%Z
  /\ (ran <= Z.max 0 (iteration_limit r - iteration s))%Z
  /\ match o with
     | Finished _ s' =>
         ran = done /\ phase s' = "DONE"
         /\ ((iteration_limit r <= iteration s')%Z ->
             last_result s' = Some "iteration_limit")
     | Aborted _ _ _ => (done <= ran <= done + 1)%Z
     end.


End EngineSpec.

(** * Properties *)

(** ** Strings *)

Module PyStrFacts.
Import PyStr.

Lemma append_cons (a : ascii) (p t : string) :
  String a p +:+ t = String a (p +:+ t).
Proof. reflexivity. Qed.

Lemma append_nil (t : string) : "" +:+ t = t.
Proof. reflexivity. Qed.



Lemma mem_In (x : string) (l : list string) : mem x l = true <-> In x l.
Proof.
  unfold mem. rewrite existsb_exists. split.
  - intros [y [Hy Heq]]. apply String.eqb_eq in Heq. congruence.
  - intros H. exists x. split; [assumption | apply String.eqb_refl].
Qed.


End PyStrFacts.

(** ** Containment of paths and commands *)

Module Containment.
Import PyPath.

Section WithPlatform.
Variable P : Platform.

(** [is_relative_to] holds exactly of the paths whose parts extend the
    parts of the other path *)
Lemma is_relative_to_nested (p other : Path) :
  is_relative_to p other = true ->
  exists rest, abs_parts p = abs_parts other ++ rest.
Proof.
  unfold is_relative_to. destruct (abs_parts other) as [|x l] eqn:E.
  - intros _. exists (abs_parts p). reflexivity.
  - intros H. apply bool_decide_eq_true in H.
    exists (skipn (length (x :: l)) (abs_parts p)).
    rewrite <- H at 1. symmetry. apply firstn_skipn.
Qed.







Lemma run_cmd_completes (w : World) (cmd cwd : string) (root : Path)
    (allowlist : option (list string)) (timeout max_output : Z)
    (exe : string) (safe_cwd : Path) :
  CmdTools._extract_exe P cmd = Ok exe ->
  In exe (CmdTools.effective_allowlist allowlist) ->
  CmdTools.has_blocked_token (PyStr.lower cmd) = false ->
  CmdTools._ensure_within_root P root cwd = Ok safe_cwd ->
  let spawned := subprocess_run P cmd safe_cwd timeout (files w) in
  CmdTools.run_cmd P w cmd cwd root allowlist timeout max_output
  = (set_files (emit (EvSpawn cmd safe_cwd) w) (fst spawned),
     match snd spawned with
     | Ok completed =>
         Ok {| CmdTools.returncode := cp_returncode completed;
               CmdTools.output :=
                 CmdTools.truncate_output max_output
                   (cp_stdout completed +:+ cp_stderr completed) |}
     | Raise e => Raise e
     end).
Proof.
  intros Hexe Hallow Hblk Hcwd spawned.
  unfold CmdTools.run_cmd. rewrite Hexe, Hblk.
  apply PyStrFacts.mem_In in Hallow. rewrite Hallow, Hcwd. simpl.
  subst spawned.
  destruct (subprocess_run P cmd safe_cwd timeout (files w)) as [fs' r].
  simpl. destruct r; reflexivity.
Qed.


End WithPlatform.
End Containment.

(** ** Paths *)

Module PathFacts.
Import PyStr PyPath.

Import PyStrFacts.

Lemma split_on_whole (sep : ascii) (x : string) :
  has_char sep x = false -> split_on sep x = [x].
Proof.
  induction x as [|c x IH]; simpl; [reflexivity|].
  intros H. apply orb_false_iff in H as [Hc Hx].
  rewrite Hc, (IH Hx). reflexivity.
Qed.









End PathFacts.

(** ** The engine *)

Module Engine.
Import PyPath Schema Orchestrator EngineSpec.

Section WithPlatform.
Variable P : Platform.

Lemma log_engine (w : World) (path : Path) (payload : json) :
  engine_events (log P w path payload) = engine_events w.
Proof. reflexivity. Qed.

Lemma write_state_engine (w : World) (path : Path) (state : RunState) :
  engine_events (_write_state P w path state) = engine_events w.
Proof. reflexivity. Qed.

Lemma run_cmd_engine (w : World) cmd cwd root allowlist timeout max_output :
  engine_events
    (fst (CmdTools.run_cmd P w cmd cwd root allowlist timeout max_output))
  = engine_events w.
Proof.
  unfold CmdTools.run_cmd.
  destruct (CmdTools._extract_exe P cmd); [|reflexivity].
  destruct (CmdTools.has_blocked_token _); [reflexivity|].
  destruct (negb _); [reflexivity|].
  destruct (CmdTools._ensure_within_root P root cwd); [|reflexivity].
  simpl. destruct (subprocess_run P _ _ _ _) as [fs' r].
  destruct r; reflexivity.
Qed.

Lemma write_file_engine (w : World) root path content :
  engine_events (fst (FsTools.write_file P w root path content))
  = engine_events w.
Proof.
  unfold FsTools.write_file.
  destruct (FsTools.safe_path P root path); reflexivity.
Qed.

Lemma dispatch_engine (w : World) gp action workspace :
  engine_events (fst (fst (dispatch P w gp action workspace)))
  = engine_events w.
Proof.
  unfold dispatch. destruct (truthy _); [reflexivity|].
  destruct action as [path text|path|path|path query|cmd cwd]; simpl;
    try reflexivity.
  - pose proof (write_file_engine w workspace path text) as H.
    destruct (FsTools.write_file P w workspace path text) as [w' r].
    destruct r; exact H.
  - unfold CmdTools.run_cmd_default.
    pose proof (run_cmd_engine w cmd cwd workspace None 30 4000) as H.
    destruct (CmdTools.run_cmd P w cmd cwd workspace None 30 4000).
    exact H.
Qed.

Lemma execute_action_engine (w : World) gp workspace alog action :
  engine_events (fst (fst (execute_action P w gp workspace alog action)))
  = engine_events w.
Proof.
  unfold execute_action.
  pose proof (dispatch_engine w gp action workspace) as H.
  destruct (dispatch P w gp action workspace) as [[w' r] wrote].
  simpl in *. exact H.
Qed.

Lemma execute_list_engine (todo : list Action) (w : World) gp workspace alog :
  engine_events (fst (execute_list P w gp workspace alog todo))
  = engine_events w.
Proof.
  revert w. induction todo as [|a todo IH]; intros w; [reflexivity|].
  simpl.
  pose proof (execute_action_engine w gp workspace alog a) as H.
  destruct (execute_action P w gp workspace alog a) as [[w1 r1] t1].
  specialize (IH w1).
  destruct (execute_list P w1 gp workspace alog todo) as [w2 [rs ts]].
  simpl in *. congruence.
Qed.

Lemma model_turn_engine (w : World) messages prompt llog fb :
  engine_events (fst (_model_turn P w messages prompt llog fb))
  = engine_events w.
Proof.
  unfold _model_turn.
  destruct (ollama_chat P _ _); [|reflexivity].
  destruct (parse_action_response P _); reflexivity.
Qed.

Lemma turn_and_execute_engine (r : Run) (w : World) state prompt fb :
  engine_events (fst (turn_and_execute P r w state prompt fb))
  = engine_events w.
Proof.
  unfold turn_and_execute.
  pose proof (model_turn_engine w (run_messages r) prompt (llm_log r) fb) as H.
  destruct (_model_turn P w (run_messages r) prompt (llm_log r) fb)
    as [w1 [[resp pe]|e]]; [|exact H].
  unfold _execute_actions.
  pose proof (execute_list_engine (actions resp) w1 (goal_prints r)
                (run_workspace r) (actions_log r)) as H2.
  destruct (execute_list P w1 _ _ _ _) as [w2 [rs ts]].
  simpl in *. congruence.
Qed.

(** [turn_and_execute] changes of the state only the touched files *)
Lemma turn_and_execute_state (r : Run) (w w' : World) state state' prompt fb
    results :
  turn_and_execute P r w state prompt fb = (w', Ok (results, state')) ->
  phase state' = phase state /\ iteration state' = iteration state
  /\ last_result state' = last_result state.
Proof.
  unfold turn_and_execute.
  destruct (_model_turn P w _ _ _ _) as [w1 [[resp pe]|e]]; [|discriminate].
  destruct (_execute_actions P w1 _ _ _ _) as [w2 [rs ts]].
  intros [= <- <- <-]. auto.
Qed.

Lemma write_lesson_engine (w : World) base task_id content metadata :
  exists note,
    engine_events
      (fst (MemoryStore.write_lesson P w base task_id content metadata))
    = EvWriteLesson task_id note :: engine_events w.
Proof.
  unfold MemoryStore.write_lesson, MemoryStore._update_index.
  eexists. destruct (relative_to _ _); reflexivity.
Qed.

Lemma write_memory_engine (w : World) repo task workspace state :
  exists note,
    engine_events (fst (_write_memory P w repo task workspace state))
    = EvWriteLesson (task_id task) note :: engine_events w.
Proof. unfold _write_memory. apply write_lesson_engine. Qed.

Ltac turn_cases r w s prompt fb :=
  let Hte := fresh "Hte" in
  pose proof (turn_and_execute_engine r w s prompt fb) as Hev;
  destruct (turn_and_execute P r w s prompt fb)
    as [w1 [[results s1]|e]] eqn:Hte;
  [ destruct (turn_and_execute_state r w w1 s s1 prompt fb results Hte)
      as [Hph [Hit Hlr]]; simpl in Hev
  | simpl in Hev ].

Lemma plan_body_spec (r : Run) (w : World) (s : RunState) (fb : string) :
  body_spec w s ["REPAIR"; "IMPLEMENT"] (plan_body P r w s fb).
Proof.
  unfold plan_body. turn_cases r w s PLAN_PROMPT fb.
  - destruct (_has_errors results); [|destruct (negb _)]; simpl;
      rewrite Hit; auto.
  - simpl. auto.
Qed.

Lemma implement_body_spec (r : Run) (w : World) (s : RunState)
    (fb : string) :
  body_spec w s ["REPAIR"; "VERIFY"] (implement_body P r w s fb).
Proof.
  unfold implement_body. turn_cases r w s IMPLEMENT_PROMPT fb.
  - destruct (_has_errors results); simpl; rewrite Hit; auto.
  - simpl. auto.
Qed.

Lemma repair_body_spec (r : Run) (w : World) (s : RunState) (fb : string) :
  body_spec w s ["REPAIR"; "VERIFY"] (repair_body P r w s fb).
Proof.
  unfold repair_body. turn_cases r w s REPAIR_PROMPT fb.
  - destruct (_has_errors results); simpl; rewrite Hit; auto.
  - simpl. auto.
Qed.

Lemma verify_body_spec (r : Run) (w : World) (s : RunState) (fb : string) :
  body_spec w s ["DONE"; "REPAIR"] (verify_body P r w s fb).
Proof.
  unfold verify_body.
  destruct (test_cmd_of (run_task_ r)) as [test_cmd|]; simpl; [|auto].
  unfold CmdTools.run_cmd_default.
  pose proof (run_cmd_engine w test_cmd "." (run_workspace r) None 30 4000)
    as Hev.
  destruct (CmdTools.run_cmd P w test_cmd "." (run_workspace r) None 30 4000)
    as [w1 res].
  simpl in Hev.
  destruct (CmdTools.returncode _ =? 0)%Z; simpl; auto.
Qed.

Lemma body_round (r : Run) (w : World) (s : RunState) (name : string)
    (targets : list string) (st : step) :
  (iteration s < iteration_limit r)%Z ->
  phase s = name -> is_work_phase name = true ->
  incl targets ["REPAIR"; "IMPLEMENT"; "VERIFY"; "DONE"] ->
  body_spec (emit (EvPhase name) w) s targets st ->
  round_spec r w s st.
Proof.
  intros Hlt Hph Hwork Hincl Hb.
  destruct st as [w' s' fb'|w' s'|w' s' e]; simpl in *.
  - destruct Hb as [Hit [Hev Hin]]. split; [assumption|]. right.
    rewrite Hph. repeat split; auto. apply Hincl. exact Hin.
  - contradiction.
  - destruct Hb as [-> Hev]. split; [reflexivity|]. left.
    rewrite Hph. repeat split; auto.
Qed.

Lemma loop_body_spec (r : Run) (w : World) (s : RunState) (fb : string) :
  round_spec r w s (loop_body P r w s fb).
Proof.
  unfold loop_body.
  destruct (Z.leb_spec (iteration_limit r) (iteration s)) as [Hge|Hlt].
  { pose proof (write_memory_engine
                  (_write_state P w (state_path r)
                     (set_outcome s "DONE" "iteration_limit"))
                  (run_repo_root r) (run_task_ r) (run_workspace r)
                  (set_outcome s "DONE" "iteration_limit")) as [note Hn].
    destruct (_write_memory P _ _ _ _ _) as [w1 [p|e]]; simpl in *.
    - left. repeat split; auto. exists note. exact Hn.
    - split; [reflexivity|]. right. left. repeat split; auto.
      exists note. exact Hn. }
  destruct (String.eqb_spec (phase s) "INGEST") as [Hph|Hn1].
  { simpl. split; [assumption|]. left. auto. }
  destruct (String.eqb_spec (phase s) "PLAN") as [Hph|Hn2].
  { eapply body_round; eauto using plan_body_spec.
    intros x Hx; simpl in *; tauto. }
  destruct (String.eqb_spec (phase s) "IMPLEMENT") as [Hph|Hn3].
  { eapply body_round; eauto using implement_body_spec.
    intros x Hx; simpl in *; tauto. }
  destruct (String.eqb_spec (phase s) "VERIFY") as [Hph|Hn4].
  { eapply body_round; eauto using verify_body_spec.
    intros x Hx; simpl in *; tauto. }
  destruct (String.eqb_spec (phase s) "REPAIR") as [Hph|Hn5].
  { eapply body_round; eauto using repair_body_spec.
    intros x Hx; simpl in *; tauto. }
  destruct (String.eqb_spec (phase s) "DONE") as [Hph|Hn6].
  { pose proof (write_memory_engine (emit (EvPhase "DONE") w)
                  (run_repo_root r) (run_task_ r) (run_workspace r) s)
      as [note Hn].
    destruct (_write_memory P _ _ _ _ _) as [w1 [p|e]]; simpl in *.
    - right. left. repeat split; auto. exists note. exact Hn.
    - split; [reflexivity|]. right. right. repeat split; auto.
      exists note. exact Hn. }
  simpl. right. right. repeat split; auto.
  unfold PyStr.mem, KNOWN_PHASES. simpl.
  repeat match goal with
         | H : phase s <> _ |- _ =>
             apply String.eqb_neq in H; rewrite H; clear H
         end.
  reflexivity.
Qed.

Ltac count_with Hev :=
  unfold bodies, lessons; rewrite Hev; simpl;
  repeat match goal with
         | H : is_work_phase _ = _ |- _ => rewrite H
         end; simpl.

(** the counter and the number of phase bodies after one round *)
Lemma round_counts (r : Run) (w : World) (s : RunState) (fb : string) :
  match loop_body P r w s fb with
  | Continue w' s' _ =>
      (iteration s < iteration_limit r)%Z
      /\ phase s' <> "INGEST"
      /\ ((phase s = "INGEST" /\ iteration s' = iteration s
           /\ bodies w' = bodies w)
          \/ (is_work_phase (phase s) = true
              /\ iteration s' = (iteration s + 1)%Z
              /\ bodies w' = S (bodies w)))
  | Break w' s' =>
      iteration s' = iteration s /\ bodies w' = bodies w
      /\ phase s' = "DONE"
      /\ ((iteration_limit r <= iteration s)%Z ->
          last_result s' = Some "iteration_limit")
  | Abort w' s' _ =>
      iteration s' = iteration s
      /\ (bodies w' = bodies w
          \/ ((iteration s < iteration_limit r)%Z
              /\ is_work_phase (phase s) = true
              /\ bodies w' = S (bodies w)))
  end.
Proof.
  pose proof (loop_body_spec r w s fb) as H.
  destruct (loop_body P r w s fb) as [w' s' fb'|w' s'|w' s' e]; simpl in H.
  - destruct H as [Hlt [[Hph [-> Hev]]|[Hwork [Hit [Hev Hin]]]]].
    + split; [assumption|]. split; [discriminate|]. left.
      repeat split; auto. count_with Hev. reflexivity.
    + split; [assumption|]. split.
      { simpl in Hin. intros Heq. rewrite Heq in Hin.
        repeat destruct Hin as [Hin|Hin]; try discriminate; auto. }
      right. repeat split; auto. count_with Hev. reflexivity.
  - destruct H as [[Hge [-> [note Hev]]]|[[Hlt [Hph [-> [note Hev]]]]
                  |[Hlt [Hunk [-> Hev]]]]].
    + split; [reflexivity|]. split; [count_with Hev; reflexivity|].
      split; reflexivity.
    + split; [reflexivity|]. split; [count_with Hev; reflexivity|].
      split; [assumption | lia].
    + split; [reflexivity|]. split; [count_with Hev; reflexivity|].
      split; [reflexivity | lia].
  - destruct H as [Hit [[Hlt [Hwork [-> Hev]]]
                  |[[Hge [-> [note Hev]]]|[Hlt [Hph [-> [note Hev]]]]]]].
    + split; [reflexivity|]. right. repeat split; auto.
      count_with Hev. reflexivity.
    + split; [reflexivity|]. left. count_with Hev. reflexivity.
    + split; [reflexivity|]. left. count_with Hev. reflexivity.
Qed.

Lemma loop_spec (fuel : nat) (r : Run) (w : World) (s : RunState)
    (fb : string) (o : outcome) :
  loop P fuel r w s fb = Some o -> run_spec r w s o.
Proof.
  revert w s fb. induction fuel as [|fuel IH]; intros w s fb; [discriminate|].
  simpl. pose proof (round_counts r w s fb) as H.
  destruct (loop_body P r w s fb) as [w' s' fb'|w' s'|w' s' e].
  - intros Hl. specialize (IH _ _ _ Hl).
    destruct H as [Hlt [_ Hc]]. unfold run_spec in *.
    destruct IH as [I1 [I2 I3]].
    destruct Hc as [[_ [Hit Hb]]|[_ [Hit Hb]]]; rewrite Hit, Hb in *;
      (split; [lia|]); (split; [lia|]);
      destruct o; simpl in *; intuition lia.
  - intros [= <-]. destruct H as [Hit [Hb [Hph Hlr]]].
    unfold run_spec. simpl. rewrite Hit, Hb.
    repeat split; try lia; auto.
  - intros [= <-]. destruct H as [Hit Hb].
    unfold run_spec. simpl. rewrite Hit.
    destruct Hb as [Hb|[Hlt [_ Hb]]]; rewrite Hb; repeat split; lia.
Qed.



(** C9. In one round of the loop the iteration counter grows by one
    when the round runs the body of PLAN, IMPLEMENT, VERIFY or REPAIR
    to its end, and stays as it is otherwise: in the pass from INGEST
    to PLAN, in the DONE body, at the limit, in the fallback and when
    the round is left by an exception.  Over a whole run the counter
    never decreases, and it has grown by the number of phase bodies the
    run executed (one of them possibly left unfinished by the exception
    that ended the run). *)
Theorem iteration_counts_phase_bodies (r : Run) (w : World)
    (s : RunState) (fb : string) :
  match loop_body P r w s fb with
  | Continue _ s' _ =>
      iteration s'
      = (iteration s + (if is_work_phase (phase s) then 1 else 0))%Z
  | Break _ s' | Abort _ s' _ => iteration s' = iteration s
  end
  /\ forall (fuel : nat) (o : outcome),
       loop P fuel r w s fb = Some o ->
       let done := (iteration (final_state o) - iteration s)%Z in
       let ran :=
         (Z.of_nat (bodies (final_world o)) - Z.of_nat (bodies w))%Z in
       (0 <= done)%Z
       /\ match o with
          | Finished _ _ => done = ran
          | Aborted _ _ _ => (done <= ran <= done + 1)%Z
          end.
Proof.
  split.
  - pose proof (round_counts r w s fb) as H.
    destruct (loop_body P r w s fb) as [w' s' fb'|w' s'|w' s' e].
    + destruct H as [_ [_ [[Hph [Hit _]]|[Hwork [Hit _]]]]].
      * rewrite Hph, Hit. simpl. lia.
      * rewrite Hwork, Hit. reflexivity.
    + apply H.
    + apply H.
  - intros fuel o Hl. destruct (loop_spec fuel r w s fb o Hl) as [H1 [_ H3]].
    split; [exact H1|]. destruct o; [symmetry|]; apply H3.
Qed.




(** C7, the fallback.  A state whose phase is not one of the six known
    names, met below the iteration limit, ends the run in one round:
    the state becomes DONE with tag [unknown_phase] and is persisted,
    and no lesson is written. *)
Theorem unknown_phase_writes_no_lesson (r : Run) (w : World)
    (s : RunState) (fb : string) (fuel : nat) :
  (iteration s < iteration_limit r)%Z ->
  PyStr.mem (phase s) KNOWN_PHASES = false ->
  exists w',
    loop P (S fuel) r w s fb
      = Some (Finished w' (set_outcome s "DONE" "unknown_phase"))
    /\ lessons w' = lessons w
    /\ files w' !! FsTools.os_key P (state_path r)
       = Some (json_dumps_indent P
                 (state_to_json (set_outcome s "DONE" "unknown_phase"))).
Proof.
  intros Hlt Hunk. simpl. unfold loop_body.
  destruct (Z.leb_spec (iteration_limit r) (iteration s)); [lia|].
  unfold PyStr.mem, KNOWN_PHASES in Hunk. simpl in Hunk.
  repeat (apply orb_false_iff in Hunk; destruct Hunk as [? Hunk]).
  repeat match goal with
         | H : (_ =? _)%string = false |- _ => rewrite H; clear H
         end.
  eexists. split; [reflexivity|]. split; [reflexivity|].
  unfold _write_state, FsTools.write_text. simpl.
  apply lookup_insert_eq.
Qed.

(** the two other ways to stop write one lesson each *)
Lemma stop_writes_one_lesson (r : Run) (w w' : World) (s s' : RunState)
    (fb : string) :
  loop_body P r w s fb = Break w' s' ->
  PyStr.mem (phase s) KNOWN_PHASES = true
  \/ (iteration_limit r <= iteration s)%Z ->
  lessons w' = S (lessons w).
Proof.
  intros Hb Hk. pose proof (loop_body_spec r w s fb) as H.
  rewrite Hb in H. unfold round_spec in H.
  destruct H as [[Hge [-> [note Hev]]]|[[Hlt [Hph [-> [note Hev]]]]
                |[Hlt [Hunk [-> Hev]]]]].
  - unfold lessons. rewrite Hev. reflexivity.
  - unfold lessons. rewrite Hev. reflexivity.
  - destruct Hk as [Hk|Hk]; [congruence | lia].
Qed.





Lemma validate_test_file (gp : bool) (path content : string) :
  looks_like_test (lower_path_of path) = true ->
  PyStr.contains "def test_" content = false ->
  exists msg,
    _validate_action_inputs gp (WriteFileAction path content) = Some msg
    /\ Shlex.nonempty msg = true.
Proof.
  intros Htest Hdef. unfold _validate_action_inputs.
  destruct (is_placeholder path); [eexists; split; reflexivity|].
  destruct (PyStr.endswith _ _ && negb _);
    [eexists; split; reflexivity|].
  rewrite Htest, Hdef. eexists; split; reflexivity.
Qed.

(** C6, as the code has it.  A [write_file] action whose path is
    recognised as a test file and whose content has no [def test_] is
    rejected by the input validation: [fs_tools.write_file] is not
    entered, the action yields the error result, and that result is
    recorded in the action log.  Nothing else changes: every file other
    than the action log is as before, so the file the action names is not
    created. *)
Theorem test_file_without_tests_rejected (w : World) (gp : bool)
    (workspace actions_log : Path) (path content : string) :
  looks_like_test (lower_path_of path) = true ->
  PyStr.contains "def test_" content = false ->
  exists msg,
    _validate_action_inputs gp (WriteFileAction path content) = Some msg
    /\ execute_action P w gp workspace actions_log
         (WriteFileAction path content)
       = (log P w actions_log
            (JObj [("tool", JStr "write_file");
                   ("input", action_to_json (WriteFileAction path content));
                   ("result", JObj [("error", JStr msg)])]),
          RError msg, [])
    /\ (forall w' res touched,
          execute_action P w gp workspace actions_log
            (WriteFileAction path content) = (w', res, touched) ->
          trace w' = trace w
          /\ touched = []
          /\ is_error res = true
          /\ forall key : list string,
               key <> FsTools.os_key P actions_log ->
               files w' !! key = files w !! key).
Proof.
  intros Htest Hdef.
  destruct (validate_test_file gp path content Htest Hdef) as [msg [Hv Hne]].
  exists msg. split; [exact Hv|].
  assert (Hex : execute_action P w gp workspace actions_log
                  (WriteFileAction path content)
                = (log P w actions_log
                     (JObj [("tool", JStr "write_file");
                            ("input",
                             action_to_json (WriteFileAction path content));
                            ("result", JObj [("error", JStr msg)])]),
                   RError msg, [])).
  { unfold execute_action, dispatch. rewrite Hv. simpl. rewrite Hne.
    reflexivity. }
  split; [exact Hex|].
  intros w' res touched Hrun. rewrite Hex in Hrun.
  injection Hrun as <- <- <-. repeat split.
  intros key Hkey. unfold log, FsTools.append_text. simpl.
  now apply lookup_insert_ne.
Qed.

End WithPlatform.
End Engine.

(** ** The memory index *)

Module MemoryFacts.
Import PyStr PyPath MemoryStore.



Lemma add_token_items (rel : string) (ix : gmap string (list string))
    (tok t : string) :
  items_of (add_token rel ix tok) t
  = if String.eqb t tok
    then (if mem rel (items_of ix tok) then items_of ix tok
          else items_of ix tok ++ [rel])
    else items_of ix t.
Proof.
  unfold add_token, items_of.
  destruct (String.eqb_spec t tok) as [->|Hne].
  - destruct (mem rel _); now rewrite lookup_insert_eq.
  - destruct (mem rel _); rewrite lookup_insert_ne; congruence.
Qed.
















Lemma slice_to_all {A} (limit : Z) (l : list A) :
  (Z.of_nat (length l) <= limit)%Z -> slice_to limit l = l.
Proof.
  intros H. unfold slice_to.
  destruct (Z.leb_spec 0 limit); [|lia].
  apply take_ge. lia.
Qed.

Lemma slice_to_length {A} (limit : Z) (l : list A) :
  (0 <= limit)%Z -> (Z.of_nat (length (slice_to limit l)) <= limit)%Z.
Proof.
  intros H. unfold slice_to.
  destruct (Z.leb_spec 0 limit); [|lia].
  rewrite length_take. lia.
Qed.

Section WithPlatform.
Variable P : Platform.

Lemma read_notes_length (fs : FS) (base : Path) (l : list (string * Z))
    (results : list string) :
  read_notes P fs base l = Ok results ->
  (length results <= length l)%nat.
Proof.
  revert results. induction l as [|[p n] l IH]; intros results; simpl.
  - intros [= <-]. simpl. lia.
  - destruct (FsTools.path_exists P fs _).
    + destruct (FsTools.read_text P fs _); [|discriminate]. simpl.
      destruct (read_notes P fs base l) as [more|]; [|discriminate].
      simpl. intros [= <-]. specialize (IH more eq_refl). simpl. lia.
    + intros H. specialize (IH _ H). lia.
Qed.








Lemma retrieve_at_most_limit (w : World) (base : Path) (query : string)
    (limit : Z) (results : list string) :
  (0 <= limit)%Z ->
  snd (retrieve P w base query limit) = Ok results ->
  (Z.of_nat (length results) <= limit)%Z.
Proof.
  intros Hl H. unfold retrieve, _load_index in H. simpl in H.
  apply read_notes_length in H.
  pose proof (slice_to_length limit
                (rank (score_tokens (index w) (_tokenize query))) Hl).
  lia.
Qed.

End WithPlatform.
End MemoryFacts.

(** C10. [retrieve] cuts the ranked candidates down to [limit] first and
    looks for the note files afterwards, and it leaves the world, index
    included, as it is.  So a stale index entry takes a slot: in
    [stale_store] three existing notes match the query and the limit is 3,
    yet two notes are returned.  With a limit that is not negative,
    never more than [limit] notes are returned. *)
Theorem retrieve_truncates_before_existence_check :
  (forall (P : Platform) (w : World) (base : Path) (query : string)
          (limit : Z),
     fst (MemoryStore.retrieve P w base query limit) = w
     /\ snd (MemoryStore.retrieve P w base query limit)
        = MemoryStore.read_notes P (files w) base
            (MemoryStore.slice_to limit
               (MemoryStore.rank
                  (MemoryStore.score_tokens (index w)
                     (MemoryStore._tokenize query))))
     /\ forall results,
          (0 <= limit)%Z ->
          snd (MemoryStore.retrieve P w base query limit) = Ok results ->
          (Z.of_nat (length results) <= limit)%Z)
  /\ exists (w : World) (base : Path) (query : string) (limit : Z)
            (results : list string),
       (limit <= Z.of_nat (length (existing_matches quiet_posix w base query)))%Z
       /\ MemoryStore.retrieve quiet_posix w base query limit = (w, Ok results)
       /\ (Z.of_nat (length results) < limit)%Z.
Proof.
  split.
  - intros P w base query limit. split; [reflexivity|]. split; [reflexivity|].
    intros results. apply MemoryFacts.retrieve_at_most_limit.
  - exists stale_store, MEMORIES, "task", 3%Z.
    eexists. split; [|split].
    + vm_compute. discriminate.
    + vm_compute. reflexivity.
    + vm_compute. reflexivity.
Qed.


(** ** The properties at concrete inputs *)

(** The tests of the repository. *)
Example test_safe_path_allows_relative :
  exists p, FsTools.safe_path quiet_posix WORKSPACE "notes.txt" = Ok p
            /\ PyPath.is_relative_to p WORKSPACE = true.
Proof. eexists. split; vm_compute; reflexivity. Qed.

Example test_safe_path_blocks_escape :
  FsTools.safe_path quiet_posix WORKSPACE "../outside.txt"
  = Raise (FsError "Path escapes workspace: ../outside.txt").
Proof. vm_compute. reflexivity. Qed.

Example test_run_cmd_blocks_unlisted_exe :
  CmdTools.run_cmd_default quiet_posix empty_world "echo hello" "." WORKSPACE
  = (empty_world, Raise (CmdError "Command not allowed: echo")).
Proof. vm_compute. reflexivity. Qed.

Example test_parse_action_response_invalid_json :
  Schema.parse_action_response quiet_posix "{not-json}"
  = Raise (ValueError "Invalid JSON from model").
Proof. vm_compute. reflexivity. Qed.

Example test_parse_action_response_invalid_action :
  Schema.parse_action_response quiet_posix
    (reply "x" [JObj [("tool", JStr "write_file")]])
  = Raise (ValueError "Invalid action schema").
Proof. vm_compute. reflexivity. Qed.

Example test_parse_action_response_rejects_extra_text :
  Schema.parse_action_response quiet_posix
    ("Here is the response: " +:+ reply "x" [])
  = Raise (ValueError "Invalid JSON from model").
Proof. vm_compute. reflexivity. Qed.

(** Documents that do not have the shape of a response: a key too many, the
    required key missing; [actions] may be left out. *)
Example extra_key_is_refused :
  Schema.model_validate
    (JObj [("thought", JStr "x"); ("actions", JArr []); ("note", JStr "y")])
  = None.
Proof. reflexivity. Qed.

Example missing_thought_is_refused :
  Schema.model_validate (JObj [("actions", JArr [])]) = None.
Proof. reflexivity. Qed.

Example missing_actions_is_accepted :
  Schema.model_validate (JObj [("thought", JStr "x")])
  = Some {| Schema.thought := "x"; Schema.actions := [] |}.
Proof. reflexivity. Qed.






(** C6 at the action of the specification. *)
Lemma test_file_without_tests_rejected_witness :
  exists w',
    Orchestrator.execute_action quiet_posix empty_world false WORKSPACE
      (PyPath.child WORKSPACE "actions.log")
      (Schema.WriteFileAction "test_foo.py" "x = 1")
    = (w', Orchestrator.RError
             "test file must include pytest-style test functions", [])
    /\ trace w' = []
    /\ files w' !! ["/"; "repo"; "workspaces"; "demo"; "test_foo.py"] = None.
Proof.
  destruct (Engine.test_file_without_tests_rejected quiet_posix empty_world
              false WORKSPACE (PyPath.child WORKSPACE "actions.log")
              "test_foo.py" "x = 1") as [msg [Hv [Hrun Hrest]]].
  - reflexivity.
  - reflexivity.
  - vm_compute in Hv. injection Hv as <-.
    eexists. split; [exact Hrun|].
    destruct (Hrest _ _ _ Hrun) as [Htrace [_ [_ Hfiles]]].
    split; [exact Htrace|].
    rewrite Hfiles; [reflexivity|]. vm_compute. discriminate.
Defined.

(** C6 as worded fails in the layout of [run_task], where the artifacts
    live in the workspace: recording the rejected action creates
    [actions.log] there. *)
Lemma rejected_write_is_logged :
  ~ rejected_write_changes_nothing quiet_posix empty_world false WORKSPACE
      (PyPath.child WORKSPACE "actions.log") "test_foo.py" "x = 1".
Proof.
  unfold rejected_write_changes_nothing. intros H.
  specialize (H eq_refl eq_refl).
  apply (f_equal
           (fun fs : FS =>
              match fs !! ["/"; "repo"; "workspaces"; "demo"; "actions.log"]
              with
              | Some _ => true
              | None => false
              end))
    in H.
  vm_compute in H. discriminate.
Qed.

(** C7 at a state file whose phase is [PAUSED]: the run ends, the state is
    persisted, no lesson is written. *)
Lemma unknown_phase_writes_no_lesson_witness :
  exists w',
    Orchestrator.loop quiet_posix 1 (demo_run []) empty_world paused_state ""
    = Some (Orchestrator.Finished w'
              (Orchestrator.set_outcome paused_state "DONE" "unknown_phase"))
    /\ lessons w' = 0%nat.
Proof.
  destruct (Engine.unknown_phase_writes_no_lesson quiet_posix (demo_run [])
              empty_world paused_state "" 0) as [w' [Hrun [Hl _]]].
  - reflexivity.
  - reflexivity.
  - exists w'. split; [exact Hrun | exact Hl].
Defined.

(** the same through [resume_task], from the files on disk *)
Example resume_with_unknown_phase :
  match Orchestrator.resume_task quiet_posix 5 paused_world REPO "demo" with
  | Some (Orchestrator.Ran o) => Some (summary o)
  | _ => None
  end
  = Some (true, 0%nat, 0%nat, "DONE", 2%Z, Some "unknown_phase").
Proof. vm_compute. reflexivity. Qed.

(** the runs that stop at the limit or in DONE do write their lesson *)
Example limit_and_done_write_one_lesson :
  option_map summary
    (Orchestrator._run_loop babbling_posix 4 empty_world REPO
       (demo_task [("iteration_limit", JInt 2)]) WORKSPACE
       Orchestrator.initial_state None)
  = Some (true, 2%nat, 1%nat, "DONE", 2%Z, Some "iteration_limit")
  /\ option_map summary
       (Orchestrator._run_loop helpful_posix 10 empty_world REPO
          (demo_task []) WORKSPACE Orchestrator.initial_state None)
     = Some (true, 3%nat, 1%nat, "DONE", 3%Z, Some "no_test_cmd").
Proof. split; vm_compute; reflexivity. Qed.


(** C9 at a run that plans, implements, verifies and is done. *)
Lemma iteration_counts_phase_bodies_witness :
  exists o,
    Orchestrator.loop helpful_posix 6 (demo_run []) empty_world
      Orchestrator.initial_state "" = Some o
    /\ summary o = (true, 3%nat, 1%nat, "DONE", 3%Z, Some "no_test_cmd")
    /\ (Orchestrator.iteration (final_state o)
        - Orchestrator.iteration Orchestrator.initial_state)%Z
       = (Z.of_nat (bodies (final_world o)) - Z.of_nat (bodies empty_world))%Z.
Proof.
  assert (Hs : option_map summary
                 (Orchestrator.loop helpful_posix 6 (demo_run []) empty_world
                    Orchestrator.initial_state "")
               = Some (true, 3%nat, 1%nat, "DONE", 3%Z, Some "no_test_cmd"))
    by (vm_compute; reflexivity).
  destruct (Orchestrator.loop helpful_posix 6 (demo_run []) empty_world
              Orchestrator.initial_state "") as [o|] eqn:Hrun;
    [|discriminate].
  apply (inj Some) in Hs. exists o. split; [reflexivity|]. split; [exact Hs|].
  destruct (proj2 (Engine.iteration_counts_phase_bodies helpful_posix
                     (demo_run []) empty_world Orchestrator.initial_state "")
              6%nat o Hrun) as [_ Hcount].
  destruct o as [w s|w s e]; [exact Hcount | discriminate Hs].
Defined.

(** C10 at the stale store: the limit bounds the result, and is not
    reached. *)
Lemma retrieve_truncates_before_existence_check_witness :
  exists results,
    snd (MemoryStore.retrieve quiet_posix stale_store MEMORIES "task" 3)
    = Ok results
    /\ length results = 2%nat
    /\ (Z.of_nat (length results) <= 3)%Z
    /\ length (existing_matches quiet_posix stale_store MEMORIES "task")
       = 3%nat.
Proof.
  destruct (MemoryStore.retrieve quiet_posix stale_store MEMORIES "task" 3)
    as [w [results|e]] eqn:Hrun.
  - exists results. split; [reflexivity|].
    assert (Hlen : length results = 2%nat).
    { apply (f_equal snd) in Hrun. vm_compute in Hrun.
      injection Hrun as <-. reflexivity. }
    split; [exact Hlen|]. split.
    + destruct retrieve_truncates_before_existence_check as [Hall _].
      destruct (Hall quiet_posix stale_store MEMORIES "task" 3%Z)
        as [_ [_ Hbound]].
      apply Hbound; [lia|]. now rewrite Hrun.
    + vm_compute. reflexivity.
  - apply (f_equal snd) in Hrun. vm_compute in Hrun. discriminate.
Defined.

(** * Further properties *)

(** ** The file tools *)

Module FsFacts.
Import PyPath FsTools.








Section WithPlatform.
Variable P : Platform.


Lemma safe_path_inside (root path : Path) (path_str : string) :
  safe_path P root path_str = Ok path ->
  exists rest, abs_parts path = abs_parts (resolve P root) ++ rest.
Proof.
  unfold safe_path. intros H.
  match type of H with
  | (if negb (is_relative_to ?c ?r) then _ else _) = _ =>
      destruct (is_relative_to c r) eqn:Hrel; simpl in H; [|discriminate]
  end.
  injection H as <-. now apply Containment.is_relative_to_nested.
Qed.

(** X2. [write_file] changes no file outside the workspace root: when
    the canonical path it obtained names itself (canonicalising it again
    gives the same path), every key of the file tree whose content
    differs afterwards extends the parts of the canonical root.  In
    particular a path string that escapes changes nothing. *)
Theorem write_file_stays_inside (w : World) (root : Path)
    (path_str content : string) (key : list string) :
  (forall path, safe_path P root path_str = Ok path -> resolve P path = path) ->
  files (fst (write_file P w root path_str content)) !! key
    <> files w !! key ->
  exists rest, key = abs_parts (resolve P root) ++ rest.
Proof.
  intros Hcanon Hdiff. unfold write_file in Hdiff.
  destruct (safe_path P root path_str) as [path|e] eqn:Hsafe.
  - destruct (safe_path_inside root path path_str Hsafe) as [rest Hrest].
    simpl in Hdiff. unfold write_text in Hdiff.
    destruct (decide (key = os_key P path)) as [->|Hne].
    + exists rest. unfold os_key. rewrite (Hcanon path eq_refl). exact Hrest.
    + rewrite lookup_insert_ne in Hdiff by congruence. now destruct Hdiff.
  - now destruct Hdiff.
Qed.








Lemma scan_files_raises (root : Path) (query : string)
    (fs : list (list string * string)) (key : list string) (text : string)
    (e : exn) :
  In (key, text) fs ->
  existsb (PyStr.contains query) (PyStr.splitlines text) = true ->
  relative_str root key = Raise e ->
  exists msg, scan_files root query fs = Raise (ValueError msg).
Proof.
  intros Hin Hany Hrel. induction fs as [|[k t] fs IH]; [destruct Hin|].
  simpl. destruct Hin as [Heq|Hin].
  - injection Heq as -> ->. rewrite Hany, Hrel. simpl.
    unfold relative_str in Hrel.
    destruct (bool_decide _); [discriminate|]. injection Hrel as <-. eauto.
  - destruct (IH Hin) as [msg Hmsg].
    destruct (existsb (PyStr.contains query) (PyStr.splitlines t)); [|eauto].
    unfold relative_str at 1. destruct (bool_decide _); simpl; [|eauto].
    rewrite Hmsg. simpl. eauto.
Qed.

(** X5. The path of a match is taken relative to the root as the caller
    gave it, not to its canonical form.  So when a file below the base
    holds a matching line and the key of that file does not start with
    the parts of the given root (a relative root, say), the search does
    not return: it raises a [ValueError] that is not the containment
    error. *)
Theorem search_in_files_wants_canonical_root (w : World) (root base : Path)
    (path_str query : string) (key : list string) (text : string) :
  safe_path P root path_str = Ok base ->
  files w !! key = Some text ->
  strict_prefixb (os_key P base) key = true ->
  existsb (PyStr.contains query) (PyStr.splitlines text) = true ->
  firstn (length (abs_parts root)) key <> abs_parts root ->
  exists msg,
    search_in_files P w root path_str query = Raise (ValueError msg).
Proof.
  intros Hsafe Hlook Hpre Hany Hout. unfold search_in_files.
  rewrite Hsafe. simpl.
  assert (Hin : (key, text) ∈ map_to_list (files w))
    by now apply elem_of_map_to_list.
  assert (Hdir : is_dir P (files w) base = true).
  { unfold is_dir. apply existsb_exists. exists (key, text).
    split; [now apply list_elem_of_In|exact Hpre]. }
  unfold path_exists. rewrite Hdir, orb_true_r. simpl.
  apply (scan_files_raises root query _ key text
           (ValueError "not in the subpath")).
  - apply list_elem_of_In, list_elem_of_filter. split; [exact Hpre|exact Hin].
  - exact Hany.
  - unfold relative_str. rewrite bool_decide_eq_false_2; [reflexivity|exact Hout].
Qed.

End WithPlatform.
End FsFacts.

(** ** The command tools *)

Module CmdFacts.
Import PyPath CmdTools.

Lemma split_on_nonempty (sep : ascii) (s : string) : PyStr.split_on sep s <> [].
Proof.
  destruct s as [|c s]; simpl; [discriminate|].
  destruct (Ascii.eqb c sep); [discriminate|].
  destruct (PyStr.split_on sep s); discriminate.
Qed.

Lemma split_on_sep (sep : ascii) (d x : string) :
  PyStr.split_on sep (d +:+ String sep x)
  = PyStr.split_on sep d ++ PyStr.split_on sep x.
Proof.
  induction d as [|c d IH].
  - rewrite PyStrFacts.append_nil. simpl. now rewrite Ascii.eqb_refl.
  - rewrite PyStrFacts.append_cons. simpl. destruct (Ascii.eqb c sep).
    + now rewrite IH.
    + rewrite IH. pose proof (split_on_nonempty sep d) as Hne.
      destruct (PyStr.split_on sep d); [congruence|reflexivity].
Qed.

Lemma name_of_joined (dir exe : string) :
  clean_part exe = true -> name (parse (dir +:+ "/" +:+ exe)) = exe.
Proof.
  intros Hclean. unfold name, parse. simpl.
  change (dir +:+ "/" +:+ exe) with (dir +:+ String "/" exe).
  rewrite split_on_sep.
  unfold clean_part in Hclean. apply andb_true_iff in Hclean as [Hkeep Hslash].
  apply negb_true_iff in Hslash.
  rewrite (PathFacts.split_on_whole "/" exe Hslash).
  rewrite filter_app. simpl. rewrite filter_cons_True by exact Hkeep.
  rewrite filter_nil. apply last_last.
Qed.

Lemma is_relative_to_refl (p : Path) : is_relative_to p p = true.
Proof.
  unfold is_relative_to. destruct (abs_parts p) as [|x l] eqn:Hp.
  - unfold abs_parts in Hp. destruct (String.eqb (root p) ""); [reflexivity|discriminate].
  - apply bool_decide_eq_true. apply firstn_all.
Qed.

Lemma lex_blank (s : string) (acc : list string) :
  all_chars Shlex.is_whitespace s = true ->
  Shlex.lex s Shlex.InWhitespace EmptyString false acc = inr (rev acc).
Proof.
  induction s as [|c s IH]; simpl; [reflexivity|].
  intros H. apply andb_true_iff in H as [Hc Hs]. rewrite Hc. simpl. auto.
Qed.

Section WithPlatform.
Variable P : Platform.

(** X6. [run_cmd] either raises and leaves the world as it was, or it
    spawns one process, with the command text it was given, in a working
    directory whose parts extend those of the canonical root; only the
    child then changes the file tree, and the memory index is never
    touched. *)
Theorem run_cmd_spawns_inside_root (w : World) (cmd cwd : string)
    (root : Path) (allowlist : option (list string))
    (timeout max_output : Z) :
  let run := run_cmd P w cmd cwd root allowlist timeout max_output in
  (fst run = w /\ exists e, snd run = Raise e)
  \/ exists safe_cwd rest,
       trace (fst run) = EvSpawn cmd safe_cwd :: trace w
       /\ abs_parts safe_cwd = abs_parts (resolve P root) ++ rest
       /\ files (fst run)
          = fst (subprocess_run P cmd safe_cwd timeout (files w))
       /\ index (fst run) = index w.
Proof.
  unfold run_cmd.
  destruct (_extract_exe P cmd) as [exe|e]; [|left; eauto].
  destruct (has_blocked_token (PyStr.lower cmd)); [left; eauto|].
  destruct (negb (PyStr.mem exe (effective_allowlist allowlist)));
    [left; eauto|].
  destruct (_ensure_within_root P root cwd) as [safe_cwd|e] eqn:Hcwd;
    [|left; eauto].
  right. unfold _ensure_within_root in Hcwd.
  match type of Hcwd with
  | (if negb (is_relative_to ?c ?r) then _ else _) = _ =>
      destruct (is_relative_to c r) eqn:Hrel; simpl in Hcwd; [|discriminate]
  end.
  injection Hcwd as <-.
  apply Containment.is_relative_to_nested in Hrel as [rest Hrest].
  match type of Hrest with
  | abs_parts ?c = _ => exists c, rest
  end.
  simpl.
  destruct (subprocess_run P cmd _ timeout (files w)) as [fs' [c|e]] eqn:Hrun;
    simpl; repeat split; solve [reflexivity | exact Hrest].
Qed.

(** X7. The allow-list sees the file name of the executable only: when
    the first token is a path [dir/exe], the executable checked is
    [exe], and with [exe] allow-listed, no blocked substring and a
    contained working directory the command is spawned as written,
    whatever [dir] is. *)
Theorem allow_check_sees_basename_only (w : World) (cmd cwd : string)
    (root : Path) (allowlist : option (list string))
    (timeout max_output : Z) (dir exe : string) (args : list string)
    (safe_cwd : Path) :
  shlex_split P cmd = inr ((dir +:+ "/" +:+ exe) :: args) ->
  clean_part exe = true ->
  In exe (effective_allowlist allowlist) ->
  has_blocked_token (PyStr.lower cmd) = false ->
  _ensure_within_root P root cwd = Ok safe_cwd ->
  _extract_exe P cmd = Ok exe
  /\ trace (fst (run_cmd P w cmd cwd root allowlist timeout max_output))
     = EvSpawn cmd safe_cwd :: trace w.
Proof.
  intros Hsplit Hclean Hallow Hblock Hcwd.
  assert (Hexe : _extract_exe P cmd = Ok exe).
  { unfold _extract_exe, _split_cmd. rewrite Hsplit. simpl.
    now rewrite name_of_joined. }
  split; [exact Hexe|].
  rewrite (Containment.run_cmd_completes P w cmd cwd root allowlist timeout
             max_output exe safe_cwd Hexe Hallow Hblock Hcwd).
  reflexivity.
Qed.

(** X8. Under POSIX tokenisation a command that is empty or holds only
    blank space is refused with [CmdError("Empty command")] before the
    block-list, the allow-list or the working directory are looked at,
    and nothing is spawned. *)
Theorem blank_command_is_refused (w : World) (cmd cwd : string)
    (root : Path) (allowlist : option (list string))
    (timeout max_output : Z) :
  shlex_split P cmd = Shlex.split cmd ->
  all_chars Shlex.is_whitespace cmd = true ->
  run_cmd P w cmd cwd root allowlist timeout max_output
  = (w, Raise (CmdError "Empty command")).
Proof.
  intros Hposix Hblank. unfold run_cmd, _extract_exe, _split_cmd.
  rewrite Hposix. unfold Shlex.split. now rewrite lex_blank.
Qed.

Lemma mem_same (x : string) (l1 l2 : list string) :
  (forall y, In y l1 <-> In y l2) -> PyStr.mem x l1 = PyStr.mem x l2.
Proof.
  intros H. apply eq_true_iff_eq. rewrite !PyStrFacts.mem_In. apply H.
Qed.

(** X9. [run_cmd] uses its allow-list as a set: two lists with the same
    members give the same result.  An empty list is not an empty set,
    though: it is falsy, so the default allow-list is used, exactly as
    when no list is passed. *)
Theorem allowlist_is_a_set (w : World) (cmd cwd : string) (root : Path)
    (l1 l2 : list string) (timeout max_output : Z) :
  (forall exe, In exe l1 <-> In exe l2) ->
  run_cmd P w cmd cwd root (Some l1) timeout max_output
  = run_cmd P w cmd cwd root (Some l2) timeout max_output
  /\ run_cmd P w cmd cwd root (Some []) timeout max_output
     = run_cmd P w cmd cwd root None timeout max_output.
Proof.
  intros Hsame. split; [|reflexivity].
  assert (Heff : forall y, In y (effective_allowlist (Some l1))
                           <-> In y (effective_allowlist (Some l2))).
  { destruct l1 as [|a l1], l2 as [|b l2]; simpl; try tauto.
    - destruct (Hsame b) as [_ H]. destruct H. now left.
    - destruct (Hsame a) as [H _]. destruct H. now left. }
  unfold run_cmd. destruct (_extract_exe P cmd) as [exe|e]; [|reflexivity].
  now rewrite (mem_same exe _ _ Heff).
Qed.

(** X10. For an absolute root that is written the way [pathlib] writes
    it, [git_status] and [git_diff] pass every check of [run_cmd]: they
    spawn [git status -sb] and [git diff] in the canonical root with the
    default timeout, and return the exit code and the output cut at 4000
    characters. *)
Theorem git_commands_run_in_root (w : World) (root : Path) :
  (forall text, shlex_split P text = Shlex.split text) ->
  is_absolute root = true ->
  parse (to_string root) = root ->
  let run_in_root cmd :=
    let spawned := subprocess_run P cmd (resolve P root) 30 (files w) in
    (set_files (emit (EvSpawn cmd (resolve P root)) w) (fst spawned),
     match snd spawned with
     | Ok completed =>
         Ok {| returncode := cp_returncode completed;
               output := truncate_output 4000
                           (cp_stdout completed +:+ cp_stderr completed) |}
     | Raise e => Raise e
     end) in
  GitTools.git_status P w root = run_in_root "git status -sb"
  /\ GitTools.git_diff P w root = run_in_root "git diff".
Proof.
  intros Hposix Habs Hstr.
  assert (Hcwd : _ensure_within_root P root (to_string root)
                 = Ok (resolve P root)).
  { unfold _ensure_within_root. rewrite Hstr, Habs. simpl.
    now rewrite is_relative_to_refl. }
  split.
  - unfold GitTools.git_status, run_cmd_default.
    apply (Containment.run_cmd_completes P w _ _ root None 30 4000 "git");
      [| simpl; tauto | reflexivity | exact Hcwd].
    unfold _extract_exe, _split_cmd. now rewrite Hposix.
  - unfold GitTools.git_diff, run_cmd_default.
    apply (Containment.run_cmd_completes P w _ _ root None 30 4000 "git");
      [| simpl; tauto | reflexivity | exact Hcwd].
    unfold _extract_exe, _split_cmd. now rewrite Hposix.
Qed.

End WithPlatform.
End CmdFacts.

(** ** The schema of a reply *)

Module SchemaFacts.
Import Schema Orchestrator.

Lemma keys_within_assoc (allowed : list string)
    (fields : list (string * json)) (k : string) :
  keys_within allowed fields = true ->
  PyStr.mem k allowed = false -> assoc k fields = None.
Proof.
  intros Hkeys Hk. induction fields as [|[k' v] fields IH]; [reflexivity|].
  simpl in *. apply andb_true_iff in Hkeys as [Hk' Hrest].
  destruct (String.eqb_spec k k') as [->|Hne]; [congruence|]. now apply IH.
Qed.

Lemma get_str_assoc (k s : string) (fields : list (string * json)) :
  get_str k fields = Some s -> assoc k fields = Some (JStr s).
Proof.
  unfold get_str. destruct (assoc k fields) as [[]|]; congruence.
Qed.

Lemma has_tool_assoc (lit : string) (fields : list (string * json)) :
  has_tool lit fields = true -> assoc "tool" fields = Some (JStr lit).
Proof.
  unfold has_tool. destruct (assoc "tool" fields) as [[]|]; try discriminate.
  intros H. apply String.eqb_eq in H. congruence.
Qed.

Ltac accepted H :=
  match type of H with
  | (if ?c then _ else _) = Some _ =>
      let Hk := fresh "Hkeys" in
      let Ht := fresh "Htool" in
      destruct c eqn:Hk; [|discriminate];
      apply andb_true_iff in Hk as [Hk Ht]; apply has_tool_assoc in Ht
  end;
  repeat match type of H with
         | (mbind _ (get_str ?k ?f)) = Some _ =>
             let Hg := fresh "Hget" in
             destruct (get_str k f) eqn:Hg; simpl in H; [|discriminate];
             apply get_str_assoc in Hg
         end;
  injection H as <-.

Ltac by_key k Hkeys :=
  simpl;
  repeat match goal with
         | |- context [String.eqb k ?lit] =>
             destruct (String.eqb_spec k lit) as [->|?]; [assumption|]
         end;
  apply (keys_within_assoc _ _ k Hkeys); simpl;
  repeat match goal with
         | H : k <> ?lit |- context [String.eqb k ?lit] =>
             rewrite (proj2 (String.eqb_neq k lit) H)
         end;
  reflexivity.

Lemma accepted_action_fields (fields : list (string * json)) (a : Action) :
  validate_action (JObj fields) = Some a ->
  forall k, assoc k fields = assoc k (fields_of (action_to_json a)).
Proof.
  unfold validate_action. intros H k.
  destruct (validate_write_file fields) as [a1|] eqn:H1.
  { injection H as <-. unfold validate_write_file in H1. accepted H1.
    by_key k Hkeys. }
  destruct (validate_read_file fields) as [a2|] eqn:H2.
  { injection H as <-. unfold validate_read_file in H2. accepted H2.
    by_key k Hkeys. }
  destruct (validate_list_dir fields) as [a3|] eqn:H3.
  { injection H as <-. unfold validate_list_dir in H3. accepted H3.
    by_key k Hkeys. }
  destruct (validate_search_in_files fields) as [a4|] eqn:H4.
  { injection H as <-. unfold validate_search_in_files in H4. accepted H4.
    by_key k Hkeys. }
  unfold validate_run_cmd in H. accepted H. by_key k Hkeys.
Qed.

Lemma dumped_action_validates (a : Action) :
  validate_action (action_to_json a) = Some a.
Proof. destruct a; reflexivity. Qed.

Section WithPlatform.
Variable P : Platform.

(** X11. Round trip of the schema: when the reply, blank space at its
    ends removed, decodes to the document of a response (its thought and
    the dumps of its actions), [parse_action_response] returns that very
    response.  Every action of the five kinds is accepted as itself. *)
Theorem dumped_response_validates (text : string) (r : ActionResponse) :
  json_loads P (PyStr.strip text) = Some (response_to_json r) ->
  parse_action_response P text = Ok r.
Proof.
  intros Hload. unfold parse_action_response. rewrite Hload.
  assert (Hall : mapM validate_action (map action_to_json (actions r))
                 = Some (actions r)).
  { apply mapM_Some. induction (actions r) as [|a l IH]; constructor.
    - apply dumped_action_validates.
    - exact IH. }
  unfold response_to_json, model_validate. simpl.
  unfold get_str. simpl. rewrite Hall. simpl. now destruct r.
Qed.

(** X12. What [parse_action_response] accepts: the reply decodes to an
    object whose [thought] is the string returned, which has no key
    besides [thought] and [actions], and whose [actions], when present,
    is an array whose elements carry exactly the fields of the actions
    returned, in order, the [tool] among them; a missing [actions]
    gives no action.  One element that fits no action model refuses
    the whole reply. *)
Theorem accepted_response_shape (text : string) (r : ActionResponse) :
  parse_action_response P text = Ok r ->
  exists fields,
    json_loads P (PyStr.strip text) = Some (JObj fields)
    /\ assoc "thought" fields = Some (JStr (thought r))
    /\ (forall k, k <> "thought" -> k <> "actions" -> assoc k fields = None)
    /\ match assoc "actions" fields with
       | None => actions r = []
       | Some (JArr items) =>
           Forall2
             (fun j a =>
                forall k,
                  assoc k (fields_of j) = assoc k (fields_of (action_to_json a)))
             items (actions r)
       | Some _ => False
       end.
Proof.
  unfold parse_action_response. intros H.
  destruct (json_loads P (PyStr.strip text)) as [data|]; [|discriminate].
  destruct (model_validate data) as [r'|] eqn:Hval; [|discriminate].
  injection H as ->. unfold model_validate in Hval.
  destruct data as [| | | | | |fields]; try discriminate.
  destruct (keys_within ["thought"; "actions"] fields) eqn:Hkeys;
    [|discriminate].
  destruct (get_str "thought" fields) as [th|] eqn:Hth; [|discriminate].
  simpl in Hval. apply get_str_assoc in Hth.
  exists fields. split; [reflexivity|].
  assert (Hother : forall k, k <> "thought" -> k <> "actions" ->
                             assoc k fields = None).
  { intros k H1 H2. apply (keys_within_assoc _ _ k Hkeys). simpl.
    rewrite (proj2 (String.eqb_neq k "thought") H1).
    now rewrite (proj2 (String.eqb_neq k "actions") H2). }
  destruct (assoc "actions" fields) as [[| | | | |items|]|];
    simpl in Hval; try discriminate.
  - destruct (mapM validate_action items) as [acts|] eqn:Hmap;
      [|discriminate].
    simpl in Hval. injection Hval as <-. simpl.
    split; [exact Hth|]. split; [exact Hother|].
    apply mapM_Some in Hmap. induction Hmap as [|j a items acts Hj _ IH];
      constructor; [|exact IH].
    destruct j as [| | | | | |f]; try discriminate.
    now apply accepted_action_fields.
  - injection Hval as <-. simpl. auto.
Qed.

End WithPlatform.
End SchemaFacts.

(** ** The memory store *)

Module StoreFacts.
Import PyPath MemoryStore PyStrFacts.

Lemma all_chars_app (f : ascii -> bool) (a b : string) :
  all_chars f (a +:+ b) = all_chars f a && all_chars f b.
Proof.
  induction a as [|c a IH]; [reflexivity|].
  rewrite append_cons. simpl. now rewrite IH, andb_assoc.
Qed.

Lemma findall_runs_tokens (s cur : string) :
  all_chars is_token_char cur = true ->
  Forall (fun t => t <> "" /\ all_chars is_token_char t = true)
         (findall_runs s cur).
Proof.
  revert cur. induction s as [|c s IH]; intros cur Hcur; simpl.
  - destruct cur; constructor; [|constructor]. split; [discriminate|exact Hcur].
  - destruct (is_token_char c) eqn:Hc.
    + apply IH. rewrite all_chars_app, Hcur. simpl. now rewrite Hc.
    + destruct cur as [|a cur]; [now apply IH|].
      constructor; [split; [discriminate|exact Hcur]|now apply IH].
Qed.

Lemma lower_char_idem (c : ascii) :
  PyStr.lower_char (PyStr.lower_char c) = PyStr.lower_char c.
Proof.
  destruct c as [[] [] [] [] [] [] [] []]; reflexivity.
Qed.

Lemma lower_idem (s : string) : PyStr.lower (PyStr.lower s) = PyStr.lower s.
Proof.
  induction s as [|c s IH]; [reflexivity|].
  simpl. now rewrite lower_char_idem, IH.
Qed.

Section WithPlatform.
Variable P : Platform.

(** X13. The tokens of a text are never empty and consist of lower-case
    letters and digits only (the filter [if token] of the source drops
    nothing), and they do not depend on the case of the letters: texts
    that agree after lowering have the same tokens, and queries that
    agree after lowering retrieve the same notes. *)
Theorem tokens_are_lowercase_words (w : World) (base : Path)
    (text other : string) (limit : Z) :
  Forall (fun t => t <> "" /\ all_chars is_token_char t = true)
         (_tokenize text)
  /\ (PyStr.lower other = PyStr.lower text ->
      _tokenize other = _tokenize text
      /\ retrieve P w base other limit = retrieve P w base text limit).
Proof.
  split.
  - now apply findall_runs_tokens.
  - intros Hsame. assert (Htok : _tokenize other = _tokenize text)
      by (unfold _tokenize; now rewrite Hsame).
    split; [exact Htok|]. unfold retrieve. now rewrite Htok.
Qed.

End WithPlatform.

(** *** Scores *)

Lemma assoc_none {A} (p : string) (sc : list (string * A)) :
  assoc p sc = None <-> ~ In p (map fst sc).
Proof.
  induction sc as [|[k v] sc IH]; simpl; [tauto|].
  destruct (String.eqb_spec p k) as [->|Hne].
  - split; [discriminate|]. intros H. destruct H. now left.
  - rewrite IH. split; [intros H [?|?]; [congruence|tauto]|tauto].
Qed.

Lemma bump_keys (q : string) (sc : list (string * Z)) :
  map fst (bump q sc)
  = if PyStr.mem q (map fst sc) then map fst sc else map fst sc ++ [q].
Proof.
  induction sc as [|[k v] sc IH]; [reflexivity|].
  simpl. rewrite (String.eqb_sym q k).
  destruct (String.eqb k q); simpl; [reflexivity|].
  rewrite IH. now destruct (PyStr.mem q (map fst sc)).
Qed.

Lemma bump_assoc (p q : string) (sc : list (string * Z)) :
  assoc p (bump q sc)
  = if String.eqb p q then Some (default 0%Z (assoc p sc) + 1)%Z
    else assoc p sc.
Proof.
  induction sc as [|[k v] sc IH]; simpl.
  - now destruct (String.eqb p q).
  - destruct (String.eqb_spec k q) as [->|Hkq]; simpl.
    + destruct (String.eqb_spec p q) as [->|Hpq]; reflexivity.
    + destruct (String.eqb_spec p k) as [->|Hpk].
      * now rewrite (proj2 (String.eqb_neq k q) Hkq).
      * exact IH.
Qed.

Lemma bump_represents (q : string) (sc : list (string * Z))
    (f : string -> nat) :
  represents sc f ->
  represents (bump q sc) (fun p => f p + (if String.eqb p q then 1 else 0)).
Proof.
  intros [Hnd Hf]. split.
  - rewrite bump_keys. destruct (PyStr.mem q (map fst sc)) eqn:Hm; [exact Hnd|].
    apply NoDup_app. split; [exact Hnd|]. split; [|apply NoDup_singleton].
    intros x Hx Hq. apply list_elem_of_singleton in Hq as ->.
    apply list_elem_of_In, mem_In in Hx. congruence.
  - intros p. rewrite bump_assoc, Hf.
    destruct (String.eqb p q).
    + destruct (f p =? 0)%nat eqn:H0.
      * apply Nat.eqb_eq in H0. rewrite H0. reflexivity.
      * apply Nat.eqb_neq in H0.
        replace (f p + 1 =? 0)%nat with false
          by (symmetry; apply Nat.eqb_neq; lia).
        simpl. f_equal. lia.
    + now rewrite Nat.add_0_r.
Qed.

Lemma represents_ext (sc : list (string * Z)) (f g : string -> nat) :
  (forall p, f p = g p) -> represents sc f -> represents sc g.
Proof.
  intros Hfg [Hnd Hf]. split; [exact Hnd|]. intros p. now rewrite <- Hfg.
Qed.

Lemma bump_all_represents (paths : list string) (sc : list (string * Z))
    (f : string -> nat) :
  represents sc f ->
  represents (foldl (fun sc q => bump q sc) sc paths)
             (fun p => f p + occurrences p paths).
Proof.
  revert sc f. induction paths as [|q paths IH]; intros sc f H.
  - simpl. eapply represents_ext; [|exact H]. intros p.
    unfold occurrences. simpl. lia.
  - simpl. eapply represents_ext; [|apply IH, bump_represents, H].
    intros p. unfold occurrences. simpl.
    destruct (String.eqb p q); simpl; lia.
Qed.

Lemma score_represents (ix : gmap string (list string))
    (tokens : list string) (sc : list (string * Z)) (f : string -> nat) :
  represents sc f ->
  represents
    (foldl (fun scores token =>
              foldl (fun scores path => bump path scores) scores
                    (default [] (ix !! token)))
           sc tokens)
    (fun p => f p + hits ix tokens p).
Proof.
  revert sc f. induction tokens as [|t tokens IH]; intros sc f H.
  - simpl. eapply represents_ext; [|exact H]. intros p. unfold hits. simpl. lia.
  - simpl. eapply represents_ext; [|apply IH, bump_all_represents, H].
    intros p. unfold hits, items_of. simpl. lia.
Qed.

(** X14. The score of a path is the number of times the index lists it
    under the tokens of the query, a token that occurs twice in the
    query counted twice; a path that is never listed has no score, and no
    path is scored twice. *)
Theorem score_counts_hits (ix : gmap string (list string))
    (tokens : list string) :
  NoDup (map fst (score_tokens ix tokens))
  /\ forall path,
       assoc path (score_tokens ix tokens)
       = if (hits ix tokens path =? 0)%nat then None
         else Some (Z.of_nat (hits ix tokens path)).
Proof.
  assert (H0 : represents [] (fun _ => 0)).
  { split; [constructor|reflexivity]. }
  apply (score_represents ix tokens) in H0. exact H0.
Qed.

(** *** Ranking *)

Lemma rank_insert_perm (x : string * Z) (l : list (string * Z)) :
  Permutation (rank_insert x l) (x :: l).
Proof.
  induction l as [|y l IH]; simpl; [reflexivity|].
  destruct (snd x <? snd y)%Z; [|reflexivity].
  rewrite IH. apply perm_swap.
Qed.

Lemma rank_perm (l : list (string * Z)) : Permutation (rank l) l.
Proof.
  induction l as [|x l IH]; [reflexivity|].
  unfold rank in *. simpl. rewrite rank_insert_perm. now rewrite IH.
Qed.

Lemma rank_insert_descending (x : string * Z) (l : list (string * Z)) :
  descending l -> descending (rank_insert x l).
Proof.
  unfold descending. induction l as [|y l IH]; intros Hl; simpl.
  - repeat constructor.
  - destruct (snd x <? snd y)%Z eqn:Hxy.
    + apply Z.ltb_lt in Hxy. inversion Hl as [|? ? Hl' Hhd]; subst.
      constructor; [now apply IH|].
      destruct l as [|z l]; simpl.
      * constructor. lia.
      * destruct (snd x <? snd z)%Z; constructor; [|lia].
        now inversion Hhd.
    + apply Z.ltb_ge in Hxy. constructor; [exact Hl|]. now constructor.
Qed.

Lemma rank_descending (l : list (string * Z)) : descending (rank l).
Proof.
  induction l as [|x l IH]; [constructor|].
  unfold rank in *. simpl. now apply rank_insert_descending.
Qed.

Lemma rank_insert_stable (v : Z) (x : string * Z) (l : list (string * Z)) :
  List.filter (scored_as v) (rank_insert x l)
  = List.filter (scored_as v) (x :: l).
Proof.
  induction l as [|y l IH]; [reflexivity|].
  simpl. destruct (snd x <? snd y)%Z eqn:Hxy; [|reflexivity].
  apply Z.ltb_lt in Hxy. simpl. rewrite IH. simpl. unfold scored_as.
  destruct (snd x =? v)%Z eqn:Hx, (snd y =? v)%Z eqn:Hy; try reflexivity.
  apply Z.eqb_eq in Hx, Hy. lia.
Qed.

Lemma rank_stable (v : Z) (l : list (string * Z)) :
  List.filter (scored_as v) (rank l) = List.filter (scored_as v) l.
Proof.
  induction l as [|x l IH]; [reflexivity|].
  unfold rank in *. simpl. rewrite rank_insert_stable. simpl. now rewrite IH.
Qed.

Section Retrieval.
Variable P : Platform.

(** X15. [retrieve] reads the candidates in the order of a stable sort by
    descending score: the list it cuts at [limit] is a permutation of
    the scored paths, descending in the score, and paths of equal score
    keep the order in which they were first scored. *)
Theorem retrieve_reads_best_first (w : World) (base : Path)
    (query : string) (limit : Z) :
  exists ranked,
    retrieve P w base query limit
    = (w, read_notes P (files w) base (slice_to limit ranked))
    /\ Permutation ranked (score_tokens (index w) (_tokenize query))
    /\ descending ranked
    /\ forall v,
         List.filter (scored_as v) ranked
         = List.filter (scored_as v)
             (score_tokens (index w) (_tokenize query)).
Proof.
  exists (rank (score_tokens (index w) (_tokenize query))).
  split; [reflexivity|]. split; [apply rank_perm|].
  split; [apply rank_descending|]. intros v. apply rank_stable.
Qed.

Lemma merged_items (rel : string) (tokens : list string)
    (ix : gmap string (list string)) (t : string) :
  items_of (foldl (add_token rel) ix tokens) t
  = items_of ix t
    ++ (if PyStr.mem t tokens && negb (PyStr.mem rel (items_of ix t))
        then [rel] else []).
Proof.
  revert ix. induction tokens as [|tok tokens IH]; intros ix.
  - simpl. now rewrite app_nil_r.
  - simpl. rewrite IH, MemoryFacts.add_token_items.
    destruct (String.eqb_spec t tok) as [->|Hne]; simpl.
    + destruct (PyStr.mem rel (items_of ix tok)) eqn:Hm; simpl.
      * rewrite Hm, andb_false_r. reflexivity.
      * replace (PyStr.mem rel (items_of ix tok ++ [rel])) with true.
        -- rewrite andb_false_r, app_nil_r. reflexivity.
        -- symmetry. apply mem_In, in_or_app. right. now left.
    + reflexivity.
Qed.

(** X16. Writing a lesson only ever appends to the index: under every
    token the old entries stay, in their order, and the relative path of
    the lesson is added at the end exactly when the token occurs in the
    note and the path is not yet listed.  Entries are never removed,
    also not those of an earlier note of the same task. *)
Theorem write_lesson_only_appends (w w' : World) (base path : Path)
    (task_id content : string) (metadata : list (string * json)) :
  write_lesson P w base task_id content metadata = (w', Ok path) ->
  exists rel,
    relative_to path base = Some rel
    /\ forall token,
         items_of (index w') token
         = items_of (index w) token
           ++ (if PyStr.mem token
                    (_tokenize (_format_note P metadata content))
                  && negb (PyStr.mem (to_string rel)
                             (items_of (index w) token))
               then [to_string rel] else []).
Proof.
  unfold write_lesson, _update_index, _load_index. intros H.
  match type of H with
  | context [relative_to ?p ?b] =>
      destruct (relative_to p b) as [rel|] eqn:Hrel; [|discriminate]
  end.
  injection H as <- <-. exists rel. split; [exact Hrel|].
  intros token. simpl. apply merged_items.
Qed.



End Retrieval.
End StoreFacts.

(** ** Actions and rounds *)

Module ActionFacts.
Import PyPath Schema Orchestrator PyStrFacts.

Lemma merge_touched_spec (new existing : list string) :
  exists added,
    _merge_touched existing new = existing ++ added
    /\ NoDup added
    /\ (forall p, In p added <-> In p new /\ ~ In p existing).
Proof.
  unfold _merge_touched. revert existing.
  induction new as [|q new IH]; intros existing.
  - exists []. simpl. rewrite app_nil_r. split; [reflexivity|].
    split; [constructor|]. intros p. simpl. tauto.
  - simpl. destruct (PyStr.mem q existing) eqn:Hm.
    + apply mem_In in Hm. destruct (IH existing) as (added & -> & Hnd & Hin).
      exists added. split; [reflexivity|]. split; [exact Hnd|].
      intros p. rewrite Hin. split; [tauto|].
      intros [[->|Hp] Hout]; tauto.
    + assert (Hq : ~ In q existing)
        by (rewrite <- mem_In; congruence).
      destruct (IH (existing ++ [q])) as (added & -> & Hnd & Hin).
      exists (q :: added). split; [now rewrite <- app_assoc|]. split.
      * apply NoDup_cons. split; [|exact Hnd].
        rewrite list_elem_of_In, Hin, in_app_iff. simpl. tauto.
      * intros p. simpl. rewrite Hin, in_app_iff. simpl.
        destruct (String.eqb_spec q p) as [->|Hne]; [tauto|].
        split; [intros [?|[? ?]]; [congruence|tauto]|].
        intros [[?|?] ?]; [congruence|]. right. tauto.
Qed.

Lemma merge_touched_nodup (existing new : list string) :
  NoDup existing -> NoDup (_merge_touched existing new).
Proof.
  destruct (merge_touched_spec new existing) as (added & Heq & Hnd & Hin).
  intros Hex. rewrite Heq. apply NoDup_app. split; [exact Hex|].
  split; [|exact Hnd]. intros p Hp Hadded.
  apply list_elem_of_In in Hp, Hadded. apply Hin in Hadded. tauto.
Qed.


Lemma validate_message_nonempty (gp : bool) (a : Action) (msg : string) :
  _validate_action_inputs gp a = Some msg -> Shlex.nonempty msg = true.
Proof.
  unfold _validate_action_inputs. intros H.
  destruct a;
    repeat match type of H with
           | (if ?c then _ else _) = _ => destruct c
           end;
    try discriminate; injection H as <-; reflexivity.
Qed.

Lemma placeholder_is_rejected (gp : bool) (a : Action) :
  existsb is_placeholder (checked_fields a) = true ->
  exists msg, _validate_action_inputs gp a = Some msg.
Proof.
  unfold _validate_action_inputs. destruct a; simpl; intros H;
    rewrite ?orb_false_r in H; rewrite H; eauto.
Qed.

Section WithPlatform.
Variable P : Platform.

(** X19. An action whose path, command, working directory or query is
    blank or the placeholder [...] is refused by the validation, and an
    action the validation refuses, for whatever reason, reaches no tool:
    its round of [_execute_actions] appends one line to the action log,
    returns the error record with the validation message and reports no
    touched file. *)
Theorem rejected_action_runs_no_tool (w : World) (gp : bool)
    (workspace actions_log : Path) (action : Action) :
  (existsb is_placeholder (checked_fields action) = true ->
   exists msg, _validate_action_inputs gp action = Some msg)
  /\ forall msg,
       _validate_action_inputs gp action = Some msg ->
       execute_action P w gp workspace actions_log action
       = (log P w actions_log
            (JObj [("tool", JStr (tool action));
                   ("input", action_to_json action);
                   ("result", JObj [("error", JStr msg)])]),
          RError msg, []).
Proof.
  split; [apply placeholder_is_rejected|].
  intros msg Hval. pose proof (validate_message_nonempty _ _ _ Hval) as Hne.
  unfold execute_action, dispatch. rewrite Hval. simpl. rewrite Hne.
  simpl. now destruct action.
Qed.

Lemma execute_list_app (l1 l2 : list Action) (w : World) (gp : bool)
    (workspace actions_log : Path) :
  execute_list P w gp workspace actions_log (l1 ++ l2)
  = let '(w1, (r1, t1)) := execute_list P w gp workspace actions_log l1 in
    let '(w2, (r2, t2)) := execute_list P w1 gp workspace actions_log l2 in
    (w2, (r1 ++ r2, t1 ++ t2)).
Proof.
  revert w. induction l1 as [|a l1 IH]; intros w; simpl.
  - now destruct (execute_list P w gp workspace actions_log l2)
      as [w2 [r2 t2]].
  - destruct (execute_action P w gp workspace actions_log a)
      as [[w1 r] t].
    rewrite IH.
    destruct (execute_list P w1 gp workspace actions_log l1)
      as [w2 [r1 t1]].
    destruct (execute_list P w2 gp workspace actions_log l2)
      as [w3 [r2 t2]].
    now rewrite <- app_assoc.
Qed.

Lemma execute_action_touched (w : World) (gp : bool)
    (workspace actions_log : Path) (a : Action) (p : string) :
  In p (snd (execute_action P w gp workspace actions_log a)) ->
  written_path a = Some p.
Proof.
  unfold execute_action.
  destruct (dispatch P w gp a workspace) as [[w1 r] wrote].
  destruct a; simpl; try tauto.
  destruct wrote; simpl; [|tauto]. intros [->|[]]. reflexivity.
Qed.

(** X20. [_execute_actions] returns one result per action, in order,
    also after an action that failed; only paths of [write_file]
    actions are reported as touched; and running a list of actions is
    running its first part and then, in the world that leaves, the
    rest. *)
Theorem execute_actions_runs_every_action (todo rest : list Action)
    (w : World) (gp : bool) (workspace actions_log : Path) :
  let '(w1, (results, touched)) :=
    execute_list P w gp workspace actions_log todo in
  length results = length todo
  /\ (forall p, In p touched -> In (Some p) (map written_path todo))
  /\ execute_list P w gp workspace actions_log (todo ++ rest)
     = let '(w2, (r2, t2)) :=
         execute_list P w1 gp workspace actions_log rest in
       (w2, (results ++ r2, touched ++ t2)).
Proof.
  pose proof (execute_list_app todo rest w gp workspace actions_log) as Happ.
  destruct (execute_list P w gp workspace actions_log todo)
    as [w1 [results touched]] eqn:Hrun.
  split; [|split; [|exact Happ]].
  - clear Happ. revert w w1 results touched Hrun.
    induction todo as [|a todo IH]; intros w w1 results touched Hrun;
      simpl in Hrun.
    + now injection Hrun as <- <- <-.
    + destruct (execute_action P w gp workspace actions_log a)
        as [[w0 r] t].
      destruct (execute_list P w0 gp workspace actions_log todo)
        as [w2 [rs ts]] eqn:Hrest.
      injection Hrun as <- <- <-. simpl. f_equal. eauto.
  - clear Happ. revert w w1 results touched Hrun.
    induction todo as [|a todo IH]; intros w w1 results touched Hrun p Hp;
      simpl in Hrun.
    + injection Hrun as <- <- <-. destruct Hp.
    + pose proof (execute_action_touched w gp workspace actions_log a p)
        as Ha.
      destruct (execute_action P w gp workspace actions_log a)
        as [[w0 r] t].
      destruct (execute_list P w0 gp workspace actions_log todo)
        as [w2 [rs ts]] eqn:Hrest.
      injection Hrun as <- <- <-. apply in_app_iff in Hp as [Hp|Hp].
      * left. now apply Ha.
      * right. eapply IH; eauto.
Qed.

End WithPlatform.
End ActionFacts.

Module Rounds.
Import PyPath Schema Orchestrator EngineSpec PyStrFacts.

Section WithPlatform.
Variable P : Platform.

(** *** The completion requests of a round *)

Lemma run_cmd_turns (w : World) cmd cwd root allowlist timeout max_output :
  turns (fst (CmdTools.run_cmd P w cmd cwd root allowlist timeout max_output))
  = turns w.
Proof.
  unfold CmdTools.run_cmd.
  destruct (CmdTools._extract_exe P cmd); [|reflexivity].
  destruct (CmdTools.has_blocked_token _); [reflexivity|].
  destruct (negb _); [reflexivity|].
  destruct (CmdTools._ensure_within_root P root cwd); [|reflexivity].
  simpl. destruct (subprocess_run P _ _ _ _) as [fs' [c|e]]; reflexivity.
Qed.

Lemma dispatch_turns (w : World) gp action workspace :
  turns (fst (fst (dispatch P w gp action workspace))) = turns w.
Proof.
  unfold dispatch. destruct (truthy _); [reflexivity|].
  destruct action as [path text|path|path|path query|cmd cwd];
    try reflexivity.
  - unfold FsTools.write_file.
    destruct (FsTools.safe_path P workspace path); reflexivity.
  - unfold CmdTools.run_cmd_default.
    pose proof (run_cmd_turns w cmd cwd workspace None 30 4000) as H.
    destruct (CmdTools.run_cmd P w cmd cwd workspace None 30 4000).
    exact H.
Qed.

Lemma execute_list_turns (todo : list Action) (w : World) gp workspace alog :
  turns (fst (execute_list P w gp workspace alog todo)) = turns w.
Proof.
  revert w. induction todo as [|a todo IH]; intros w; [reflexivity|].
  simpl. unfold execute_action.
  pose proof (dispatch_turns w gp a workspace) as Hd.
  destruct (dispatch P w gp a workspace) as [[w1 r] wrote]. simpl in Hd.
  match goal with
  | |- context [execute_list P ?w0 gp workspace alog todo] =>
      pose proof (IH w0) as H2;
      destruct (execute_list P w0 gp workspace alog todo) as [w2 [rs ts]]
  end.
  simpl in *. congruence.
Qed.

Lemma model_turn_turns (w : World) messages prompt llog fb :
  turns (fst (_model_turn P w messages prompt llog fb)) = S (turns w).
Proof.
  unfold _model_turn. simpl.
  destruct (ollama_chat P _ _) as [text|e]; [|reflexivity].
  destruct (parse_action_response P text); reflexivity.
Qed.

Lemma turn_and_execute_turns (r : Run) (w : World) state prompt fb :
  turns (fst (turn_and_execute P r w state prompt fb)) = S (turns w).
Proof.
  unfold turn_and_execute.
  pose proof (model_turn_turns w (run_messages r) prompt (llm_log r) fb) as H.
  destruct (_model_turn P w (run_messages r) prompt (llm_log r) fb)
    as [w1 [[resp pe]|e]]; [|exact H].
  unfold _execute_actions.
  pose proof (execute_list_turns (actions resp) w1 (goal_prints r)
                (run_workspace r) (actions_log r)) as H2.
  destruct (execute_list P w1 _ _ _ _) as [w2 [rs ts]].
  simpl in *. congruence.
Qed.

Lemma write_memory_turns (w : World) repo task workspace state :
  turns (fst (_write_memory P w repo task workspace state)) = turns w.
Proof.
  unfold _write_memory, MemoryStore.write_lesson, MemoryStore._update_index.
  destruct (relative_to _ _); reflexivity.
Qed.

Lemma turn_and_execute_touched (r : Run) (w w' : World) state state' prompt
    fb results :
  turn_and_execute P r w state prompt fb = (w', Ok (results, state')) ->
  exists touched,
    files_touched state' = _merge_touched (files_touched state) touched.
Proof.
  unfold turn_and_execute.
  destruct (_model_turn P w _ _ _ _) as [w1 [[resp pe]|e]]; [|discriminate].
  destruct (_execute_actions P w1 _ _ _ _) as [w2 [rs ts]].
  intros [= <- <- <-]. eauto.
Qed.

(** *** A round that continues *)

Lemma continue_view (r : Run) (w w' : World) (s s' : RunState)
    (fb fb' : string) :
  loop_body P r w s fb = Continue w' s' fb' ->
  (iteration s < iteration_limit r)%Z
  /\ exists w0,
       w' = _write_state P w0 (state_path r) s'
       /\ ((phase s = "INGEST" /\ s' = set_phase s "PLAN"
            /\ turns w0 = turns w)
           \/ (exists s0 results ph tag,
                 asks_model (phase s) = true
                 /\ turn_and_execute P r (emit (EvPhase (phase s)) w) s
                      (prompt_of (phase s)) fb
                    = (w0, Ok (results, s0))
                 /\ s' = next_iteration (set_outcome s0 ph tag)
                 /\ In (phase s, ph, tag) TRANSITIONS)
           \/ (exists ph tag,
                 phase s = "VERIFY"
                 /\ s' = next_iteration (set_outcome s ph tag)
                 /\ In ("VERIFY", ph, tag) TRANSITIONS
                 /\ turns w0 = turns w)).
Proof.
  unfold loop_body.
  destruct (Z.leb_spec (iteration_limit r) (iteration s)) as [Hge|Hlt].
  { destruct (_write_memory P _ _ _ _ _) as [w1 [p|e]]; discriminate. }
  intros H. split; [exact Hlt|].
  destruct (String.eqb_spec (phase s) "INGEST") as [Hph|Hn1].
  { injection H as <- <- <-. eexists. split; [reflexivity|]. left. auto. }
  destruct (String.eqb_spec (phase s) "PLAN") as [Hph|Hn2].
  { unfold plan_body in H.
    destruct (turn_and_execute P r _ s PLAN_PROMPT fb)
      as [w1 [[results s1]|e]] eqn:Hte; [|discriminate].
    exists w1. rewrite Hph.
    destruct (_has_errors results);
      [|destruct (negb (FsTools.path_exists P (files w1) (plan_path r)))];
      injection H as <- <- <-; (split; [reflexivity|]); right; left;
      eexists s1, results, _, _; (split; [reflexivity|]);
      (split; [exact Hte|]); (split; [reflexivity|]); simpl; tauto. }
  destruct (String.eqb_spec (phase s) "IMPLEMENT") as [Hph|Hn3].
  { unfold implement_body in H.
    destruct (turn_and_execute P r _ s IMPLEMENT_PROMPT fb)
      as [w1 [[results s1]|e]] eqn:Hte; [|discriminate].
    exists w1. rewrite Hph.
    destruct (_has_errors results);
      injection H as <- <- <-; (split; [reflexivity|]); right; left;
      eexists s1, results, _, _; (split; [reflexivity|]);
      (split; [exact Hte|]); (split; [reflexivity|]); simpl; tauto. }
  destruct (String.eqb_spec (phase s) "VERIFY") as [Hph|Hn4].
  { unfold verify_body in H.
    destruct (test_cmd_of (run_task_ r)) as [test_cmd|].
    - unfold CmdTools.run_cmd_default in H.
      pose proof (run_cmd_turns (emit (EvPhase "VERIFY") w) test_cmd "."
                    (run_workspace r) None 30 4000) as Ht.
      destruct (CmdTools.run_cmd P _ test_cmd "." (run_workspace r) None 30
                  4000) as [w1 res].
      simpl in Ht.
      destruct (CmdTools.returncode _ =? 0)%Z;
        injection H as <- <- <-; eexists; (split; [reflexivity|]);
        right; right; eexists _, _; (split; [exact Hph|]);
        (split; [reflexivity|]); (split; [simpl; tauto|]); exact Ht.
    - injection H as <- <- <-. eexists. split; [reflexivity|].
      right. right. eexists _, _. split; [exact Hph|].
      split; [reflexivity|]. split; [simpl; tauto|]. reflexivity. }
  destruct (String.eqb_spec (phase s) "REPAIR") as [Hph|Hn5].
  { unfold repair_body in H.
    destruct (turn_and_execute P r _ s REPAIR_PROMPT fb)
      as [w1 [[results s1]|e]] eqn:Hte; [|discriminate].
    exists w1. rewrite Hph.
    destruct (_has_errors results);
      injection H as <- <- <-; (split; [reflexivity|]); right; left;
      eexists s1, results, _, _; (split; [reflexivity|]);
      (split; [exact Hte|]); (split; [reflexivity|]); simpl; tauto. }
  destruct (String.eqb (phase s) "DONE").
  - destruct (_write_memory P _ _ _ _ _) as [w1 [p|e]]; discriminate.
  - discriminate.
Qed.


(** X21. The phase machine.  A round of the loop that continues either
    passes from INGEST to PLAN and changes nothing else of the state, or
    makes one of the ten moves of [TRANSITIONS] and records the result
    tag of that move: REPAIR is entered with a failure tag only, and
    DONE from VERIFY only. *)
Theorem round_follows_the_table (r : Run) (w w' : World) (s s' : RunState)
    (fb fb' : string) :
  loop_body P r w s fb = Continue w' s' fb' ->
  (phase s = "INGEST" /\ s' = set_phase s "PLAN")
  \/ exists tag,
       last_result s' = Some tag
       /\ In (phase s, phase s', tag) TRANSITIONS.
Proof.
  intros H. apply continue_view in H as [_ [w0 [_ H]]].
  destruct H as [[Hph [Hs _]]
                |[(s0 & results & ph & tag & _ & _ & -> & Hin)
                 |(ph & tag & Hph & -> & Hin & _)]].
  - left. auto.
  - right. exists tag. split; [reflexivity|exact Hin].
  - right. exists tag. split; [reflexivity|]. rewrite Hph. exact Hin.
Qed.

(** X22. After every round that continues, the state file holds the dump
    of the state the next round starts from. *)
Theorem continuing_round_persists_state (r : Run) (w w' : World)
    (s s' : RunState) (fb fb' : string) :
  loop_body P r w s fb = Continue w' s' fb' ->
  files w' !! FsTools.os_key P (state_path r)
  = Some (json_dumps_indent P (state_to_json s')).
Proof.
  intros H. apply continue_view in H as [_ [w0 [-> _]]].
  unfold _write_state, FsTools.write_text. simpl. apply lookup_insert_eq.
Qed.

Lemma round_turns (r : Run) (w : World) (s : RunState) (fb : string) :
  turns (world_of (loop_body P r w s fb))
  = turns w
    + (if (iteration_limit r <=? iteration s)%Z then 0
       else if asks_model (phase s) then 1 else 0).
Proof.
  unfold loop_body.
  destruct (iteration_limit r <=? iteration s)%Z.
  { match goal with
    | |- context [_write_memory P ?w0 ?a ?b ?c ?d] =>
        pose proof (write_memory_turns w0 a b c d) as H;
        destruct (_write_memory P w0 a b c d) as [w1 [p|e]]
    end; simpl in *; lia. }
  destruct (String.eqb_spec (phase s) "INGEST") as [Hph|Hn1].
  { rewrite Hph. simpl. lia. }
  destruct (String.eqb_spec (phase s) "PLAN") as [Hph|Hn2].
  { rewrite Hph. unfold plan_body.
    pose proof (turn_and_execute_turns r (emit (EvPhase "PLAN") w) s
                  PLAN_PROMPT fb) as H.
    destruct (turn_and_execute P r _ s PLAN_PROMPT fb)
      as [w1 [[results s1]|e]]; simpl in *; [|lia].
    destruct (_has_errors results); [|destruct (negb _)]; simpl; lia. }
  destruct (String.eqb_spec (phase s) "IMPLEMENT") as [Hph|Hn3].
  { rewrite Hph. unfold implement_body.
    pose proof (turn_and_execute_turns r (emit (EvPhase "IMPLEMENT") w) s
                  IMPLEMENT_PROMPT fb) as H.
    destruct (turn_and_execute P r _ s IMPLEMENT_PROMPT fb)
      as [w1 [[results s1]|e]]; simpl in *; [|lia].
    destruct (_has_errors results); simpl; lia. }
  destruct (String.eqb_spec (phase s) "VERIFY") as [Hph|Hn4].
  { rewrite Hph. unfold verify_body.
    destruct (test_cmd_of (run_task_ r)) as [test_cmd|]; [|simpl; lia].
    unfold CmdTools.run_cmd_default.
    pose proof (run_cmd_turns (emit (EvPhase "VERIFY") w) test_cmd "."
                  (run_workspace r) None 30 4000) as Ht.
    destruct (CmdTools.run_cmd P _ test_cmd "." (run_workspace r) None 30
                4000) as [w1 res].
    simpl in Ht. destruct (CmdTools.returncode _ =? 0)%Z; simpl; lia. }
  destruct (String.eqb_spec (phase s) "REPAIR") as [Hph|Hn5].
  { rewrite Hph. unfold repair_body.
    pose proof (turn_and_execute_turns r (emit (EvPhase "REPAIR") w) s
                  REPAIR_PROMPT fb) as H.
    destruct (turn_and_execute P r _ s REPAIR_PROMPT fb)
      as [w1 [[results s1]|e]]; simpl in *; [|lia].
    destruct (_has_errors results); simpl; lia. }
  assert (Hno : asks_model (phase s) = false).
  { unfold asks_model, PyStr.mem. simpl.
    apply String.eqb_neq in Hn2, Hn3, Hn5. now rewrite Hn2, Hn3, Hn5. }
  rewrite Hno.
  destruct (String.eqb (phase s) "DONE").
  - match goal with
    | |- context [_write_memory P ?w0 ?a ?b ?c ?d] =>
        pose proof (write_memory_turns w0 a b c d) as H;
        destruct (_write_memory P w0 a b c d) as [w1 [p|e]]
    end; simpl in *; lia.
  - simpl. lia.
Qed.

(** X23. A round sends one completion request when it runs the body of
    PLAN, IMPLEMENT or REPAIR and none otherwise (VERIFY never asks the
    model), and a whole run sends at most as many requests as
    iterations were left when it started. *)
Theorem requests_bounded_by_limit (r : Run) (w : World) (s : RunState)
    (fb : string) :
  turns (world_of (loop_body P r w s fb))
  = turns w
    + (if (iteration_limit r <=? iteration s)%Z then 0
       else if asks_model (phase s) then 1 else 0)
  /\ forall (fuel : nat) (o : outcome),
       loop P fuel r w s fb = Some o ->
       (Z.of_nat (turns (final_world o)) - Z.of_nat (turns w)
        <= Z.max 0 (iteration_limit r - iteration s))%Z.
Proof.
  split; [apply round_turns|].
  intros fuel. revert w s fb.
  induction fuel as [|fuel IH]; intros w s fb o; [discriminate|].
  simpl. pose proof (round_turns r w s fb) as Ht.
  pose proof (Engine.round_counts P r w s fb) as Hc.
  destruct (loop_body P r w s fb) as [w' s' fb'|w' s'|w' s' e];
    simpl in Ht.
  - intros Hl. specialize (IH _ _ _ _ Hl).
    destruct Hc as [Hlt [_ Hc]].
    destruct (Z.leb_spec (iteration_limit r) (iteration s)); [lia|].
    destruct Hc as [[Hph [Hit _]]|[_ [Hit _]]].
    + rewrite Hph in Ht. simpl in Ht. lia.
    + destruct (asks_model (phase s)); lia.
  - intros [= <-]. simpl.
    destruct (Z.leb_spec (iteration_limit r) (iteration s)); [lia|].
    destruct (asks_model (phase s)); lia.
  - intros [= <-]. simpl.
    destruct (Z.leb_spec (iteration_limit r) (iteration s)); [lia|].
    destruct (asks_model (phase s)); lia.
Qed.

Lemma round_touched (r : Run) (w : World) (s : RunState) (fb : string) :
  exists added,
    files_touched (state_of (loop_body P r w s fb))
    = files_touched s ++ added
    /\ (NoDup (files_touched s) ->
        NoDup (files_touched (state_of (loop_body P r w s fb)))).
Proof.
  pose proof (Engine.loop_body_spec P r w s fb) as Hspec.
  destruct (loop_body P r w s fb) as [w' s' fb'|w' s'|w' s' e] eqn:Hround;
    simpl in *.
  - apply continue_view in Hround as [_ [w0 [_ H]]].
    destruct H as [[_ [-> _]]
                  |[(s0 & results & ph & tag & _ & Hte & -> & _)
                   |(ph & tag & _ & -> & _)]]; simpl.
    + exists []. now rewrite app_nil_r.
    + apply turn_and_execute_touched in Hte as [touched ->].
      destruct (ActionFacts.merge_touched_spec touched (files_touched s))
        as (added & Heq & _ & _).
      exists added. split; [exact Heq|].
      apply ActionFacts.merge_touched_nodup.
    + exists []. now rewrite app_nil_r.
  - exists []. rewrite app_nil_r.
    destruct Hspec as [[_ [-> _]]|[[_ [_ [-> _]]]|[_ [_ [-> _]]]]]; auto.
  - exists []. rewrite app_nil_r.
    destruct Hspec as [_ [[_ [_ [-> _]]]|[[_ [-> _]]|[_ [_ [-> _]]]]]]; auto.
Qed.

(** X24. Over a run the list [files_touched] only grows at its end: the
    list the run started with is a prefix of the final one, and a list
    without duplicates stays without duplicates. *)
Theorem files_touched_only_grows (fuel : nat) (r : Run) (w : World)
    (s : RunState) (fb : string) (o : outcome) :
  loop P fuel r w s fb = Some o ->
  exists added,
    files_touched (final_state o) = files_touched s ++ added
    /\ (NoDup (files_touched s) -> NoDup (files_touched (final_state o))).
Proof.
  revert w s fb. induction fuel as [|fuel IH]; intros w s fb; [discriminate|].
  simpl. destruct (round_touched r w s fb) as (added & Heq & Hnd).
  destruct (loop_body P r w s fb) as [w' s' fb'|w' s'|w' s' e];
    simpl in Heq, Hnd.
  - intros Hl. destruct (IH _ _ _ Hl) as (more & Heq' & Hnd').
    exists (added ++ more). split.
    + rewrite Heq', Heq. now rewrite <- app_assoc.
    + intros H. apply Hnd', Hnd, H.
  - intros [= <-]. exists added. auto.
  - intros [= <-]. exists added. auto.
Qed.

End WithPlatform.
End Rounds.

(** ** The entry points *)

Module EntryFacts.
Import PyPath Schema Orchestrator.

Lemma strings_of_dumped (l : list string) :
  strings_of (Some (JArr (map JStr l))) = l.
Proof.
  unfold strings_of. induction l as [|x l IH]; [reflexivity|].
  simpl. f_equal. exact IH.
Qed.

Lemma state_round_trip (s : RunState) : state_of_json (state_to_json s) = Ok s.
Proof.
  destruct s as [ph it lr oi ft]. unfold state_of_json, state_to_json.
  cbn [assoc String.eqb Ascii.eqb Bool.eqb phase iteration last_result
       open_items files_touched].
  rewrite !strings_of_dumped. now destruct lr.
Qed.

Section WithPlatform.
Variable P : Platform.

Lemma read_text_exists (fs : FS) (p : Path) (text : string) :
  FsTools.read_text P fs p = Ok text ->
  fs !! FsTools.os_key P p = Some text
  /\ FsTools.path_exists P fs p = true.
Proof.
  unfold FsTools.read_text, FsTools.path_exists, FsTools.is_file.
  destruct (fs !! FsTools.os_key P p) as [c|] eqn:Hl; [|discriminate].
  intros [= ->]. split; [reflexivity|].
  rewrite bool_decide_eq_true_2 by eauto. reflexivity.
Qed.

(** X25. [resume_task] continues where [_write_state] left off: when the
    workspace holds a task file that loads and a state file with the
    dump of a state that the JSON codec reads back, the loop is entered
    with exactly that state (phase, counter, result tag, open items and
    touched files), in that workspace. *)
Theorem resume_continues_from_persisted_state (fuel : nat) (w : World)
    (repo : Path) (id : string) (task : Task) (s : RunState) :
  let workspace := joinpath (workspaces_root P repo) (parse id) in
  _load_task P w (child workspace "task.json") = Ok task ->
  files w !! FsTools.os_key P (child workspace "state.json")
    = Some (json_dumps_indent P (state_to_json s)) ->
  json_loads P (json_dumps_indent P (state_to_json s))
    = Some (state_to_json s) ->
  resume_task P fuel w repo id
  = Ran <$> _run_loop P fuel w repo task workspace s None.
Proof.
  intros workspace Htask Hstate Hcodec. unfold resume_task.
  fold workspace. 
  assert (Hex : FsTools.path_exists P (files w) (child workspace "task.json")
                = true).
  { unfold _load_task in Htask.
    destruct (FsTools.read_text P (files w) (child workspace "task.json"))
      as [text|e] eqn:Hr; [|discriminate].
    now apply read_text_exists in Hr. }
  rewrite Hex. simpl. rewrite Htask.
  assert (Hst : FsTools.path_exists P (files w)
                  (child workspace "state.json") = true).
  { unfold FsTools.path_exists, FsTools.is_file.
    rewrite bool_decide_eq_true_2 by eauto. reflexivity. }
  rewrite Hst. unfold FsTools.read_text. rewrite Hstate. simpl.
  rewrite Hcodec. now rewrite state_round_trip.
Qed.

Lemma not_dir_nothing_below (fs : FS) (p : Path) (key : list string) :
  FsTools.is_dir P fs p = false ->
  FsTools.strict_prefixb (FsTools.os_key P p) key = true ->
  fs !! key = None.
Proof.
  unfold FsTools.is_dir. intros Hdir Hpre.
  destruct (fs !! key) as [x|] eqn:Hl; [|reflexivity].
  assert (Hex : existsb
                  (fun kv => FsTools.strict_prefixb (FsTools.os_key P p)
                               (fst kv))
                  (map_to_list fs) = true).
  { apply existsb_exists. exists (key, x). split; [|exact Hpre].
    apply list_elem_of_In. now apply elem_of_map_to_list. }
  congruence.
Qed.

Lemma rmtree_lookup (fs fs' : FS) (p : Path) (key : list string) :
  rmtree P fs p = Ok fs' ->
  fs' !! key
  = if FsTools.strict_prefixb (FsTools.os_key P p) key then None
    else fs !! key.
Proof.
  unfold rmtree. destruct (FsTools.is_dir P fs p); [|discriminate].
  intros [= <-].
  destruct (FsTools.strict_prefixb (FsTools.os_key P p) key) eqn:Hpre.
  - apply map_lookup_filter_None. right. intros x _. simpl. congruence.
  - destruct (fs !! key) as [x|] eqn:Hl.
    + apply map_lookup_filter_Some. auto.
    + apply map_lookup_filter_None. auto.
Qed.

(** the files left once an existing directory, if there is one, has been
    removed *)
Lemma cleared_lookup (fs fs' : FS) (p : Path) (key : list string) :
  remove_existing P fs p = Ok fs' ->
  fs' !! key
  = if FsTools.strict_prefixb (FsTools.os_key P p) key then None
    else fs !! key.
Proof.
  unfold remove_existing.
  destruct (FsTools.path_exists P fs p) eqn:Hex; [apply rmtree_lookup|].
  intros [= <-].
  destruct (FsTools.strict_prefixb _ key) eqn:Hpre; [|reflexivity].
  apply (not_dir_nothing_below fs p); [|exact Hpre].
  unfold FsTools.path_exists in Hex. now apply orb_false_iff in Hex.
Qed.

(** X26. [_init_workspace] starts from an empty directory: when it
    returns, the workspace is [workspaces_root / task_id], it holds an
    empty [notes.md] and a copy of the task file, every other file that
    lay below the workspace is gone, and every file that does not lie
    below it is as it was. *)
Theorem init_workspace_starts_clean (w w' : World) (repo : Path)
    (task : Task) (task_path workspace : Path) :
  _init_workspace P w repo task task_path = (w', Ok workspace) ->
  workspace = joinpath (workspaces_root P repo) (parse (task_id task))
  /\ exists text,
       files w !! FsTools.os_key P task_path = Some text
       /\ files w' !! FsTools.os_key P (child workspace "notes.md") = Some ""
       /\ (FsTools.os_key P (child workspace "task.json")
             <> FsTools.os_key P (child workspace "notes.md") ->
           files w' !! FsTools.os_key P (child workspace "task.json")
           = Some text)
       /\ forall key,
            key <> FsTools.os_key P (child workspace "task.json") ->
            key <> FsTools.os_key P (child workspace "notes.md") ->
            files w' !! key
            = if FsTools.strict_prefixb (FsTools.os_key P workspace) key
              then None else files w !! key.
Proof.
  unfold _init_workspace. intros H.
  set (ws := joinpath (workspaces_root P repo) (parse (task_id task))) in *.
  destruct (remove_existing P (files w) ws) as [fs|e] eqn:Hclear;
    [|discriminate].
  destruct (FsTools.read_text P fs task_path) as [text|e] eqn:Hr;
    [|discriminate].
  injection H as <- <-. split; [reflexivity|]. exists text.
  apply read_text_exists in Hr as [Hl _].
  pose proof (fun key => cleared_lookup (files w) fs ws key Hclear) as Hfs.
  split; [|split; [|split]].
  - rewrite Hfs in Hl.
    destruct (FsTools.strict_prefixb _ _); [discriminate|exact Hl].
  - simpl. unfold FsTools.write_text. apply lookup_insert_eq.
  - intros Hne. simpl. unfold FsTools.write_text.
    rewrite lookup_insert_ne by congruence. apply lookup_insert_eq.
  - intros key H1 H2. simpl. unfold FsTools.write_text.
    rewrite !lookup_insert_ne by congruence. apply Hfs.
Qed.

(** X27. A task file must not lie inside the workspace of its own task:
    [run_task] loads it, removes the workspace, the task file with it,
    and then fails with [OSError] when it wants to copy the file.  What
    lay below the workspace is gone. *)
Theorem task_file_inside_its_workspace (fuel : nat) (w : World)
    (repo task_path : Path) (task : Task) :
  let workspace := joinpath (workspaces_root P repo) (parse (task_id task)) in
  _load_task P w task_path = Ok task ->
  FsTools.strict_prefixb (FsTools.os_key P workspace)
    (FsTools.os_key P task_path) = true ->
  exists w' msg,
    run_task P fuel w repo task_path = Some (Failed w' (OSError msg))
    /\ forall key,
         files w' !! key
         = if FsTools.strict_prefixb (FsTools.os_key P workspace) key
           then None else files w !! key.
Proof.
  intros workspace Htask Hin. unfold run_task. rewrite Htask.
  unfold _init_workspace. fold workspace.
  assert (Hfile : is_Some (files w !! FsTools.os_key P task_path)).
  { unfold _load_task in Htask.
    destruct (FsTools.read_text P (files w) task_path) as [text|e] eqn:Hr;
      [|discriminate].
    apply read_text_exists in Hr as [Hl _]. eauto. }
  assert (Hdir : FsTools.is_dir P (files w) workspace = true).
  { destruct Hfile as [text Hl]. unfold FsTools.is_dir.
    apply existsb_exists. exists (FsTools.os_key P task_path, text).
    split; [|exact Hin]. apply list_elem_of_In.
    now apply elem_of_map_to_list. }
  destruct (remove_existing P (files w) workspace) as [fs|e] eqn:Hclear.
  - pose proof (fun key => cleared_lookup (files w) fs workspace key Hclear)
      as Hfs.
    unfold FsTools.read_text. rewrite Hfs, Hin.
    eexists _, _. split; [reflexivity|]. exact Hfs.
  - unfold remove_existing, FsTools.path_exists, rmtree in Hclear.
    rewrite Hdir, orb_true_r in Hclear. discriminate.
Qed.

End WithPlatform.
End EntryFacts.

(** ** The file watcher *)

Module WatchFacts.
Import Watch PyStrFacts.

Lemma assign_app (snapshot : Snapshot) (a b : list (string * Z)) :
  assign snapshot (a ++ b) = assign (assign snapshot a) b.
Proof. apply foldl_app. Qed.

Lemma files_assign (ignore : list string) (rel : list string)
    (entries : list (string * node)) (snapshot : Snapshot) :
  exists items,
    foldl (fun acc entry =>
             match entry with
             | (name, File (Some mtime)) =>
                 set_item (rel_str rel name) mtime acc
             | _ => acc
             end) snapshot entries
    = assign snapshot items
    /\ Forall (fun kv => kept_path ignore rel (fst kv)) items.
Proof.
  revert snapshot. induction entries as [|[name child] entries IH];
    intros snapshot.
  - exists []. split; [reflexivity|constructor].
  - simpl. destruct child as [[mtime|]|es].
    + destruct (IH (set_item (rel_str rel name) mtime snapshot))
        as (items & -> & Hall).
      exists ((rel_str rel name, mtime) :: items). split; [reflexivity|].
      constructor; [|exact Hall]. exists [], name. simpl.
      now rewrite app_nil_r.
    + apply IH.
    + apply IH.
Qed.

Lemma kept_path_below (ignore : list string) (rel : list string)
    (name path : string) :
  keep_dir ignore name = true ->
  kept_path ignore (rel ++ [name]) path -> kept_path ignore rel path.
Proof.
  intros Hkeep (dirs & leaf & -> & Hdirs). exists (name :: dirs), leaf.
  split; [now rewrite <- app_assoc|]. simpl. now rewrite Hkeep.
Qed.

Lemma walk_assigns (ignore : list string) (n : node) :
  forall (rel : list string) (snapshot : Snapshot),
  exists items,
    walk ignore rel n snapshot = assign snapshot items
    /\ Forall (fun kv => kept_path ignore rel (fst kv)) items.
Proof.
  induction n as [mtime|entries IH] using node_induction;
    intros rel snapshot.
  - exists []. split; [reflexivity|constructor].
  - simpl.
    destruct (files_assign ignore rel entries snapshot)
      as (items0 & -> & Hall0).
    enough (Hdirs : forall acc,
              exists items,
                foldl (fun acc entry =>
                         match entry with
                         | (name, child) =>
                             match child with
                             | Dir _ =>
                                 if keep_dir ignore name
                                 then walk ignore (rel ++ [name]) child acc
                                 else acc
                             | File _ => acc
                             end
                         end) acc entries
                = assign acc items
                /\ Forall (fun kv => kept_path ignore rel (fst kv)) items).
    { destruct (Hdirs (assign snapshot items0)) as (items1 & -> & Hall1).
      exists (items0 ++ items1). split; [now rewrite assign_app|].
      apply Forall_app. auto. }
    clear items0 Hall0 snapshot.
    induction IH as [|[name child] entries Hchild _ IHentries]; intros acc.
    + exists []. split; [reflexivity|constructor].
    + simpl. simpl in Hchild. destruct child as [mtime|es]; [apply IHentries|].
      destruct (keep_dir ignore name) eqn:Hkeep; [|apply IHentries].
      destruct (Hchild (rel ++ [name]) acc) as (items1 & -> & Hall1).
      destruct (IHentries (assign acc items1)) as (items2 & -> & Hall2).
      exists (items1 ++ items2). split; [now rewrite assign_app|].
      apply Forall_app. split; [|exact Hall2].
      eapply Forall_impl; [exact Hall1|].
      intros kv. now apply kept_path_below.
Qed.

Lemma set_item_keys (rel : string) (mtime : Z) (snapshot : Snapshot) :
  map fst (set_item rel mtime snapshot)
  = if PyStr.mem rel (map fst snapshot) then map fst snapshot
    else map fst snapshot ++ [rel].
Proof.
  induction snapshot as [|[k v] snapshot IH]; [reflexivity|].
  simpl. rewrite (String.eqb_sym rel k).
  destruct (String.eqb k rel); simpl; [reflexivity|].
  rewrite IH. now destruct (PyStr.mem rel (map fst snapshot)).
Qed.

Lemma set_item_nodup (rel : string) (mtime : Z) (snapshot : Snapshot) :
  NoDup (map fst snapshot) -> NoDup (map fst (set_item rel mtime snapshot)).
Proof.
  intros Hnd. rewrite set_item_keys.
  destruct (PyStr.mem rel (map fst snapshot)) eqn:Hm; [exact Hnd|].
  apply NoDup_app. split; [exact Hnd|]. split; [|apply NoDup_singleton].
  intros x Hx Hq. apply list_elem_of_singleton in Hq as ->.
  apply list_elem_of_In, mem_In in Hx. congruence.
Qed.

Lemma assign_nodup (items : list (string * Z)) (snapshot : Snapshot) :
  NoDup (map fst snapshot) -> NoDup (map fst (assign snapshot items)).
Proof.
  revert snapshot. induction items as [|kv items IH]; intros snapshot Hnd;
    [exact Hnd|].
  simpl. apply IH. now apply set_item_nodup.
Qed.


Lemma scan_nodup (ignore : list string) (tree : list (string * node)) :
  NoDup (map fst (_scan ignore tree)).
Proof.
  unfold _scan. destruct (walk_assigns ignore (Dir tree) [] [])
    as (items & -> & _).
  apply assign_nodup. constructor.
Qed.


Lemma assoc_nodup (k : string) (v : Z) (snapshot : Snapshot) :
  NoDup (map fst snapshot) -> In (k, v) snapshot ->
  assoc k snapshot = Some v.
Proof.
  induction snapshot as [|[k' v'] snapshot IH]; intros Hnd Hin;
    [destruct Hin|].
  simpl in *. apply NoDup_cons in Hnd as [Hout Hnd].
  destruct Hin as [[= -> ->]|Hin].
  - now rewrite String.eqb_refl.
  - destruct (String.eqb_spec k k') as [->|Hne]; [|now apply IH].
    destruct Hout. apply list_elem_of_In, in_map_iff. exists (k', v). auto.
Qed.

Lemma no_change (snapshot : Snapshot) :
  NoDup (map fst snapshot) ->
  omap (added_or_modified snapshot) snapshot
  ++ omap (deleted snapshot) snapshot = [].
Proof.
  intros Hnd.
  assert (H1 : forall l, (forall x, In x l -> In x snapshot) ->
                 omap (added_or_modified snapshot) l = []).
  { induction l as [|[k v] l IH]; intros Hsub; [reflexivity|].
    simpl. unfold added_or_modified at 1. simpl.
    rewrite (assoc_nodup k v snapshot Hnd) by (apply Hsub; now left).
    rewrite Z.ltb_irrefl. apply IH. intros x Hx. apply Hsub. now right. }
  assert (H2 : forall l, (forall x, In x l -> In x snapshot) ->
                 omap (deleted snapshot) l = []).
  { induction l as [|[k v] l IH]; intros Hsub; [reflexivity|].
    simpl. unfold deleted at 1. simpl.
    rewrite (assoc_nodup k v snapshot Hnd) by (apply Hsub; now left).
    apply IH. intros x Hx. apply Hsub. now right. }
  rewrite H1, H2 by auto. reflexivity.
Qed.

Lemma slice_nil {A} (limit : Z) : MemoryStore.slice_to limit (@nil A) = [].
Proof.
  unfold MemoryStore.slice_to. destruct (0 <=? limit)%Z; apply take_nil.
Qed.

(** X29. [poll] reports a change once: a second poll over an unchanged
    tree returns no change, whatever the first one returned, also when
    the first one cut its report at [max_changes]; and so does the first
    poll of a fresh watcher. *)
Theorem second_poll_is_quiet (fw : FileWatcher)
    (tree : list (string * node)) (first second : Z) :
  snd (poll (fst (poll fw tree first)) tree second) = []
  /\ snd (poll (init (ignore_dirs fw) tree) tree first) = [].
Proof.
  split; unfold poll, init; simpl;
    rewrite no_change by apply scan_nodup; apply slice_nil.
Qed.


Lemma assoc_In (k : string) (v : Z) (snapshot : Snapshot) :
  assoc k snapshot = Some v -> In (k, v) snapshot.
Proof.
  induction snapshot as [|[k' v'] snapshot IH]; [discriminate|].
  simpl. destruct (String.eqb_spec k k') as [->|Hne].
  - intros [= ->]. now left.
  - intros H. right. now apply IH.
Qed.

Lemma In_assoc (k : string) (v : Z) (snapshot : Snapshot) :
  In (k, v) snapshot -> exists v', assoc k snapshot = Some v'.
Proof.
  induction snapshot as [|[k' v'] snapshot IH]; [intros []|].
  simpl. destruct (String.eqb_spec k k') as [->|Hne]; [eauto|].
  intros [[= -> ->]|Hin]; [congruence|auto].
Qed.

Lemma omap_length_le {A B} (f : A -> option B) (l : list A) :
  length (omap f l) <= length l.
Proof.
  induction l as [|x l IH]; [simpl; lia|].
  change (omap f (x :: l))
    with (match f x with Some y => y :: omap f l | None => omap f l end).
  destruct (f x); simpl; lia.
Qed.

Lemma slice_subset {A} (limit : Z) (l : list A) (x : A) :
  In x (MemoryStore.slice_to limit l) -> In x l.
Proof.
  unfold MemoryStore.slice_to. rewrite <- !list_elem_of_In.
  destruct (0 <=? limit)%Z; apply subseteq_take.
Qed.

Lemma changes_are_differences (snapshot current : Snapshot) (c : string) :
  NoDup (map fst current) ->
  In c (omap (added_or_modified snapshot) current
        ++ omap (deleted current) snapshot)
  <-> difference snapshot current c.
Proof.
  intros Hnd. rewrite in_app_iff, <- !list_elem_of_In, !list_elem_of_omap.
  unfold difference. split.
  - intros [[[k v] [Hin Hc]]|[[k v] [Hin Hc]]].
    + apply list_elem_of_In in Hin.
      pose proof (assoc_nodup k v current Hnd Hin) as Hcur.
      unfold added_or_modified in Hc. simpl in Hc.
      destruct (assoc k snapshot) as [old|] eqn:Hold.
      * destruct (Z.ltb_spec old v); [|discriminate]. injection Hc as <-.
        right. left. exists k, v, old. auto.
      * injection Hc as <-. left. exists k, v. auto.
    + apply list_elem_of_In, In_assoc in Hin as [old Hold].
      unfold deleted in Hc. simpl in Hc.
      destruct (assoc k current) eqn:Hcur; [discriminate|].
      injection Hc as <-. right. right. exists k, old. auto.
  - intros [(k & v & -> & Hcur & Hold)
           |[(k & v & old & -> & Hcur & Hold & Hlt)
            |(k & old & -> & Hold & Hcur)]].
    + left. exists (k, v). split.
      * now apply list_elem_of_In, assoc_In.
      * unfold added_or_modified. simpl. now rewrite Hold.
    + left. exists (k, v). split.
      * now apply list_elem_of_In, assoc_In.
      * unfold added_or_modified. simpl. rewrite Hold.
        now rewrite (proj2 (Z.ltb_lt old v) Hlt).
    + right. exists (k, old). split.
      * now apply list_elem_of_In, assoc_In.
      * unfold deleted. simpl. now rewrite Hcur.
Qed.

(** X30. After [poll] the snapshot is the current scan.  Every change it
    returns is a difference between the old snapshot and the scan (a
    path that is new, a path whose time moved forward, a path that is
    gone: a time that moved backward is not reported); with a limit that
    is not negative at most [max_changes] are returned; and when the
    limit leaves room for all of them, every difference is returned. *)
Theorem poll_reports_the_differences (fw : FileWatcher)
    (tree : list (string * node)) (max_changes : Z) :
  let current := _scan (ignore_dirs fw) tree in
  _snapshot (fst (poll fw tree max_changes)) = current
  /\ (forall c, In c (snd (poll fw tree max_changes)) ->
                difference (_snapshot fw) current c)
  /\ ((0 <= max_changes)%Z ->
      (Z.of_nat (length (snd (poll fw tree max_changes))) <= max_changes)%Z)
  /\ ((Z.of_nat (length current + length (_snapshot fw)) <= max_changes)%Z ->
      forall c, difference (_snapshot fw) current c ->
                In c (snd (poll fw tree max_changes))).
Proof.
  intros current. unfold poll. fold current. simpl.
  pose proof (scan_nodup (ignore_dirs fw) tree) as Hnd. fold current in Hnd.
  split; [reflexivity|]. split; [|split].
  - intros c Hc. apply slice_subset in Hc.
    now apply changes_are_differences.
  - apply MemoryFacts.slice_to_length.
  - intros Hroom c Hc. rewrite MemoryFacts.slice_to_all.
    + now apply changes_are_differences.
    + rewrite length_app.
      pose proof (omap_length_le (added_or_modified (_snapshot fw)) current).
      pose proof (omap_length_le (deleted current) (_snapshot fw)).
      lia.
Qed.

End WatchFacts.

(** ** The further properties at concrete inputs *)


(** X2 at the same write: the key that changed lies below the root. *)
Lemma write_file_stays_inside_witness :
  exists rest,
    ["/"; "repo"; "workspaces"; "demo"; "notes.txt"]
    = PyPath.abs_parts (resolve quiet_posix WORKSPACE) ++ rest.
Proof.
  apply (FsFacts.write_file_stays_inside quiet_posix empty_world WORKSPACE
           "notes.txt" "hello").
  - intros path H. vm_compute in H. injection H as <-. reflexivity.
  - vm_compute. discriminate.
Defined.



(** X5 at the same search with the workspace named relative to the
    working directory. *)
Lemma search_in_files_wants_canonical_root_witness :
  exists msg,
    FsTools.search_in_files quiet_posix demo_files RELATIVE_WORKSPACE "src"
      "util"
    = Raise (ValueError msg).
Proof.
  apply (FsFacts.search_in_files_wants_canonical_root quiet_posix demo_files
           RELATIVE_WORKSPACE
           (mkPath "/" ["repo"; "workspaces"; "demo"; "src"]) "src" "util"
           ["/"; "repo"; "workspaces"; "demo"; "src"; "app.py"]
           ("import util" +:+ LF +:+ "  print(util.answer())  " +:+ LF)).
  - vm_compute. reflexivity.
  - vm_compute. reflexivity.
  - vm_compute. reflexivity.
  - vm_compute. reflexivity.
  - vm_compute. discriminate.
Defined.

(** X7 at an interpreter outside the usual places. *)
Lemma allow_check_sees_basename_only_witness :
  CmdTools._extract_exe quiet_posix "/opt/tools/python -V" = Ok "python"
  /\ trace (fst (CmdTools.run_cmd quiet_posix empty_world
                   "/opt/tools/python -V" "." WORKSPACE None 30 4000))
     = [EvSpawn "/opt/tools/python -V" WORKSPACE].
Proof.
  apply (CmdFacts.allow_check_sees_basename_only quiet_posix empty_world
           "/opt/tools/python -V" "." WORKSPACE None 30 4000
           "/opt/tools" "python" ["-V"] WORKSPACE).
  - vm_compute. reflexivity.
  - vm_compute. reflexivity.
  - simpl. tauto.
  - vm_compute. reflexivity.
  - vm_compute. reflexivity.
Defined.

(** X8 at a command of three spaces, with an allow-list of its own. *)
Lemma blank_command_is_refused_witness :
  CmdTools.run_cmd quiet_posix empty_world "   " "." WORKSPACE (Some ["sh"])
    30 4000
  = (empty_world, Raise (CmdError "Empty command")).
Proof.
  apply (CmdFacts.blank_command_is_refused quiet_posix empty_world "   " "."
           WORKSPACE (Some ["sh"]) 30 4000).
  - reflexivity.
  - vm_compute. reflexivity.
Defined.

(** X9 at two spellings of the same allow-set. *)
Lemma allowlist_is_a_set_witness :
  CmdTools.run_cmd quiet_posix empty_world "git status" "." WORKSPACE
    (Some ["git"; "make"]) 30 4000
  = CmdTools.run_cmd quiet_posix empty_world "git status" "." WORKSPACE
      (Some ["make"; "git"; "make"]) 30 4000
  /\ CmdTools.run_cmd quiet_posix empty_world "git status" "." WORKSPACE
       (Some []) 30 4000
     = CmdTools.run_cmd quiet_posix empty_world "git status" "." WORKSPACE
         None 30 4000.
Proof.
  apply (CmdFacts.allowlist_is_a_set quiet_posix empty_world "git status" "."
           WORKSPACE ["git"; "make"] ["make"; "git"; "make"] 30 4000).
  intros exe. simpl. tauto.
Defined.

(** X10 at the sample workspace. *)
Lemma git_commands_run_in_root_witness :
  GitTools.git_status quiet_posix empty_world WORKSPACE
  = (emit (EvSpawn "git status -sb" WORKSPACE) empty_world,
     Ok {| CmdTools.returncode := 0; CmdTools.output := "" |})
  /\ GitTools.git_diff quiet_posix empty_world WORKSPACE
     = (emit (EvSpawn "git diff" WORKSPACE) empty_world,
        Ok {| CmdTools.returncode := 0; CmdTools.output := "" |}).
Proof.
  apply (CmdFacts.git_commands_run_in_root quiet_posix empty_world WORKSPACE).
  - intros text. reflexivity.
  - reflexivity.
  - vm_compute. reflexivity.
Defined.

(** With a relative root the working directory handed to [run_cmd] is
    taken relative to the root once more: the command runs in
    [root/root]. *)
Example git_status_relative_root :
  trace (fst (GitTools.git_status quiet_posix empty_world (mkPath "" ["sub"])))
  = [EvSpawn "git status -sb" (mkPath "/" ["sub"; "sub"])].
Proof. vm_compute. reflexivity. Qed.

(** X11 at a reply with blank space around the document. *)
Lemma dumped_response_validates_witness :
  Schema.parse_action_response quiet_posix ONE_WRITE_REPLY = Ok one_write.
Proof.
  apply (SchemaFacts.dumped_response_validates quiet_posix ONE_WRITE_REPLY
           one_write).
  vm_compute. reflexivity.
Defined.

(** X12 at the same reply. *)
Lemma accepted_response_shape_witness :
  exists fields,
    json_loads quiet_posix (PyStr.strip ONE_WRITE_REPLY) = Some (JObj fields)
    /\ assoc "thought" fields = Some (JStr "x")
    /\ (forall k, k <> "thought" -> k <> "actions" -> assoc k fields = None)
    /\ match assoc "actions" fields with
       | None => Schema.actions one_write = []
       | Some (JArr items) =>
           Forall2
             (fun j a =>
                forall k,
                  assoc k (fields_of j)
                  = assoc k (fields_of (Orchestrator.action_to_json a)))
             items (Schema.actions one_write)
       | Some _ => False
       end.
Proof.
  apply (SchemaFacts.accepted_response_shape quiet_posix ONE_WRITE_REPLY
           one_write).
  vm_compute. reflexivity.
Defined.

(** X13 at a query in capitals. *)
Lemma tokens_are_lowercase_words_witness :
  MemoryStore._tokenize "TASK Run1" = MemoryStore._tokenize "task run1"
  /\ MemoryStore.retrieve quiet_posix (earlier_lessons 2) MEMORIES "TASK Run1" 3
     = MemoryStore.retrieve quiet_posix (earlier_lessons 2) MEMORIES
         "task run1" 3.
Proof.
  apply (StoreFacts.tokens_are_lowercase_words quiet_posix (earlier_lessons 2)
           MEMORIES "task run1" "TASK Run1" 3).
  vm_compute. reflexivity.
Defined.

(** X16 at the second lesson of a store: under [task] the path is
    appended, under [run1] nothing changes. *)
Lemma write_lesson_only_appends_witness :
  let written :=
    MemoryStore.write_lesson quiet_posix (earlier_lessons 1) MEMORIES
      "run2" "Task run2 completed with result tests_passed." [] in
  items_of (index (earlier_lessons 1)) "task" = ["lessons/run1.md"]
  /\ items_of (index (fst written)) "task"
     = ["lessons/run1.md"; "lessons/run2.md"]
  /\ items_of (index (fst written)) "run1" = ["lessons/run1.md"].
Proof.
  intros written.
  destruct written as [w' [path|e]] eqn:Hw.
  - destruct (StoreFacts.write_lesson_only_appends quiet_posix
                (earlier_lessons 1) w' MEMORIES path "run2"
                "Task run2 completed with result tests_passed." [] Hw)
      as [rel [Hrel Hitems]].
    assert (Hr : PyPath.to_string rel = "lessons/run2.md").
    { apply (f_equal snd) in Hw. vm_compute in Hw. injection Hw as <-.
      vm_compute in Hrel. injection Hrel as <-. reflexivity. }
    split; [vm_compute; reflexivity|]. simpl. rewrite !Hitems, Hr.
    split; vm_compute; reflexivity.
  - apply (f_equal snd) in Hw. vm_compute in Hw. discriminate.
Defined.



(** X19 at a [read_file] whose path is the placeholder. *)
Lemma rejected_action_runs_no_tool_witness :
  Orchestrator.execute_action quiet_posix demo_files false WORKSPACE
    (PyPath.child WORKSPACE "actions.log") (Schema.ReadFileAction " ... ")
  = (Orchestrator.log quiet_posix demo_files
       (PyPath.child WORKSPACE "actions.log")
       (JObj [("tool", JStr "read_file");
              ("input",
               Orchestrator.action_to_json (Schema.ReadFileAction " ... "));
              ("result",
               JObj [("error",
                      JStr "read_file path is missing or placeholder")])]),
     Orchestrator.RError "read_file path is missing or placeholder", []).
Proof.
  apply (proj2 (ActionFacts.rejected_action_runs_no_tool quiet_posix
                  demo_files false WORKSPACE
                  (PyPath.child WORKSPACE "actions.log")
                  (Schema.ReadFileAction " ... "))).
  vm_compute. reflexivity.
Defined.

(** X20 at a write that succeeds after a read that fails. *)
Lemma execute_actions_runs_every_action_witness :
  exists w1 r1 r2,
    Orchestrator.execute_list quiet_posix empty_world false WORKSPACE
      (PyPath.child WORKSPACE "actions.log")
      [Schema.ReadFileAction "missing.txt"; Schema.WriteFileAction "a.txt" "b"]
    = (w1, ([Orchestrator.RError r1; Orchestrator.RText r2], ["a.txt"])).
Proof.
  pose proof (ActionFacts.execute_actions_runs_every_action quiet_posix
                [Schema.ReadFileAction "missing.txt";
                 Schema.WriteFileAction "a.txt" "b"] []
                empty_world false WORKSPACE
                (PyPath.child WORKSPACE "actions.log")) as H.
  destruct (Orchestrator.execute_list quiet_posix empty_world false WORKSPACE
              (PyPath.child WORKSPACE "actions.log")
              [Schema.ReadFileAction "missing.txt";
               Schema.WriteFileAction "a.txt" "b"])
    as [w1 [results touched]] eqn:Hrun.
  destruct H as [Hlen _].
  assert (Hr : results = [Orchestrator.RError "No such file: /repo/workspaces/demo/missing.txt";
                          Orchestrator.RText "wrote /repo/workspaces/demo/a.txt"]
               /\ touched = ["a.txt"]).
  { apply (f_equal snd) in Hrun. vm_compute in Hrun.
    injection Hrun as <- <-. split; reflexivity. }
  destruct Hr as [-> ->]. eauto.
Defined.

(** X21 and X22 at a PLAN round whose reply is prose. *)
Lemma round_follows_the_table_witness :
  exists w' s' fb',
    Orchestrator.loop_body babbling_posix (demo_run []) empty_world
      plan_state ""
    = Orchestrator.Continue w' s' fb'
    /\ exists tag,
         Orchestrator.last_result s' = Some tag
         /\ In ("PLAN", Orchestrator.phase s', tag) TRANSITIONS.
Proof.
  assert (Hk : continues
                 (Orchestrator.loop_body babbling_posix (demo_run [])
                    empty_world plan_state "") = true)
    by (vm_compute; reflexivity).
  destruct (Orchestrator.loop_body babbling_posix (demo_run []) empty_world
              plan_state "") as [w' s' fb'|w' s'|w' s' e] eqn:Hround;
    try discriminate Hk.
  exists w', s', fb'. split; [reflexivity|].
  destruct (Rounds.round_follows_the_table babbling_posix (demo_run [])
              empty_world w' plan_state s' "" fb' Hround)
    as [[Hph _]|Htable]; [discriminate Hph|exact Htable].
Defined.

Lemma continuing_round_persists_state_witness :
  exists w' s' fb',
    Orchestrator.loop_body babbling_posix (demo_run []) empty_world
      plan_state ""
    = Orchestrator.Continue w' s' fb'
    /\ files w' !! ["/"; "repo"; "workspaces"; "demo"; "state.json"]
       = Some (Json.dumps_indent 0 (Orchestrator.state_to_json s')).
Proof.
  assert (Hk : continues
                 (Orchestrator.loop_body babbling_posix (demo_run [])
                    empty_world plan_state "") = true)
    by (vm_compute; reflexivity).
  destruct (Orchestrator.loop_body babbling_posix (demo_run []) empty_world
              plan_state "") as [w' s' fb'|w' s'|w' s' e] eqn:Hround;
    try discriminate Hk.
  exists w', s', fb'. split; [reflexivity|].
  exact (Rounds.continuing_round_persists_state babbling_posix (demo_run [])
           empty_world w' plan_state s' "" fb' Hround).
Defined.

(** X23 and X24 at a run that plans, implements, verifies and is done. *)
Lemma requests_bounded_by_limit_witness :
  exists o,
    Orchestrator.loop helpful_posix 6 (demo_run []) empty_world
      Orchestrator.initial_state "" = Some o
    /\ turns (final_world o) = 2%nat
    /\ (Z.of_nat (turns (final_world o)) - Z.of_nat (turns empty_world)
        <= Z.max 0 (8 - 0))%Z.
Proof.
  assert (Hs : option_map (fun o => turns (final_world o))
                 (Orchestrator.loop helpful_posix 6 (demo_run []) empty_world
                    Orchestrator.initial_state "")
               = Some 2%nat)
    by (vm_compute; reflexivity).
  destruct (Orchestrator.loop helpful_posix 6 (demo_run []) empty_world
              Orchestrator.initial_state "") as [o|] eqn:Hrun;
    [|discriminate].
  apply (inj Some) in Hs. exists o. split; [reflexivity|]. split; [exact Hs|].
  exact (proj2 (Rounds.requests_bounded_by_limit helpful_posix (demo_run [])
                  empty_world Orchestrator.initial_state "") 6%nat o Hrun).
Defined.

Lemma files_touched_only_grows_witness :
  exists o,
    Orchestrator.loop helpful_posix 6 (demo_run []) empty_world
      Orchestrator.initial_state "" = Some o
    /\ Orchestrator.files_touched (final_state o) = ["plan.md"]
    /\ NoDup (Orchestrator.files_touched (final_state o)).
Proof.
  assert (Hs : option_map (fun o => Orchestrator.files_touched (final_state o))
                 (Orchestrator.loop helpful_posix 6 (demo_run []) empty_world
                    Orchestrator.initial_state "")
               = Some ["plan.md"])
    by (vm_compute; reflexivity).
  destruct (Orchestrator.loop helpful_posix 6 (demo_run []) empty_world
              Orchestrator.initial_state "") as [o|] eqn:Hrun;
    [|discriminate].
  apply (inj Some) in Hs. exists o. split; [reflexivity|]. split; [exact Hs|].
  destruct (Rounds.files_touched_only_grows helpful_posix 6 (demo_run [])
              empty_world Orchestrator.initial_state "" o Hrun)
    as (added & _ & Hnd).
  apply Hnd. constructor.
Defined.

(** X25 at the interrupted run: the loop is entered with the state of the
    state file. *)
Lemma resume_continues_from_persisted_state_witness :
  Orchestrator.resume_task quiet_posix 5 paused_world REPO "demo"
  = Orchestrator.Ran
      <$> Orchestrator._run_loop quiet_posix 5 paused_world REPO
            {| Orchestrator.task_id := "demo"; Orchestrator.title := "";
               Orchestrator.goal := "Add a function";
               Orchestrator.constraints := []; Orchestrator.context := [] |}
            WORKSPACE paused_state None.
Proof.
  apply (EntryFacts.resume_continues_from_persisted_state quiet_posix 5
           paused_world REPO "demo"
           {| Orchestrator.task_id := "demo"; Orchestrator.title := "";
              Orchestrator.goal := "Add a function";
              Orchestrator.constraints := []; Orchestrator.context := [] |}
           paused_state).
  - vm_compute. reflexivity.
  - vm_compute. reflexivity.
  - vm_compute. reflexivity.
Defined.

(** X26 at a task whose workspace holds a file of an earlier run. *)
Lemma init_workspace_starts_clean_witness :
  exists w',
    Orchestrator._init_workspace quiet_posix queued_world REPO (demo_task [])
      TASK_FILE
    = (w', Ok WORKSPACE)
    /\ files queued_world !! ["/"; "repo"; "workspaces"; "demo"; "old.py"]
       = Some "x = 1"
    /\ files w' !! ["/"; "repo"; "workspaces"; "demo"; "old.py"] = None
    /\ files w' !! ["/"; "repo"; "tasks"; "demo.json"]
       = files queued_world !! ["/"; "repo"; "tasks"; "demo.json"].
Proof.
  destruct (Orchestrator._init_workspace quiet_posix queued_world REPO
              (demo_task []) TASK_FILE) as [w' [ws|e]] eqn:Hrun;
    [|apply (f_equal snd) in Hrun; vm_compute in Hrun; discriminate].
  destruct (EntryFacts.init_workspace_starts_clean quiet_posix queued_world
              w' REPO (demo_task []) TASK_FILE ws Hrun)
    as [Hws [text [_ [_ [_ Hrest]]]]].
  assert (Hw : ws = WORKSPACE) by (rewrite Hws; vm_compute; reflexivity).
  exists w'. rewrite <- Hw. split; [reflexivity|].
  split; [vm_compute; reflexivity|]. rewrite Hw in Hrest. split.
  - rewrite Hrest; [vm_compute; reflexivity| |]; vm_compute; discriminate.
  - rewrite Hrest; [vm_compute; reflexivity| |]; vm_compute; discriminate.
Defined.

(** X27 at a run started from the task file of the workspace itself. *)
Lemma task_file_inside_its_workspace_witness :
  exists w' msg,
    Orchestrator.run_task quiet_posix 5 paused_world REPO
      (PyPath.child WORKSPACE "task.json")
    = Some (Orchestrator.Failed w' (OSError msg))
    /\ files w' !! ["/"; "repo"; "workspaces"; "demo"; "state.json"] = None.
Proof.
  destruct (EntryFacts.task_file_inside_its_workspace quiet_posix 5
              paused_world REPO (PyPath.child WORKSPACE "task.json")
              {| Orchestrator.task_id := "demo"; Orchestrator.title := "";
                 Orchestrator.goal := "Add a function";
                 Orchestrator.constraints := []; Orchestrator.context := [] |})
    as (w' & msg & Hrun & Hfiles).
  - vm_compute. reflexivity.
  - vm_compute. reflexivity.
  - exists w', msg. split; [exact Hrun|]. rewrite Hfiles.
    vm_compute. reflexivity.
Defined.


(** X30 at the edited tree: three of the four differences are changes,
    the file whose time was set back is not among them. *)
Lemma poll_reports_the_differences_witness :
  let fw := Watch.init ["node_modules"] demo_tree in
  snd (Watch.poll fw edited_tree 25)
  = ["modified: app.py"; "added: src/new.py"; "deleted: src/util.py"]
  /\ difference (Watch._snapshot fw) (Watch._scan ["node_modules"] edited_tree)
       "deleted: src/util.py"
  /\ (Z.of_nat (length (snd (Watch.poll fw edited_tree 2))) <= 2)%Z.
Proof.
  intros fw.
  destruct (WatchFacts.poll_reports_the_differences fw edited_tree 25)
    as [_ [Hsound _]].
  destruct (WatchFacts.poll_reports_the_differences fw edited_tree 2)
    as [_ [_ [Hcut _]]].
  split; [vm_compute; reflexivity|]. split.
  - apply Hsound. vm_compute. tauto.
  - apply Hcut. lia.
Defined.
